(** * The p2pool coordinator (src/p2pool.cpp): a shallow embedding

    The coordinator owns the main-chain index (two maps, by height and by
    hash), the latest miner data, the pending submit request and the list of
    found blocks.  Calls into collaborators (mempool, telemetry API, JSON-RPC
    client, found-blocks file) are recorded as a trace of effects; values read
    from collaborators (side chain counters, template blobs, the clock) are
    inputs. *)

From Stdlib Require Import ZArith Lia List String Ascii Bool.
From Stdlib.Strings Require Import Byte.
From stdpp Require Import base option list sorting gmap fin_maps.

Local Open Scope Z_scope.

(** ** Machine integers *)

Definition u64 (x : Z) : Z := x mod 2 ^ 64.
Definition u32 (x : Z) : Z := x mod 2 ^ 32.

(** ** Constants of p2pool.cpp *)

Definition BLOCK_HEADERS_REQUIRED : Z := 720.
Definition SEEDHASH_EPOCH_BLOCKS : Z := 2048.
Definition SEEDHASH_EPOCH_LAG : Z := 64.

(** ** get_seed_height (p2pool.cpp:139-145) *)

Definition get_seed_height (height : Z) : Z :=
  if SEEDHASH_EPOCH_LAG <? height
  then Z.land (u64 (height - SEEDHASH_EPOCH_LAG - 1))
              (u64 (Z.lnot (SEEDHASH_EPOCH_BLOCKS - 1)))
  else 0.

(** ** Data model *)

(** A [hash] is 32 bytes; it is carried as the 256-bit number the bytes spell,
    the all-zero hash being [0]. *)
Abbreviation hash := Z (only parsing).

(** Modelled from the spec: [difficulty_type] (common.h, not under src/) is a
    128-bit value kept as two 64-bit halves [lo] and [hi], zero by default,
    compared as a 128-bit number. *)
Record difficulty_type := mk_difficulty { lo : Z; hi : Z }.

Definition difficulty_zero : difficulty_type := mk_difficulty 0 0.

Definition difficulty_value (d : difficulty_type) : Z := hi d * 2 ^ 64 + lo d.

Definition difficulty_lt (a b : difficulty_type) : bool :=
  (hi a <? hi b) || ((hi a =? hi b) && (lo a <? lo b)).

Module ChainMain.
Record t := mk {
  difficulty : difficulty_type;
  height : Z;
  timestamp : Z;
  reward : Z;
  id : hash
}.
(** Modelled from the spec: a default-constructed [ChainMain] (common.h, not
    under src/) has every field zero ("0 when unknown"). *)
Definition default : t := mk difficulty_zero 0 0 0 0.
End ChainMain.

Module TxMempoolData.
Record t := mk {
  id : hash;
  blob_size : Z;
  weight : Z;
  fee : Z
}.
End TxMempoolData.

Module MinerData.
Record t := mk {
  major_version : Z;
  height : Z;
  prev_id : hash;
  seed_hash : hash;
  difficulty : difficulty_type;
  median_weight : Z;
  already_generated_coins : Z;
  tx_backlog : list TxMempoolData.t;
  median_timestamp : Z;
  time_received : Z
}.
Definition default : t := mk 0 0 0 0 difficulty_zero 0 0 [] 0 0.
Definition set_median_timestamp (m : Z) (d : t) : t :=
  mk (major_version d) (height d) (prev_id d) (seed_hash d) (difficulty d)
     (median_weight d) (already_generated_coins d) (tx_backlog d) m
     (time_received d).
Definition received (now : Z) (d : t) : t :=
  mk (major_version d) (height d) (prev_id d) (seed_hash d) (difficulty d)
     (median_weight d) (already_generated_coins d) [] (median_timestamp d) now.
End MinerData.

Module SubmitBlockData.
Record t := mk {
  template_id : Z;
  nonce : Z;
  extra_nonce : Z;
  blob : list byte
}.
End SubmitBlockData.

Module FoundBlock.
Record t := mk {
  timestamp : Z;
  height : Z;
  id : hash;
  block_diff : difficulty_type;
  total_hashes : difficulty_type
}.
End FoundBlock.

(** ** Collaborators *)

Inductive async_handle := SubmitBlockAsync | BlockTemplateAsync | StopAsync.

(** The [global/stats_mod] snapshot; the constant [config] part of the JSON
    text is left out. *)
Record stats_mod := mk_stats_mod {
  sm_network_height : Z;
  sm_last_block_found_time : Z;
  sm_last_block_found_hash : hash;
  sm_last_block_found_height : Z;
  sm_miners : Z;
  sm_hashrate : Z;
  sm_round_hashes : Z
}.

Record pool_stats := mk_pool_stats {
  ps_hashrate : Z;
  ps_miners : Z;
  ps_total_hashes : difficulty_type;
  ps_last_block_found_time : Z;
  ps_last_block_found : Z;
  ps_total_blocks_found : Z
}.

(** What the coordinator does to the world outside its own members, in the
    order it does it. *)
Inductive effect :=
| Mempool_add (tx : TxMempoolData.t)
| Mempool_swap (txs : list TxMempoolData.t)
| Hasher_set_seed_async (seed : hash)
| BlockTemplate_update (data : MinerData.t)
| Stratum_on_block
| SideChain_watch_mainchain_block (data : ChainMain.t) (sidechain_id : hash)
| Clear_crypto_cache
| Async_send (h : async_handle)
| Rpc_get_block_header_by_height (h : Z)
| Rpc_submit_block (request : string)
| File_append (line : FoundBlock.t)
| Api_network_stats (tip : ChainMain.t)
| Api_pool_stats (st : pool_stats)
| Api_pool_blocks (blocks : list FoundBlock.t)
| Api_stats_mod (st : stats_mod).

(** What the coordinator reads from the world during one event.  The clock is
    read once per event. *)
Record Env := mk_env {
  now : Z;
  is_main_thread : bool;
  sidechain_total_hashes : difficulty_type;
  sidechain_hashrate : Z;
  sidechain_miner_count : Z;
  peer_list_size : Z;
  sidechain_has_block : hash -> bool;
  get_block_template_blob : Z -> list byte * Z * Z;
  found_blocks_writable : bool;
  found_blocks_file : option (list Z)
}.

(** ** Coordinator state *)

Record p2pool := mk_p2pool {
  m_api : bool;
  m_updateSeed : bool;
  m_submitBlockData : SubmitBlockData.t;
  m_mainchainByHeight : gmap Z ChainMain.t;
  m_mainchainByHash : gmap Z ChainMain.t;
  m_minerData : MinerData.t;
  m_foundBlocks : list FoundBlock.t;
  m_zmqLastActive : Z;
  m_serversStarted : bool
}.

(** The state the constructor leaves (p2pool.cpp:47-54), for either setting of
    the API path. *)
Definition p2pool_init (api : bool) : p2pool :=
  mk_p2pool api true (SubmitBlockData.mk 0 0 0 []) ∅ ∅ MinerData.default [] 0
            false.

Definition set_updateSeed (b : bool) (s : p2pool) : p2pool :=
  mk_p2pool (m_api s) b (m_submitBlockData s) (m_mainchainByHeight s)
            (m_mainchainByHash s) (m_minerData s) (m_foundBlocks s)
            (m_zmqLastActive s) (m_serversStarted s).

Definition set_submitBlockData (d : SubmitBlockData.t) (s : p2pool) : p2pool :=
  mk_p2pool (m_api s) (m_updateSeed s) d (m_mainchainByHeight s)
            (m_mainchainByHash s) (m_minerData s) (m_foundBlocks s)
            (m_zmqLastActive s) (m_serversStarted s).

Definition set_mainchain (bh bx : gmap Z ChainMain.t) (s : p2pool) : p2pool :=
  mk_p2pool (m_api s) (m_updateSeed s) (m_submitBlockData s) bh bx
            (m_minerData s) (m_foundBlocks s) (m_zmqLastActive s)
            (m_serversStarted s).

Definition set_minerData (d : MinerData.t) (s : p2pool) : p2pool :=
  mk_p2pool (m_api s) (m_updateSeed s) (m_submitBlockData s)
            (m_mainchainByHeight s) (m_mainchainByHash s) d (m_foundBlocks s)
            (m_zmqLastActive s) (m_serversStarted s).

Definition set_foundBlocks (l : list FoundBlock.t) (s : p2pool) : p2pool :=
  mk_p2pool (m_api s) (m_updateSeed s) (m_submitBlockData s)
            (m_mainchainByHeight s) (m_mainchainByHash s) (m_minerData s) l
            (m_zmqLastActive s) (m_serversStarted s).

Definition set_zmqLastActive (t : Z) (s : p2pool) : p2pool :=
  mk_p2pool (m_api s) (m_updateSeed s) (m_submitBlockData s)
            (m_mainchainByHeight s) (m_mainchainByHash s) (m_minerData s)
            (m_foundBlocks s) t (m_serversStarted s).

Definition set_serversStarted (b : bool) (s : p2pool) : p2pool :=
  mk_p2pool (m_api s) (m_updateSeed s) (m_submitBlockData s)
            (m_mainchainByHeight s) (m_mainchainByHash s) (m_minerData s)
            (m_foundBlocks s) (m_zmqLastActive s) b.

(** An action runs on the coordinator and leaves a trace of effects. *)
Definition action := p2pool -> p2pool * list effect.

Definition skip : action := fun s => (s, []).
Definition emit (e : effect) : action := fun s => (s, [e]).
Definition modify (f : p2pool -> p2pool) : action := fun s => (f s, []).
Definition and_then (a b : action) : action :=
  fun s => let '(s1, t1) := a s in let '(s2, t2) := b s1 in (s2, t1 ++ t2).
Notation "a >>> b" := (and_then a b) (at level 61, left associativity).

(** ** Main-chain index *)

(** [std::map::operator[]]: the entry at [k], default-constructed when absent. *)
Definition at_height (bh : gmap Z ChainMain.t) (k : Z) : ChainMain.t :=
  default ChainMain.default (bh !! k).

(** The by-height map in the ascending key order a [std::map] iterates in. *)
Definition height_le (a b : Z * ChainMain.t) : Prop := a.1 <= b.1.

#[global] Instance height_le_dec a b : Decision (height_le a b).
Proof. unfold height_le. apply _. Defined.

Definition by_height_ascending (bh : gmap Z ChainMain.t) : list (Z * ChainMain.t) :=
  merge_sort height_le (map_to_list bh).

Definition get_seed (height : Z) (s : p2pool) : option hash :=
  ChainMain.id <$> m_mainchainByHeight s !! get_seed_height height.

Definition chainmain_get_by_hash (id : hash) (s : p2pool) : option ChainMain.t :=
  m_mainchainByHash s !! id.

Definition get_difficulty_at_height (height : Z) (s : p2pool) : option difficulty_type :=
  ChainMain.difficulty <$> m_mainchainByHeight s !! height.

(** *** cleanup_mainchain_data (p2pool.cpp:1108-1131) *)

Definition PRUNE_DISTANCE : Z := BLOCK_HEADERS_REQUIRED.

Definition seed_heights (height : Z) : list Z :=
  let seed_height := get_seed_height height in
  [seed_height;
   u64 (seed_height - SEEDHASH_EPOCH_BLOCKS);
   u64 (seed_height - SEEDHASH_EPOCH_BLOCKS * 2)].

Definition erase_entry (h : Z) (c : ChainMain.t) (s : p2pool) : p2pool :=
  set_mainchain (delete h (m_mainchainByHeight s))
                (delete (ChainMain.id c) (m_mainchainByHash s)) s.

(** The loop over the by-height map: [l] is what is left to visit. *)
Fixpoint cleanup_walk (height : Z) (l : list (Z * ChainMain.t)) (s : p2pool) : p2pool :=
  match l with
  | [] => s
  | (h, c) :: rest =>
      if height <=? u64 (h + PRUNE_DISTANCE) then s
      else if bool_decide (h ∈ seed_heights height)
           then cleanup_walk height rest s
           else cleanup_walk height rest (erase_entry h c s)
  end.

Definition cleanup_mainchain_data (height : Z) (s : p2pool) : p2pool :=
  cleanup_walk height (by_height_ascending (m_mainchainByHeight s)) s.

(** *** Insertions under the write lock *)

(** handle_miner_data, p2pool.cpp:192-208, up to the call of the cleanup. *)
Definition miner_data_insert (data : MinerData.t) (s : p2pool) : p2pool :=
  let bh0 := m_mainchainByHeight s in
  let n := at_height bh0 (MinerData.height data) in
  let bh1 :=
    <[MinerData.height data :=
        ChainMain.mk (MinerData.difficulty data) (ChainMain.height n)
                     (ChainMain.timestamp n) (ChainMain.reward n)
                     (ChainMain.id n)]> bh0 in
  let h1 := u64 (MinerData.height data - 1) in
  let c := ChainMain.mk (ChainMain.difficulty (at_height bh1 h1)) h1 0 0
                        (MinerData.prev_id data) in
  set_mainchain (<[h1 := c]> bh1) (<[ChainMain.id c := c]> (m_mainchainByHash s)) s.

(** handle_chain_main, p2pool.cpp:287-299; the second component is [data]
    with the [id] copied back from the index. *)
Definition chain_main_upsert (data : ChainMain.t) (s : p2pool) : p2pool * ChainMain.t :=
  let old := at_height (m_mainchainByHeight s) (ChainMain.height data) in
  let c := ChainMain.mk (ChainMain.difficulty old) (ChainMain.height data)
                        (ChainMain.timestamp data) (ChainMain.reward data)
                        (ChainMain.id old) in
  (set_mainchain (<[ChainMain.height data := c]> (m_mainchainByHeight s))
                 (<[ChainMain.id c := c]> (m_mainchainByHash s)) s,
   ChainMain.mk (ChainMain.difficulty data) (ChainMain.height data)
                (ChainMain.timestamp data) (ChainMain.reward data)
                (ChainMain.id c)).

(** parse_block_header, p2pool.cpp:921-925, and the body of the loop of
    parse_block_headers_range, p2pool.cpp:972-973. *)
Definition store_header (c : ChainMain.t) (s : p2pool) : p2pool :=
  set_mainchain (<[ChainMain.height c := c]> (m_mainchainByHeight s))
                (<[ChainMain.id c := c]> (m_mainchainByHash s)) s.

(** [m_mainchainByHash[key]] read through [operator[]] (p2pool.cpp:991, 1056):
    an absent key is inserted with a default value. *)
Definition by_hash_index (key : hash) (s : p2pool) : p2pool * ChainMain.t :=
  match m_mainchainByHash s !! key with
  | Some c => (s, c)
  | None =>
      (set_mainchain (m_mainchainByHeight s)
                     (<[key := ChainMain.default]> (m_mainchainByHash s)) s,
       ChainMain.default)
  end.

(** parse_block_header (p2pool.cpp:889-929): [parsed] is what the JSON reply
    yields, [None] for a reply rejected by any of the checks. *)
Definition parse_block_header (parsed : option ChainMain.t) (s : p2pool) : bool * p2pool :=
  match parsed with
  | None => (false, s)
  | Some c => (true, store_header c s)
  end.

(** parse_block_headers_range (p2pool.cpp:931-980): [parsed] is the [headers]
    array, an element being [None] when it is skipped. *)
Definition store_headers (l : list (option ChainMain.t)) (s : p2pool) : p2pool :=
  foldl (fun s o => from_option (fun c => store_header c s) s o) s l.

Definition parse_block_headers_range (parsed : option (list (option ChainMain.t)))
    (s : p2pool) : Z * p2pool :=
  match parsed with
  | None => (0, s)
  | Some l => (u32 (Z.of_nat (length (omap (fun o => o) l))), store_headers l s)
  end.

(** ** Pending submit request (p2pool.cpp:338-370) *)

Definition submit_block_async (template_id nonce extra_nonce : Z) : action :=
  modify (set_submitBlockData (SubmitBlockData.mk template_id nonce extra_nonce []))
  >>> emit (Async_send SubmitBlockAsync).

Definition submit_block_async_blob (blob : list byte) : action :=
  modify (set_submitBlockData (SubmitBlockData.mk 0 0 0 blob))
  >>> emit (Async_send SubmitBlockAsync).

(** ** submit_block (p2pool.cpp:386-499) *)

Definition hex_digit (d : Z) : ascii :=
  nth (Z.to_nat d) (list_ascii_of_string "0123456789abcdef") "0"%char.

(** [snprintf(buf, sizeof(buf), "%02x", v)] for [0 <= v < 256]. *)
Definition hex02 (v : Z) : string :=
  String (hex_digit (v / 16)) (String (hex_digit (v mod 16)) EmptyString).

Definition byte_value (b : byte) : Z := Z.of_N (Byte.to_N b).

(** The rendering loop (p2pool.cpp:424-440) from index [i] on, [blob] being the
    bytes at [i] and after; [sizeof(submit_data.nonce)] is 4. *)
Fixpoint submit_block_hex (blob : list byte) (i nonce_offset extra_nonce_offset
    nonce extra_nonce : Z) : string :=
  match blob with
  | [] => EmptyString
  | b :: rest =>
      if negb (nonce_offset =? 0) && (nonce_offset <=? i)
         && (i <? u64 (nonce_offset + 4))
      then append (hex02 (Z.land nonce 255))
             (submit_block_hex rest (i + 1) nonce_offset extra_nonce_offset
                (Z.shiftr nonce 8) extra_nonce)
      else if negb (extra_nonce_offset =? 0) && (extra_nonce_offset <=? i)
              && (i <? u64 (extra_nonce_offset + 4))
      then append (hex02 (Z.land extra_nonce 255))
             (submit_block_hex rest (i + 1) nonce_offset extra_nonce_offset
                nonce (Z.shiftr extra_nonce 8))
      else append (hex02 (byte_value b))
             (submit_block_hex rest (i + 1) nonce_offset extra_nonce_offset
                nonce extra_nonce)
  end.

Definition dquote : string := String (ascii_of_nat 34) EmptyString.

Definition submit_request_prefix : string :=
  ("{" ++ dquote ++ "jsonrpc" ++ dquote ++ ":" ++ dquote ++ "2.0" ++ dquote
   ++ "," ++ dquote ++ "id" ++ dquote ++ ":" ++ dquote ++ "0" ++ dquote
   ++ "," ++ dquote ++ "method" ++ dquote ++ ":" ++ dquote ++ "submit_block"
   ++ dquote ++ "," ++ dquote ++ "params" ++ dquote ++ ":[" ++ dquote)%string.

Definition submit_request_suffix : string := (dquote ++ "]}")%string.

(** The blob and offsets [submit_block] renders: the pending blob with zero
    offsets when it is not empty (external), otherwise what the block template
    gives for [template_id]; [None] when that blob is empty too. *)
Definition submit_block_source (env : Env) (d : SubmitBlockData.t)
    : option (list byte * Z * Z) :=
  match SubmitBlockData.blob d with
  | [] =>
      let '(blob, nonce_offset, extra_nonce_offset) :=
        get_block_template_blob env (SubmitBlockData.template_id d) in
      match blob with
      | [] => None
      | _ => Some (blob, nonce_offset, extra_nonce_offset)
      end
  | blob => Some (blob, 0, 0)
  end.

Definition submit_block (env : Env) : action :=
  fun s =>
    let submit_data := m_submitBlockData s in
    match submit_block_source env submit_data with
    | None => (s, [])
    | Some (blob, nonce_offset, extra_nonce_offset) =>
        (s, [Rpc_submit_block
               (append submit_request_prefix
                  (append
                     (submit_block_hex blob 0 nonce_offset extra_nonce_offset
                        (SubmitBlockData.nonce submit_data)
                        (SubmitBlockData.extra_nonce submit_data))
                     submit_request_suffix))])
    end.

(** *** Decoding the hex and splicing bytes *)

Definition hex_value (c : ascii) : option Z :=
  let n := Z.of_nat (nat_of_ascii c) in
  if (48 <=? n) && (n <=? 57) then Some (n - 48)
  else if (97 <=? n) && (n <=? 102) then Some (n - 87)
  else None.

Definition byte_of_Z (v : Z) : byte :=
  default x00 (Byte.of_N (Z.to_N (v mod 256))).

Fixpoint hex_decode (s : string) : option (list byte) :=
  match s with
  | EmptyString => Some []
  | String a (String b rest) =>
      match hex_value a, hex_value b, hex_decode rest with
      | Some x, Some y, Some l => Some (byte_of_Z (16 * x + y) :: l)
      | _, _, _ => None
      end
  | String _ EmptyString => None
  end.

(** Little-endian encoding of a 32-bit value. *)
Definition le32 (n : Z) : list byte :=
  [byte_of_Z n; byte_of_Z (n / 2 ^ 8); byte_of_Z (n / 2 ^ 16);
   byte_of_Z (n / 2 ^ 24)].

(** [blob] with the bytes at [off], [off + 1], ... replaced by [patch], as far
    as they exist; [i] is the index of the first byte of [blob]. *)
Fixpoint replace_from (i : Z) (off : Z) (patch : list byte) (blob : list byte) : list byte :=
  match blob with
  | [] => []
  | b :: rest =>
      (if (off <=? i) && (i <? off + Z.of_nat (length patch))
       then nth (Z.to_nat (i - off)) patch b
       else b) :: replace_from (i + 1) off patch rest
  end.

Definition replace_bytes (off : Z) (patch blob : list byte) : list byte :=
  replace_from 0 off patch blob.

(** ** Median timestamp, telemetry, ledger and event handlers *)

Section Coordinator.

(** [TIMESTAMP_WINDOW] is a constant of a header that is not under src/. *)
Variable TIMESTAMP_WINDOW : nat.

(** get_timestamps (p2pool.cpp:606-622): the timestamps met walking the
    by-height map from its end backwards. *)
Definition get_timestamps (s : p2pool) : option (list Z) :=
  if (size (m_mainchainByHeight s) <=? TIMESTAMP_WINDOW)%nat then None
  else Some (take TIMESTAMP_WINDOW
               ((fun e => ChainMain.timestamp e.2)
                  <$> reverse (by_height_ascending (m_mainchainByHeight s)))).

(** update_median_timestamp (p2pool.cpp:624-638). *)
Definition update_median_timestamp (s : p2pool) : p2pool :=
  match get_timestamps s with
  | None => set_minerData (MinerData.set_median_timestamp 0 (m_minerData s)) s
  | Some timestamps =>
      let sorted := merge_sort Z.le timestamps in
      set_minerData
        (MinerData.set_median_timestamp
           (u64 (nth (TIMESTAMP_WINDOW / 2)%nat sorted 0
                 + nth (TIMESTAMP_WINDOW / 2 + 1)%nat sorted 0) / 2)
           (m_minerData s)) s
  end.

(** api_update_stats_mod (p2pool.cpp:1047-1106).  The peer count is 0 while
    there is no P2P server (p2pool.cpp:1079); the P2P server is created
    together with [m_serversStarted] (p2pool.cpp:572-575). *)
Definition api_update_stats_mod (env : Env) : action :=
  fun s =>
    if negb (m_api s) then (s, [])
    else
      let '(s1, mainnet_tip) := by_hash_index (MinerData.prev_id (m_minerData s)) s in
      let back := last (m_foundBlocks s1) in
      let last_block_found_time := from_option FoundBlock.timestamp 0 back in
      let last_block_found_height := from_option FoundBlock.height 0 back in
      let last_block_found_hash := from_option FoundBlock.id 0 back in
      let last_block_total_hashes :=
        from_option FoundBlock.total_hashes difficulty_zero back in
      let miners :=
        Z.max (sidechain_miner_count env)
              (if m_serversStarted s then peer_list_size env else 0) in
      let hashrate := sidechain_hashrate env in
      let total_hashes := sidechain_total_hashes env in
      if difficulty_lt total_hashes last_block_total_hashes then (s1, [])
      else
        let round_hashes := u64 (lo total_hashes - lo last_block_total_hashes) in
        (s1, [Api_stats_mod
                (mk_stats_mod (ChainMain.height mainnet_tip)
                   last_block_found_time last_block_found_hash
                   last_block_found_height miners hashrate round_hashes)]).

(** api_update_network_stats (p2pool.cpp:982-1005). *)
Definition api_update_network_stats (env : Env) : action :=
  fun s =>
    if negb (m_api s) then (s, [])
    else
      let '(s1, mainnet_tip) := by_hash_index (MinerData.prev_id (m_minerData s)) s in
      (emit (Api_network_stats mainnet_tip) >>> api_update_stats_mod env) s1.

(** api_update_pool_stats (p2pool.cpp:1007-1045); the peer count as in
    api_update_stats_mod (p2pool.cpp:1016). *)
Definition api_update_pool_stats (env : Env) : action :=
  fun s =>
    if negb (m_api s) then (s, [])
    else
      let back := last (m_foundBlocks s) in
      (emit (Api_pool_stats
               (mk_pool_stats (sidechain_hashrate env)
                  (Z.max (sidechain_miner_count env)
                         (if m_serversStarted s then peer_list_size env else 0))
                  (sidechain_total_hashes env)
                  (from_option FoundBlock.timestamp 0 back)
                  (from_option FoundBlock.height 0 back)
                  (Z.of_nat (length (m_foundBlocks s)))))
       >>> api_update_stats_mod env) s.

(** api_update_block_found (p2pool.cpp:1133-1181). *)
Definition api_update_block_found (env : Env) (data : option ChainMain.t) : action :=
  emit Clear_crypto_cache >>>
  fun s =>
    if negb (m_api s) then (s, [])
    else
      let cur_time := now env in
      let total_hashes := sidechain_total_hashes env in
      let known :=
        match data with
        | Some d => get_difficulty_at_height (ChainMain.height d) s
        | None => None
        end in
      let diff := default difficulty_zero known in
      let found d :=
        FoundBlock.mk cur_time (ChainMain.height d) (ChainMain.id d) diff
                      total_hashes in
      let written :=
        match data, known with
        | Some d, Some _ =>
            if found_blocks_writable env then [File_append (found d)] else []
        | _, _ => []
        end in
      let s1 :=
        match data with
        | Some d => set_foundBlocks (m_foundBlocks s ++ [found d]) s
        | None => s
        end in
      let found_blocks :=
        drop (length (m_foundBlocks s1) - Nat.min (length (m_foundBlocks s1)) 51)
             (m_foundBlocks s1) in
      let '(s2, t) :=
        (emit (Api_pool_blocks (reverse found_blocks))
         >>> api_update_stats_mod env) s1 in
      (s2, written ++ t).

(** load_found_blocks (p2pool.cpp:677-712).  The file is taken to be a
    sequence of whitespace-separated numbers that all parse; a record takes
    five of them, and reading stops at the end of the file.  Only complete
    records are read here: the code also stores a record whose fifth field is
    missing when whitespace follows the fourth (there is no end-of-file test
    after the last read, p2pool.cpp:706-708), and it does not return on a
    token that fails to parse.  The stream operators of [hash] and
    [difficulty_type] are not under src/. *)
Definition difficulty_of_Z (v : Z) : difficulty_type :=
  mk_difficulty (u64 v) (u64 (v / 2 ^ 64)).

Fixpoint read_found_blocks (tokens : list Z) : list FoundBlock.t :=
  match tokens with
  | timestamp :: height :: id :: block_difficulty :: cumulative_difficulty :: rest =>
      FoundBlock.mk timestamp height id (difficulty_of_Z block_difficulty)
                    (difficulty_of_Z cumulative_difficulty)
      :: read_found_blocks rest
  | _ => []
  end.

Definition load_found_blocks (env : Env) : action :=
  fun s =>
    if negb (m_api s) then (s, [])
    else
      match found_blocks_file env with
      | None => (s, [])
      | Some tokens =>
          (modify (fun s => set_foundBlocks
                              (m_foundBlocks s ++ read_found_blocks tokens) s)
           >>> api_update_block_found env None) s
      end.

(** stratum_on_block (p2pool.cpp:640-658); the stratum server exists once the
    servers have been started. *)
Definition stratum_on_block : action :=
  fun s => if m_serversStarted s then (s, [Stratum_on_block]) else (s, []).

(** update_block_template (p2pool.cpp:515-524). *)
Definition update_block_template (env : Env) : action :=
  (fun s =>
     if m_updateSeed s
     then (set_updateSeed false s,
           [Hasher_set_seed_async (MinerData.seed_hash (m_minerData s))])
     else (s, []))
  >>> (fun s => (s, [BlockTemplate_update (m_minerData s)]))
  >>> stratum_on_block
  >>> api_update_pool_stats env.

(** handle_tx (p2pool.cpp:160-180). *)
Definition handle_tx (env : Env) (tx : TxMempoolData.t) : action :=
  if (TxMempoolData.weight tx =? 0) || (TxMempoolData.fee tx =? 0) then skip
  else emit (Mempool_add tx) >>> modify (set_zmqLastActive (now env)).

(** The heights handle_miner_data asks the daemon for again
    (p2pool.cpp:243-248); the loop body runs at most 720 times. *)
Fixpoint missing_heights (fuel : nat) (height h : Z) (bh : gmap Z ChainMain.t) : list Z :=
  match fuel with
  | O => []
  | S fuel' =>
      if negb (h =? 0) && (height <? u64 (h + BLOCK_HEADERS_REQUIRED))
      then (match bh !! h with None => [h] | Some _ => [] end)
             ++ missing_heights fuel' height (u64 (h - 1)) bh
      else []
  end.

(** handle_miner_data (p2pool.cpp:182-272). *)
Definition handle_miner_data (env : Env) (data : MinerData.t) : action :=
  emit (Mempool_swap (MinerData.tx_backlog data))
  >>> modify (fun s => cleanup_mainchain_data (MinerData.height data)
                         (miner_data_insert data s))
  >>> modify (fun s => set_updateSeed true
                         (set_minerData (MinerData.received (now env) data) s))
  >>> modify update_median_timestamp
  >>> (if is_main_thread env then update_block_template env
       else emit (Async_send BlockTemplateAsync))
  >>> modify (set_zmqLastActive (now env))
  >>> (fun s =>
         if m_serversStarted s
         then (s, map Rpc_get_block_header_by_height
                      (missing_heights 720 (MinerData.height data)
                         (MinerData.height data) (m_mainchainByHeight s)))
         else (s, [])).

(** handle_chain_main (p2pool.cpp:285-336); [sidechain_id] is what the loop
    over [extra] decodes, the zero hash when there is nothing to decode. *)
Definition handle_chain_main (env : Env) (data : ChainMain.t) (sidechain_id : hash) : action :=
  fun s =>
    let '(s1, data1) := chain_main_upsert data s in
    (modify update_median_timestamp
     >>> (if sidechain_id =? 0 then skip
          else if sidechain_has_block env sidechain_id
               then api_update_block_found env (Some data1)
               else emit (SideChain_watch_mainchain_block data1 sidechain_id))
     >>> api_update_network_stats env
     >>> modify (set_zmqLastActive (now env))) s1.

(** The reply to the ranged header request of download_block_headers
    (p2pool.cpp:568-583); on any other count the process aborts. *)
Definition on_block_headers_range (env : Env)
    (parsed : option (list (option ChainMain.t))) : action :=
  fun s =>
    let '(n, s1) := parse_block_headers_range parsed s in
    if n =? BLOCK_HEADERS_REQUIRED
    then (modify update_median_timestamp
          >>> (fun s =>
                 if m_serversStarted s then (s, [])
                 else api_update_network_stats env (set_serversStarted true s))) s1
    else (s1, []).

(** ** Events of the loop *)

(** [BlockHeader] is the reply to a header request of handle_miner_data
    (p2pool.cpp:257-263), which only parses and stores the header.  The
    replies to the two seed-height requests of download_block_headers
    (p2pool.cpp:541-554), which also hand the old seed to the hasher or abort
    the process, are not events of this model. *)
Inductive event :=
| TxSeen (tx : TxMempoolData.t)
| NewMinerData (data : MinerData.t)
| NewChainMain (data : ChainMain.t) (sidechain_id : hash)
| SubmitAsync (template_id nonce extra_nonce : Z)
| SubmitAsyncBlob (blob : list byte)
| SubmitBlock
| UpdateBlockTemplate
| BlockHeader (parsed : option ChainMain.t)
| BlockHeadersRange (parsed : option (list (option ChainMain.t)))
| LoadFoundBlocks.

Definition run_event (env : Env) (ev : event) : action :=
  match ev with
  | TxSeen tx => handle_tx env tx
  | NewMinerData data => handle_miner_data env data
  | NewChainMain data sidechain_id => handle_chain_main env data sidechain_id
  | SubmitAsync template_id nonce extra_nonce =>
      submit_block_async template_id nonce extra_nonce
  | SubmitAsyncBlob blob => submit_block_async_blob blob
  | SubmitBlock => submit_block env
  | UpdateBlockTemplate => update_block_template env
  | BlockHeader parsed => fun s => ((parse_block_header parsed s).2, [])
  | BlockHeadersRange parsed => on_block_headers_range env parsed
  | LoadFoundBlocks => load_found_blocks env
  end.

(** The states the coordinator can be in: the constructor's, and what an
    event makes of one of them. *)
Inductive reachable : p2pool -> Prop :=
| reachable_init (api : bool) : reachable (p2pool_init api)
| reachable_step (env : Env) (ev : event) (s : p2pool) :
    reachable s -> reachable (run_event env ev s).1.

End Coordinator.

(** ** Specification-level notions *)

(** The lines a trace appends to the found-blocks file. *)
Definition file_appends (t : list effect) : list FoundBlock.t :=
  omap (fun e => match e with File_append l => Some l | _ => None end) t.

Definition last_block_total_hashes (s : p2pool) : difficulty_type :=
  from_option FoundBlock.total_hashes difficulty_zero (last (m_foundBlocks s)).

(** The hex splicing as the specification words it, for offsets inside the
    blob and 32-bit nonces. *)
Definition splice_as_specified : Prop :=
  forall (blob : list byte) (X Y N E : Z),
    0 <= X -> X + 4 <= Z.of_nat (length blob) ->
    0 <= Y -> Y + 4 <= Z.of_nat (length blob) ->
    0 <= N < 2 ^ 32 -> 0 <= E < 2 ^ 32 ->
    hex_decode (submit_block_hex blob 0 X Y N E)
      = Some (replace_bytes X (le32 N) (replace_bytes Y (le32 E) blob)).

(** The entries the cleanup walk erases from what it has left to visit. *)
Fixpoint cleanup_dropped (height : Z) (l : list (Z * ChainMain.t)) : list (Z * ChainMain.t) :=
  match l with
  | [] => []
  | (h, c) :: rest =>
      if height <=? u64 (h + PRUNE_DISTANCE) then []
      else if bool_decide (h ∈ seed_heights height)
           then cleanup_dropped height rest
           else (h, c) :: cleanup_dropped height rest
  end.

Definition erase_all (d : list (Z * ChainMain.t)) (s : p2pool) : p2pool :=
  foldl (fun s e => erase_entry e.1 e.2 s) s d.

(** How many bytes of a value spliced at [off] the rendering loop has emitted
    when it reaches index [i]. *)
Definition consumed (off i : Z) : Z := Z.max 0 (Z.min 4 (i - off)).

(** on_block_found as the specification words it: the file and the in-memory
    list each gain one entry exactly when a value is supplied and the
    difficulty at its height is indexed. *)
Definition block_found_as_specified : Prop :=
  forall (env : Env) (data : option ChainMain.t) (s : p2pool),
    ((exists d, data = Some d
                /\ is_Some (get_difficulty_at_height (ChainMain.height d) s)) ->
       length (file_appends (api_update_block_found env data s).2) = 1%nat
       /\ length (m_foundBlocks (api_update_block_found env data s).1)
          = S (length (m_foundBlocks s)))
    /\ (~ (exists d, data = Some d
                     /\ is_Some (get_difficulty_at_height (ChainMain.height d) s)) ->
          file_appends (api_update_block_found env data s).2 = []
          /\ m_foundBlocks (api_update_block_found env data s).1 = m_foundBlocks s).

(** The two sides of the exclusivity of a pending submit request. *)
Definition blob_empty (d : SubmitBlockData.t) : Prop :=
  SubmitBlockData.blob d = [].

Definition handle_zero (d : SubmitBlockData.t) : Prop :=
  SubmitBlockData.template_id d = 0 /\ SubmitBlockData.nonce d = 0
  /\ SubmitBlockData.extra_nonce d = 0.

Definition exactly_one (P Q : Prop) : Prop := (P /\ ~ Q) \/ (~ P /\ Q).

(** The mirror of the two indexes as the specification words it. *)
Definition mirror (s : p2pool) : Prop :=
  (forall h v, m_mainchainByHeight s !! h = Some v ->
               m_mainchainByHash s !! ChainMain.id v = Some v)
  /\ (forall k, is_Some (m_mainchainByHash s !! k) ->
                exists h, (exists v, m_mainchainByHeight s !! h = Some v
                                     /\ ChainMain.id v = k)
                          /\ forall h', (exists v, m_mainchainByHeight s !! h' = Some v
                                                   /\ ChainMain.id v = k) -> h' = h).

(** Every value of the by-hash index is stored under its own id. *)
Definition hash_keyed (s : p2pool) : Prop :=
  forall k v, m_mainchainByHash s !! k = Some v -> ChainMain.id v = k.

(** The entry at height [h] is stored identically in both indexes. *)
Definition mirrored_at (h : Z) (s : p2pool) : Prop :=
  exists v, m_mainchainByHeight s !! h = Some v
            /\ m_mainchainByHash s !! ChainMain.id v = Some v.

(** Heights far enough from the end of the 64-bit range for [h + 720] not to
    wrap. *)
Definition heights_in_range (s : p2pool) : Prop :=
  forall h, is_Some (m_mainchainByHeight s !! h) -> 0 <= h < 2 ^ 64 - 720.

(** The outcome of the cleanup as the specification words it. *)
Definition cleanup_as_specified : Prop :=
  forall (tip : Z) (s : p2pool),
    heights_in_range s ->
    forall h, is_Some (m_mainchainByHeight (cleanup_mainchain_data tip s) !! h) ->
              tip - 719 <= h <= tip \/ h ∈ seed_heights tip.

(** [recent] holds the [W] entries of the by-height map with the greatest
    heights. *)
Definition most_recent (W : nat) (bh : gmap Z ChainMain.t)
    (recent : list (Z * ChainMain.t)) : Prop :=
  length recent = W
  /\ NoDup recent.*1
  /\ (forall h c, (h, c) ∈ recent -> bh !! h = Some c)
  /\ (forall h c h' c',
        (h, c) ∈ recent -> bh !! h' = Some c' -> (h', c') ∉ recent -> h' < h).

(** An action that leaves a member (or any view [f] of the state) as it is. *)
Definition keeps {A : Type} (f : p2pool -> A) (a : action) : Prop :=
  forall s, f (a s).1 = f s.

(** An action that, without the telemetry API, leaves both indexes (and the
    absence of the API) as they are. *)
Definition index_untouched (a : action) : Prop :=
  forall s, m_api s = false ->
    m_api (a s).1 = false
    /\ m_mainchainByHeight (a s).1 = m_mainchainByHeight s
    /\ m_mainchainByHash (a s).1 = m_mainchainByHash s.

(** ** Example inputs *)

Definition example_env : Env :=
  mk_env 1700000000 true (mk_difficulty 5000 0) 12 3 4 (fun _ => false)
         (fun _ => ([], 0, 0)) true
         (Some [1600000000; 2500000; 77; 300000000000; 4000]).

Definition example_blob : list byte :=
  [x01; x02; x03; x04; x05; x06; x07; x08; x09; x0a; x0b; x0c].

Definition example_template_env : Env :=
  mk_env 1700000000 true (mk_difficulty 5000 0) 12 3 4 (fun _ => false)
         (fun _ => (example_blob, 1, 6)) true None.

Definition example_miner_data : MinerData.t :=
  MinerData.mk 14 1000 7 9 (mk_difficulty 300000 0) 300000 0 [] 0 0.

Definition example_found : p2pool :=
  set_foundBlocks
    [FoundBlock.mk 1600000000 2500000 77 (mk_difficulty 300000 0)
                   (mk_difficulty 9000 0)]
    (p2pool_init true).

Definition example_header (h : Z) : ChainMain.t :=
  ChainMain.mk (mk_difficulty 300000 0) h (1600000000 + 120 * h) 600000000000
               (1000000 + h).

Definition example_index (heights : list Z) : p2pool :=
  store_headers (map (fun h => Some (example_header h)) heights)
                (p2pool_init true).

(** ** Daemon bootstrap (p2pool.cpp:526-591, 660-887) *)

(** The header requests of download_block_headers. *)
Inductive header_request :=
| Get_block_header_by_height (height : Z)
| Get_block_headers_range (start_height end_height : Z).

(** download_block_headers (p2pool.cpp:526-591): the requests it sends, in
    the order it sends them. *)
Definition download_block_headers (current_height : Z) : list header_request :=
  let seed_height := get_seed_height current_height in
  let prev_seed_height :=
    if SEEDHASH_EPOCH_BLOCKS <? seed_height
    then seed_height - SEEDHASH_EPOCH_BLOCKS else 0 in
  [Get_block_header_by_height prev_seed_height;
   Get_block_header_by_height seed_height;
   Get_block_headers_range (u64 (current_height - BLOCK_HEADERS_REQUIRED))
                           (u64 (current_height - 1))].

(** What a step of the bootstrap does next: sleep a second and send the same
    request again, abort the process, or go on to the next request. *)
Inductive bootstrap_action := Retry_in_1_second | Abort | Proceed.

Inductive NetworkType := Invalid | Mainnet | Testnet | Stagenet.

Definition NetworkType_eqb (a b : NetworkType) : bool :=
  match a, b with
  | Invalid, Invalid | Mainnet, Mainnet | Testnet, Testnet
  | Stagenet, Stagenet => true
  | _, _ => false
  end.

Record daemon_info := mk_daemon_info {
  busy_syncing : bool;
  synchronized : bool;
  mainnet : bool;
  testnet : bool;
  stagenet : bool
}.

(** The network the three flags name (p2pool.cpp:750-754): a later flag
    overrides an earlier one. *)
Definition monero_network (info : daemon_info) : NetworkType :=
  let n := Invalid in
  let n := if mainnet info then Mainnet else n in
  let n := if testnet info then Testnet else n in
  if stagenet info then Stagenet else n.

(** parse_get_info_rpc (p2pool.cpp:714-764): [reply] is [None] when the
    document is no object or has no [result], [Some None] when one of the five
    flags does not parse. *)
Definition parse_get_info_rpc (sidechain_network : NetworkType)
    (reply : option (option daemon_info)) : bootstrap_action :=
  match reply with
  | None => Retry_in_1_second
  | Some None => Retry_in_1_second
  | Some (Some info) =>
      if busy_syncing info || negb (synchronized info) then Retry_in_1_second
      else if NetworkType_eqb (monero_network info) sidechain_network
           then Proceed else Abort
  end.

(** parse_get_version_rpc (p2pool.cpp:783-822): [reply] is [None] when the
    document is no object or has no [result], [Some None] when [status] or
    [version] does not parse. *)
Definition parse_get_version_rpc (reply : option (option (string * Z)))
    : bootstrap_action :=
  match reply with
  | None => Retry_in_1_second
  | Some None => Retry_in_1_second
  | Some (Some (status, version)) =>
      if negb (String.eqb status "OK") then Retry_in_1_second
      else if version <? 196616 then Abort
      else Proceed
  end.

(** The version numbers the abort message prints (p2pool.cpp:815-816). *)
Definition version_hi (version : Z) : Z := Z.shiftr version 16.
Definition version_lo (version : Z) : Z := Z.land version 65535.

(** The fields parse_get_miner_data_rpc reads (p2pool.cpp:855-883); an
    element of the backlog is [None] when it is skipped. *)
Record miner_data_rpc := mk_miner_data_rpc {
  rpc_major_version : Z;
  rpc_height : Z;
  rpc_prev_id : hash;
  rpc_seed_hash : hash;
  rpc_median_weight : Z;
  rpc_already_generated_coins : Z;
  rpc_difficulty : difficulty_type;
  rpc_tx_backlog : option (list (option (hash * Z * Z)))
}.

Definition backlog_of_rpc (txs : option (list (option (hash * Z * Z))))
    : list TxMempoolData.t :=
  omap (fun o => match o with
                 | Some (id, weight, fee) => Some (TxMempoolData.mk id 0 weight fee)
                 | None => None
                 end)
       (default [] txs).

Definition miner_data_of_rpc (r : miner_data_rpc) : MinerData.t :=
  MinerData.mk (rpc_major_version r) (rpc_height r) (rpc_prev_id r)
               (rpc_seed_hash r) (rpc_difficulty r) (rpc_median_weight r)
               (rpc_already_generated_coins r) (backlog_of_rpc (rpc_tx_backlog r))
               0 0.

(** parse_get_miner_data_rpc (p2pool.cpp:841-887): [reply] is [None] when the
    document is invalid or a field does not parse. *)
Definition parse_get_miner_data_rpc (TIMESTAMP_WINDOW : nat) (env : Env)
    (reply : option miner_data_rpc) (s : p2pool)
    : p2pool * list effect * list header_request :=
  match reply with
  | None => (s, [], [])
  | Some r =>
      let minerData := miner_data_of_rpc r in
      let '(s1, t) := handle_miner_data TIMESTAMP_WINDOW env minerData s in
      (s1, t, download_block_headers (MinerData.height minerData))
  end.

(** ** The reply to submit_block (p2pool.cpp:444-487) *)

#[local] Unset Elimination Schemes.
Inductive json :=
| J_null
| J_bool (b : bool)
| J_number (n : Z)
| J_string (s : string)
| J_array (items : list json)
| J_object (members : list (string * json)).
#[local] Set Elimination Schemes.

(** [FindMember]: the first member of that name. *)
Fixpoint find_member (name : string) (members : list (string * json)) : option json :=
  match members with
  | [] => None
  | (k, v) :: rest => if String.eqb k name then Some v else find_member name rest
  end.

Inductive severity := LOGINFO | LOGWARN | LOGERR.

Inductive submit_log :=
| Invalid_json
| Error_not_an_object
| Daemon_error (message : string)
| Block_accepted
| Unrecognizable_reply.

(** The success callback of submit_block: what it logs and how loud;
    [reply] is [None] when the text does not parse. *)
Definition submit_block_reply (is_external : bool) (reply : option json)
    : severity * submit_log :=
  match reply with
  | Some (J_object doc) =>
      match find_member "error" doc with
      | Some err =>
          match err with
          | J_object _ =>
              let error_msg :=
                match find_member "message" doc with
                | Some (J_string m) => m
                | _ => "unknown error"%string
                end in
              (if is_external then LOGWARN else LOGERR, Daemon_error error_msg)
          | _ => (LOGERR, Error_not_an_object)
          end
      | None =>
          match find_member "result" doc with
          | Some (J_object result) =>
              match find_member "status" result with
              | Some (J_string status) =>
                  if String.eqb status "OK" then (LOGINFO, Block_accepted)
                  else (LOGWARN, Unrecognizable_reply)
              | _ => (LOGWARN, Unrecognizable_reply)
              end
          | _ => (LOGWARN, Unrecognizable_reply)
          end
      end
  | _ => (LOGERR, Invalid_json)
  end.

(** ** Further notions *)

(** The numbers api_update_block_found writes for one record
    (p2pool.cpp:1148). *)
Definition found_block_tokens (b : FoundBlock.t) : list Z :=
  [FoundBlock.timestamp b; FoundBlock.height b; FoundBlock.id b;
   difficulty_value (FoundBlock.block_diff b);
   difficulty_value (FoundBlock.total_hashes b)].

Definition difficulty_in_range (d : difficulty_type) : Prop :=
  0 <= lo d < 2 ^ 64 /\ 0 <= hi d < 2 ^ 64.

(** Effects that publish telemetry or write the found-blocks file. *)
Definition is_telemetry (e : effect) : bool :=
  match e with
  | Api_network_stats _ | Api_pool_stats _ | Api_pool_blocks _
  | Api_stats_mod _ | File_append _ => true
  | _ => false
  end.

(** Effects on the side chain, the crypto cache or the found-blocks file. *)
Definition is_block_found_effect (e : effect) : bool :=
  match e with
  | SideChain_watch_mainchain_block _ _ | Clear_crypto_cache | File_append _
  | Api_pool_blocks _ => true
  | _ => false
  end.

Definition is_seed_update (e : effect) : bool :=
  match e with Hasher_set_seed_async _ => true | _ => false end.

(** An action whose effects all satisfy [P]. *)
Definition emits_only (P : effect -> Prop) (a : action) : Prop :=
  forall s, Forall P (a s).2.

(** An action that keeps the by-height map and only adds to the by-hash
    map. *)
Definition index_grows (a : action) : Prop :=
  forall s, m_mainchainByHeight (a s).1 = m_mainchainByHeight s
            /\ m_mainchainByHash s ⊆ m_mainchainByHash (a s).1.

(** An action that only appends to the list of found blocks. *)
Definition extends_found (a : action) : Prop :=
  forall s, m_foundBlocks s `prefix_of` m_foundBlocks (a s).1.

(** An action that, without the telemetry API, publishes nothing, writes
    nothing to the found-blocks file and leaves the list of found blocks. *)
Definition quiet_without_api (a : action) : Prop :=
  forall s, m_api s = false ->
    m_api (a s).1 = false
    /\ m_foundBlocks (a s).1 = m_foundBlocks s
    /\ Forall (fun e => is_telemetry e = false) (a s).2.

(** The step of handle_chain_main that looks at the side-chain id
    (p2pool.cpp:323-331). *)
Definition chain_main_side_chain (env : Env) (data : ChainMain.t)
    (sidechain_id : hash) : action :=
  if sidechain_id =? 0 then skip
  else if sidechain_has_block env sidechain_id
       then api_update_block_found env (Some data)
       else emit (SideChain_watch_mainchain_block data sidechain_id).

(** ** Further example inputs *)

Definition example_sidechain_env : Env :=
  mk_env 1700000000 false (mk_difficulty 5000 0) 12 3 4 (fun _ => true)
         (fun _ => (example_blob, 1, 6)) true None.

(** Effects that only a coordinator whose servers have been started
    produces: the notification of the stratum server and the repeated request
    for one block header. *)
Definition needs_servers (e : effect) : bool :=
  match e with
  | Stratum_on_block | Rpc_get_block_header_by_height _ => true
  | _ => false
  end.

(** The snapshots of pool/blocks a trace publishes. *)
Definition pool_blocks_snapshots (t : list effect) : list (list FoundBlock.t) :=
  omap (fun e => match e with Api_pool_blocks l => Some l | _ => None end) t.

(** ** Lemmas on the 64-bit mask *)

Lemma u64_small x : 0 <= x < 2 ^ 64 -> u64 x = x.
Proof. intros H. unfold u64. apply Z.mod_small. exact H. Qed.

Lemma u64_range x : 0 <= u64 x < 2 ^ 64.
Proof. unfold u64. apply Z.mod_pos_bound. reflexivity. Qed.

Lemma land_u64_lnot x m :
  0 <= x < 2 ^ 64 -> Z.land x (u64 (Z.lnot m)) = Z.land x (Z.lnot m).
Proof.
  intros Hx. unfold u64.
  rewrite <- (Z.land_ones (Z.lnot m) 64) by lia.
  rewrite (Z.land_comm (Z.lnot m)), Z.land_assoc.
  rewrite (Z.land_ones x 64) by lia.
  rewrite (Z.mod_small x) by lia.
  reflexivity.
Qed.

Lemma land_lnot_2047 x : 0 <= x -> Z.land x (Z.lnot 2047) = 2048 * (x / 2048).
Proof.
  intros Hx.
  change 2047 with (Z.ones 11).
  change (Z.land x (Z.lnot (Z.ones 11))) with (Z.ldiff x (Z.ones 11)).
  rewrite Z.ldiff_ones_r by lia.
  rewrite Z.shiftr_div_pow2, Z.shiftl_mul_pow2 by lia.
  change (2 ^ 11) with 2048. lia.
Qed.

Lemma get_seed_height_low h : h <= 64 -> get_seed_height h = 0.
Proof.
  intros H. unfold get_seed_height, SEEDHASH_EPOCH_LAG.
  destruct (Z.ltb_spec 64 h); [lia | reflexivity].
Qed.

Lemma get_seed_height_high h :
  64 < h < 2 ^ 64 -> get_seed_height h = 2048 * ((h - 65) / 2048).
Proof.
  intros H. unfold get_seed_height, SEEDHASH_EPOCH_LAG, SEEDHASH_EPOCH_BLOCKS.
  destruct (Z.ltb_spec 64 h); [| lia].
  replace (h - 64 - 1) with (h - 65) by lia.
  rewrite (u64_small (h - 65)) by lia.
  change (2048 - 1) with 2047.
  rewrite land_u64_lnot by lia.
  apply land_lnot_2047. lia.
Qed.

(** C3: for a 64-bit height [h], [get_seed_height h] is
    [(h - 65) & ~(2048 - 1)] when [h > 64] and [0] otherwise; hence it is [0]
    for every [h <= 64], and for [h > 64] it is a multiple of 2048 with
    [get_seed_height h + 64 < h]. *)
Theorem get_seed_height_spec (h : Z) :
  0 <= h < 2 ^ 64 ->
  get_seed_height h
    = (if 64 <? h then Z.land (h - 65) (Z.lnot (2048 - 1)) else 0)
  /\ (h <= 64 -> get_seed_height h = 0)
  /\ (64 < h ->
      get_seed_height h mod 2048 = 0 /\ get_seed_height h + 64 < h).
Proof.
  intros Hh. split; [| split].
  - destruct (Z.ltb_spec 64 h) as [Hgt | Hle].
    + rewrite get_seed_height_high by lia.
      symmetry. apply land_lnot_2047. lia.
    + apply get_seed_height_low. lia.
  - apply get_seed_height_low.
  - intros Hgt. rewrite get_seed_height_high by lia. split.
    + rewrite Z.mul_comm. apply Z.mod_mul. lia.
    + pose proof (Z.mul_div_le (h - 65) 2048). lia.
Qed.

Lemma get_seed_height_spec_witness :
  get_seed_height 5000 = 4096 /\ get_seed_height 5000 mod 2048 = 0
  /\ get_seed_height 5000 + 64 < 5000 /\ get_seed_height 64 = 0.
Proof.
  assert (R : 0 <= 5000 < 2 ^ 64) by lia.
  assert (R' : 0 <= 64 < 2 ^ 64) by lia.
  destruct (get_seed_height_spec 5000 R) as (_ & _ & H).
  destruct (H ltac:(lia)) as [H1 H2].
  destruct (get_seed_height_spec 64 R') as (_ & H3 & _).
  split; [reflexivity | split; [assumption | split; [assumption |]]].
  apply H3. lia.
Defined.

(** ** Actions and the members they leave alone *)

Section Keeps.
Context {A : Type} (f : p2pool -> A).

Lemma keeps_skip : keeps f skip.
Proof. intros s. reflexivity. Qed.

Lemma keeps_emit e : keeps f (emit e).
Proof. intros s. reflexivity. Qed.

Lemma keeps_modify g : (forall s, f (g s) = f s) -> keeps f (modify g).
Proof. intros H s. apply H. Qed.

Lemma keeps_and_then a b : keeps f a -> keeps f b -> keeps f (a >>> b).
Proof.
  intros Ha Hb s. unfold and_then.
  specialize (Ha s). destruct (a s) as [s1 t1].
  specialize (Hb s1). destruct (b s1) as [s2 t2].
  simpl in *. congruence.
Qed.

Lemma keeps_if (c : bool) a b : keeps f a -> keeps f b -> keeps f (if c then a else b).
Proof. destruct c; auto. Qed.

End Keeps.

Lemma and_then_run (a b : action) s :
  (a >>> b) s = ((b (a s).1).1, (a s).2 ++ (b (a s).1).2).
Proof.
  unfold and_then. destruct (a s) as [s1 t1]. simpl.
  destruct (b s1) as [s2 t2]. reflexivity.
Qed.

Create HintDb keeps.
#[local] Hint Resolve keeps_skip keeps_emit keeps_and_then keeps_if : keeps.

(** *** The pending submit request is touched by the two entry points only *)

Lemma cleanup_walk_submit height l s :
  m_submitBlockData (cleanup_walk height l s) = m_submitBlockData s.
Proof.
  revert s. induction l as [| [h c] rest IH]; intros s; simpl; [reflexivity |].
  destruct (height <=? u64 (h + PRUNE_DISTANCE)); [reflexivity |].
  destruct (bool_decide (h ∈ seed_heights height)); rewrite IH; reflexivity.
Qed.

Lemma store_headers_submit l s :
  m_submitBlockData (store_headers l s) = m_submitBlockData s.
Proof.
  unfold store_headers. revert s.
  induction l as [| o rest IH]; intros s; simpl; [reflexivity |].
  rewrite IH. destruct o; reflexivity.
Qed.

Lemma by_hash_index_submit key s :
  m_submitBlockData (by_hash_index key s).1 = m_submitBlockData s.
Proof. unfold by_hash_index. destruct (_ !! key); reflexivity. Qed.

Lemma update_median_timestamp_submit W s :
  m_submitBlockData (update_median_timestamp W s) = m_submitBlockData s.
Proof. unfold update_median_timestamp. destruct (get_timestamps W s); reflexivity. Qed.

Lemma api_update_stats_mod_submit env : keeps m_submitBlockData (api_update_stats_mod env).
Proof.
  intros s. unfold api_update_stats_mod.
  destruct (m_api s); simpl; [| reflexivity].
  pose proof (by_hash_index_submit (MinerData.prev_id (m_minerData s)) s) as H.
  destruct (by_hash_index _ s) as [s1 tip]. simpl in H.
  destruct (difficulty_lt _ _); exact H.
Qed.

Lemma api_update_network_stats_submit env :
  keeps m_submitBlockData (api_update_network_stats env).
Proof.
  intros s. unfold api_update_network_stats.
  destruct (m_api s); simpl; [| reflexivity].
  pose proof (by_hash_index_submit (MinerData.prev_id (m_minerData s)) s) as H.
  destruct (by_hash_index _ s) as [s1 tip]. simpl in H.
  rewrite <- H.
  apply (keeps_and_then m_submitBlockData); auto with keeps.
  apply api_update_stats_mod_submit.
Qed.

Lemma api_update_pool_stats_submit env :
  keeps m_submitBlockData (api_update_pool_stats env).
Proof.
  intros s. unfold api_update_pool_stats.
  destruct (m_api s); simpl; [| reflexivity].
  apply (keeps_and_then m_submitBlockData); auto with keeps.
  apply api_update_stats_mod_submit.
Qed.

Lemma api_update_block_found_submit env data :
  keeps m_submitBlockData (api_update_block_found env data).
Proof.
  unfold api_update_block_found.
  apply keeps_and_then; [apply keeps_emit |].
  intros s. destruct (m_api s); simpl; [| reflexivity].
  match goal with
  | |- context [(?a >>> ?b) ?x] =>
      pose proof (keeps_and_then m_submitBlockData a b (keeps_emit _ _)
                    (api_update_stats_mod_submit env) x) as H;
      destruct ((a >>> b) x) as [s2 t]
  end.
  simpl in *. rewrite H. destruct data; reflexivity.
Qed.

Lemma load_found_blocks_submit env : keeps m_submitBlockData (load_found_blocks env).
Proof.
  intros s. unfold load_found_blocks.
  destruct (m_api s); simpl; [| reflexivity].
  destruct (found_blocks_file env) as [tokens |]; [| reflexivity].
  apply (keeps_and_then m_submitBlockData).
  - apply keeps_modify. reflexivity.
  - apply api_update_block_found_submit.
Qed.

Lemma stratum_on_block_submit : keeps m_submitBlockData stratum_on_block.
Proof. intros s. unfold stratum_on_block. destruct (m_serversStarted s); reflexivity. Qed.

Lemma update_block_template_submit env :
  keeps m_submitBlockData (update_block_template env).
Proof.
  unfold update_block_template.
  repeat apply keeps_and_then.
  - intros s. destruct (m_updateSeed s); reflexivity.
  - intros s. reflexivity.
  - apply stratum_on_block_submit.
  - apply api_update_pool_stats_submit.
Qed.

Lemma handle_tx_submit env tx : keeps m_submitBlockData (handle_tx env tx).
Proof.
  unfold handle_tx. apply keeps_if; auto with keeps.
  apply keeps_and_then; auto with keeps. apply keeps_modify. reflexivity.
Qed.

Lemma handle_miner_data_submit W env data :
  keeps m_submitBlockData (handle_miner_data W env data).
Proof.
  unfold handle_miner_data.
  repeat apply keeps_and_then; auto with keeps.
  - apply keeps_modify. intros s. unfold cleanup_mainchain_data.
    rewrite cleanup_walk_submit. reflexivity.
  - apply keeps_modify. reflexivity.
  - apply keeps_modify. apply update_median_timestamp_submit.
  - apply keeps_if; auto with keeps. apply update_block_template_submit.
  - apply keeps_modify. reflexivity.
  - intros s. destruct (m_serversStarted s); reflexivity.
Qed.

Lemma handle_chain_main_submit W env data sidechain_id :
  keeps m_submitBlockData (handle_chain_main W env data sidechain_id).
Proof.
  intros s. unfold handle_chain_main, chain_main_upsert.
  match goal with
  | |- m_submitBlockData (?a ?x).1 = _ =>
      change (m_submitBlockData s) with (m_submitBlockData x); generalize x
  end.
  repeat apply keeps_and_then.
  - apply keeps_modify. apply update_median_timestamp_submit.
  - repeat apply keeps_if; auto with keeps. apply api_update_block_found_submit.
  - apply api_update_network_stats_submit.
  - apply keeps_modify. reflexivity.
Qed.

Lemma on_block_headers_range_submit W env parsed :
  keeps m_submitBlockData (on_block_headers_range W env parsed).
Proof.
  intros s. unfold on_block_headers_range, parse_block_headers_range.
  assert (G : forall s1, m_submitBlockData s1 = m_submitBlockData s ->
    forall n : Z, m_submitBlockData
      (if n =? BLOCK_HEADERS_REQUIRED
       then (modify (update_median_timestamp W)
             >>> (fun s => if m_serversStarted s then (s, [])
                           else api_update_network_stats env
                                  (set_serversStarted true s))) s1
       else (s1, [])).1 = m_submitBlockData s).
  { intros s1 H1 n. destruct (n =? BLOCK_HEADERS_REQUIRED); [| exact H1].
    rewrite <- H1. revert s1 H1. intros s1 _. revert s1.
    apply keeps_and_then.
    - apply keeps_modify. apply update_median_timestamp_submit.
    - intros s1. destruct (m_serversStarted s1); [reflexivity |].
      rewrite api_update_network_stats_submit. reflexivity. }
  destruct parsed as [l |]; apply G; [apply store_headers_submit | reflexivity].
Qed.

Lemma submit_block_submit env : keeps m_submitBlockData (submit_block env).
Proof.
  intros s. unfold submit_block.
  destruct (submit_block_source env (m_submitBlockData s)) as [[[b x] y] |];
    reflexivity.
Qed.

Lemma run_event_submit W env ev s :
  match ev with
  | SubmitAsync _ _ _ | SubmitAsyncBlob _ => True
  | _ => m_submitBlockData (run_event W env ev s).1 = m_submitBlockData s
  end.
Proof.
  destruct ev; simpl; try exact I.
  - apply handle_tx_submit.
  - apply handle_miner_data_submit.
  - apply handle_chain_main_submit.
  - apply submit_block_submit.
  - apply update_block_template_submit.
  - destruct parsed; reflexivity.
  - apply on_block_headers_range_submit.
  - apply load_found_blocks_submit.
Qed.

(** ** handle_tx *)

(** C7: a transaction whose weight or fee is zero is rejected: handle_tx
    leaves the coordinator as it is and calls no collaborator, so
    [Mempool::add] is not called and the mempool is unchanged; a transaction
    with both fields non-zero is handed to [Mempool::add], and nothing else is
    called. *)
Theorem handle_tx_rejects_or_adds (env : Env) (tx : TxMempoolData.t) (s : p2pool) :
  ((TxMempoolData.weight tx = 0 \/ TxMempoolData.fee tx = 0) ->
     handle_tx env tx s = (s, []))
  /\ (TxMempoolData.weight tx <> 0 -> TxMempoolData.fee tx <> 0 ->
        handle_tx env tx s = (set_zmqLastActive (now env) s, [Mempool_add tx])).
Proof.
  unfold handle_tx. split.
  - intros [H | H]; rewrite H.
    + reflexivity.
    + rewrite orb_true_r. reflexivity.
  - intros Hw Hf.
    destruct (Z.eqb_spec (TxMempoolData.weight tx) 0); [contradiction |].
    destruct (Z.eqb_spec (TxMempoolData.fee tx) 0); [contradiction |].
    reflexivity.
Qed.

Lemma handle_tx_rejects_or_adds_witness :
  handle_tx example_env (TxMempoolData.mk 5 100 0 7) (p2pool_init true)
    = (p2pool_init true, [])
  /\ handle_tx example_env (TxMempoolData.mk 5 100 3 7) (p2pool_init true)
       = (set_zmqLastActive 1700000000 (p2pool_init true),
          [Mempool_add (TxMempoolData.mk 5 100 3 7)]).
Proof.
  split.
  - apply (proj1 (handle_tx_rejects_or_adds example_env
                    (TxMempoolData.mk 5 100 0 7) (p2pool_init true))).
    left. reflexivity.
  - apply (proj2 (handle_tx_rejects_or_adds example_env
                    (TxMempoolData.mk 5 100 3 7) (p2pool_init true)));
      simpl; lia.
Defined.

(** ** The pending submit request *)

(** The exclusivity as the specification words it fails in the state the
    constructor leaves: the blob is empty and the handle is all zero. *)
Lemma pending_submit_init_not_exclusive :
  reachable 60 (p2pool_init true)
  /\ ~ exactly_one (blob_empty (m_submitBlockData (p2pool_init true)))
                   (handle_zero (m_submitBlockData (p2pool_init true))).
Proof.
  split; [constructor |].
  unfold exactly_one, blob_empty, handle_zero. simpl.
  intros [[_ H] | [H _]].
  - apply H. repeat split.
  - apply H. reflexivity.
Qed.

(** C8 (amended): in every reachable state at least one side holds: the
    pending blob is empty, or the template id, the nonce and the extra nonce
    are all zero; and exactly one side holds right after a template
    submission with a non-zero handle and right after the submission of a
    non-empty external blob. *)
Theorem pending_submit_invariant (W : nat) (s : p2pool) :
  reachable W s ->
  (blob_empty (m_submitBlockData s) \/ handle_zero (m_submitBlockData s))
  /\ (forall template_id nonce extra_nonce,
        ~ (template_id = 0 /\ nonce = 0 /\ extra_nonce = 0) ->
        exactly_one
          (blob_empty (m_submitBlockData
                         (submit_block_async template_id nonce extra_nonce s).1))
          (handle_zero (m_submitBlockData
                          (submit_block_async template_id nonce extra_nonce s).1)))
  /\ (forall blob, blob <> [] ->
        exactly_one
          (blob_empty (m_submitBlockData (submit_block_async_blob blob s).1))
          (handle_zero (m_submitBlockData (submit_block_async_blob blob s).1))).
Proof.
  intros Hr. split; [| split].
  - induction Hr as [api | env ev s Hr IH].
    + left. reflexivity.
    + pose proof (run_event_submit W env ev s) as Hf.
      destruct ev; try (rewrite Hf; exact IH).
      * left. reflexivity.
      * right. repeat split.
  - intros template_id nonce extra_nonce Hnz. left. split.
    + reflexivity.
    + exact Hnz.
  - intros blob Hne. right. split.
    + exact Hne.
    + repeat split.
Qed.

Lemma pending_submit_invariant_witness :
  (blob_empty (m_submitBlockData
                 (submit_block_async_blob [x01; x02] (p2pool_init true)).1)
   \/ handle_zero (m_submitBlockData
                     (submit_block_async_blob [x01; x02] (p2pool_init true)).1))
  /\ exactly_one
       (blob_empty (m_submitBlockData
                      (submit_block_async 7 0 0 (p2pool_init true)).1))
       (handle_zero (m_submitBlockData
                       (submit_block_async 7 0 0 (p2pool_init true)).1))
  /\ exactly_one
       (blob_empty (m_submitBlockData
                      (submit_block_async_blob [x01; x02] (p2pool_init true)).1))
       (handle_zero (m_submitBlockData
                       (submit_block_async_blob [x01; x02] (p2pool_init true)).1)).
Proof.
  split; [| split].
  - apply (proj1 (pending_submit_invariant 60
                    (submit_block_async_blob [x01; x02] (p2pool_init true)).1
                    (reachable_step 60 example_env (SubmitAsyncBlob [x01; x02])
                       (p2pool_init true) (reachable_init 60 true)))).
  - apply (proj1 (proj2 (pending_submit_invariant 60 (p2pool_init true)
                           (reachable_init 60 true)))).
    intros (H & _ & _). discriminate H.
  - apply (proj2 (proj2 (pending_submit_invariant 60 (p2pool_init true)
                           (reachable_init 60 true)))).
    discriminate.
Defined.

(** ** load_found_blocks *)

(** C9: without the telemetry API load_found_blocks does nothing at all:
    whatever the found-blocks file holds, the coordinator is unchanged and no
    collaborator is called, so after startup the in-memory list is still
    empty. *)
Theorem load_found_blocks_without_api (env : Env) (s : p2pool) :
  m_api s = false ->
  load_found_blocks env s = (s, [])
  /\ (m_foundBlocks s = [] -> m_foundBlocks (load_found_blocks env s).1 = []).
Proof.
  intros H. unfold load_found_blocks. rewrite H. simpl. auto.
Qed.

Lemma load_found_blocks_without_api_witness :
  found_blocks_file example_env
    = Some [1600000000; 2500000; 77; 300000000000; 4000]
  /\ load_found_blocks example_env (p2pool_init false) = (p2pool_init false, [])
  /\ m_foundBlocks (load_found_blocks example_env (p2pool_init false)).1 = [].
Proof.
  destruct (load_found_blocks_without_api example_env (p2pool_init false)
              eq_refl) as [H1 H2].
  split; [reflexivity | split; [exact H1 | apply H2; reflexivity]].
Defined.

(** With the API the same file gives one in-memory record. *)
Lemma load_found_blocks_with_api :
  m_foundBlocks (load_found_blocks example_env (p2pool_init true)).1
    = [FoundBlock.mk 1600000000 2500000 77 (mk_difficulty 300000000000 0)
                     (mk_difficulty 4000 0)].
Proof. vm_compute. reflexivity. Qed.

(** ** api_update_stats_mod *)

Lemma difficulty_lt_value a b :
  0 <= lo a < 2 ^ 64 -> 0 <= lo b < 2 ^ 64 ->
  difficulty_lt a b = true <-> difficulty_value a < difficulty_value b.
Proof.
  intros Ha Hb. unfold difficulty_lt, difficulty_value.
  rewrite orb_true_iff, andb_true_iff, !Z.ltb_lt, Z.eqb_eq.
  split.
  - intros [H | [H1 H2]]; nia.
  - intros H.
    destruct (Z.lt_trichotomy (hi a) (hi b)) as [Hlt | [Heq | Hgt]].
    + left. exact Hlt.
    + right. split; [exact Heq | nia].
    + exfalso. nia.
Qed.

Lemma api_update_stats_mod_trace env s :
  (api_update_stats_mod env s).2
  = if negb (m_api s) then []
    else if difficulty_lt (sidechain_total_hashes env) (last_block_total_hashes s)
         then []
         else [Api_stats_mod
                 (mk_stats_mod
                    (ChainMain.height
                       (by_hash_index (MinerData.prev_id (m_minerData s)) s).2)
                    (from_option FoundBlock.timestamp 0 (last (m_foundBlocks s)))
                    (from_option FoundBlock.id 0 (last (m_foundBlocks s)))
                    (from_option FoundBlock.height 0 (last (m_foundBlocks s)))
                    (Z.max (sidechain_miner_count env)
                           (if m_serversStarted s then peer_list_size env else 0))
                    (sidechain_hashrate env)
                    (u64 (lo (sidechain_total_hashes env)
                          - lo (last_block_total_hashes s))))].
Proof.
  unfold api_update_stats_mod, last_block_total_hashes.
  destruct (m_api s); simpl; [| reflexivity].
  assert (Hf : m_foundBlocks (by_hash_index (MinerData.prev_id (m_minerData s)) s).1
               = m_foundBlocks s).
  { unfold by_hash_index. destruct (_ !! _); reflexivity. }
  destruct (by_hash_index _ s) as [s1 tip]. simpl in *. rewrite Hf.
  destruct (difficulty_lt _ _); reflexivity.
Qed.

(** C10: api_update_stats_mod publishes [global/stats_mod] only when the side
    chain's cumulative [total_hashes] is, as a 128-bit number, at least the
    [total_hashes] recorded with the last found block: when it is smaller the
    function publishes nothing, and every snapshot it publishes carries
    [roundHashes = total_hashes.lo - last_block_total_hashes.lo] (64-bit)
    computed from a cumulative count that is not below the recorded one. *)
Theorem api_update_stats_mod_guard (env : Env) (s : p2pool) :
  0 <= lo (sidechain_total_hashes env) < 2 ^ 64 ->
  0 <= lo (last_block_total_hashes s) < 2 ^ 64 ->
  (difficulty_value (sidechain_total_hashes env)
     < difficulty_value (last_block_total_hashes s) ->
   (api_update_stats_mod env s).2 = [])
  /\ (forall e, e ∈ (api_update_stats_mod env s).2 ->
        exists st, e = Api_stats_mod st
          /\ m_api s = true
          /\ difficulty_value (last_block_total_hashes s)
               <= difficulty_value (sidechain_total_hashes env)
          /\ sm_round_hashes st
               = u64 (lo (sidechain_total_hashes env)
                      - lo (last_block_total_hashes s))).
Proof.
  intros Ht Hl. rewrite api_update_stats_mod_trace.
  pose proof (difficulty_lt_value _ _ Ht Hl) as Hlt.
  destruct (m_api s); simpl.
  - destruct (difficulty_lt _ _) eqn:E.
    + split; [reflexivity |]. intros e He. inversion He.
    + split.
      * intros Hv. apply Hlt in Hv. discriminate.
      * intros e He. apply list_elem_of_singleton in He. subst e.
        eexists. split; [reflexivity |]. split; [reflexivity |]. split.
        -- destruct (Z.lt_ge_cases
                       (difficulty_value (sidechain_total_hashes env))
                       (difficulty_value (last_block_total_hashes s)))
             as [Hv | Hv]; [| exact Hv].
           apply Hlt in Hv. discriminate.
        -- reflexivity.
  - split; [reflexivity |]. intros e He. inversion He.
Qed.

Lemma api_update_stats_mod_guard_witness :
  (api_update_stats_mod example_env example_found).2 = []
  /\ (forall e, e ∈ (api_update_stats_mod example_env (p2pool_init true)).2 ->
        exists st, e = Api_stats_mod st /\ sm_round_hashes st = 5000).
Proof.
  split.
  - apply (proj1 (api_update_stats_mod_guard example_env example_found
                    ltac:(simpl; lia) ltac:(simpl; lia))).
    vm_compute. reflexivity.
  - intros e He.
    destruct (proj2 (api_update_stats_mod_guard example_env (p2pool_init true)
                       ltac:(simpl; lia) ltac:(simpl; lia)) e He)
      as (st & H1 & _ & _ & H2).
    exists st. split; [exact H1 | exact H2].
Defined.

(** ** api_update_block_found *)

Lemma by_hash_index_foundBlocks key s :
  m_foundBlocks (by_hash_index key s).1 = m_foundBlocks s.
Proof. unfold by_hash_index. destruct (_ !! key); reflexivity. Qed.

Lemma api_update_stats_mod_foundBlocks env : keeps m_foundBlocks (api_update_stats_mod env).
Proof.
  intros s. unfold api_update_stats_mod.
  destruct (m_api s); simpl; [| reflexivity].
  pose proof (by_hash_index_foundBlocks (MinerData.prev_id (m_minerData s)) s) as H.
  destruct (by_hash_index _ s) as [s1 tip]. simpl in H.
  destruct (difficulty_lt _ _); exact H.
Qed.

Lemma api_update_stats_mod_no_append env s :
  file_appends (api_update_stats_mod env s).2 = [].
Proof.
  rewrite api_update_stats_mod_trace.
  destruct (negb (m_api s)); [reflexivity |].
  destruct (difficulty_lt _ _); reflexivity.
Qed.

Lemma file_appends_app t1 t2 :
  file_appends (t1 ++ t2) = file_appends t1 ++ file_appends t2.
Proof. unfold file_appends. apply omap_app. Qed.

Lemma prepend_trace_run (x : p2pool * list effect) (w : list effect) :
  (let '(s2, t) := x in (s2, w ++ t)) = (x.1, w ++ x.2).
Proof. destruct x. reflexivity. Qed.

(** What api_update_block_found does to the in-memory list and to the file,
    with the API enabled. *)
Lemma api_update_block_found_enabled env data s :
  m_api s = true ->
  let known := data ≫= fun d => get_difficulty_at_height (ChainMain.height d) s in
  let found d :=
    FoundBlock.mk (now env) (ChainMain.height d) (ChainMain.id d)
                  (default difficulty_zero known) (sidechain_total_hashes env) in
  m_foundBlocks (api_update_block_found env data s).1
    = m_foundBlocks s ++ from_option (fun d => [found d]) [] data
  /\ file_appends (api_update_block_found env data s).2
     = match data, known with
       | Some d, Some _ => if found_blocks_writable env then [found d] else []
       | _, _ => []
       end.
Proof.
  intros Hapi known found.
  unfold api_update_block_found. rewrite and_then_run.
  change ((emit Clear_crypto_cache s).1) with s.
  change ((emit Clear_crypto_cache s).2) with [Clear_crypto_cache].
  rewrite Hapi. simpl negb. cbv iota.
  rewrite prepend_trace_run, and_then_run.
  cbn [fst snd emit].
  rewrite api_update_stats_mod_foundBlocks.
  rewrite !file_appends_app, api_update_stats_mod_no_append.
  change (file_appends [Clear_crypto_cache]) with (@nil FoundBlock.t).
  change (file_appends [Api_pool_blocks ?l]) with (@nil FoundBlock.t).
  rewrite !app_nil_r, app_nil_l.
  subst known found.
  destruct data as [d |]; simpl.
  - split; [reflexivity |].
    destruct (get_difficulty_at_height (ChainMain.height d) s); simpl;
      [| reflexivity].
    destruct (found_blocks_writable env); reflexivity.
  - rewrite app_nil_r. split; reflexivity.
Qed.

(** The wording fails without the telemetry API: the block is
    supplied and its difficulty is indexed, yet nothing is recorded. *)
Lemma block_found_without_api_records_nothing : ~ block_found_as_specified.
Proof.
  intros H.
  destruct (H example_env (Some (example_header 10))
              (store_header (example_header 10) (p2pool_init false)))
    as [H1 _].
  destruct H1 as [H1 _].
  - exists (example_header 10). split; [reflexivity |].
    vm_compute. eexists. reflexivity.
  - vm_compute in H1. discriminate.
Qed.

(** With the API and a block whose difficulty is not indexed the file gains
    nothing while the in-memory list gains an entry of zero difficulty. *)
Lemma block_found_unknown_difficulty :
  file_appends (api_update_block_found example_env (Some (example_header 10))
                  (p2pool_init true)).2 = []
  /\ m_foundBlocks (api_update_block_found example_env (Some (example_header 10))
                      (p2pool_init true)).1
     = [FoundBlock.mk 1700000000 10 1000010 difficulty_zero (mk_difficulty 5000 0)].
Proof. vm_compute. split; reflexivity. Qed.

(** C6 (amended): without the telemetry API on_block_found only clears the
    crypto caches: neither the file nor the in-memory list gains an entry.
    With the API: when a block is supplied, the difficulty at its height is
    indexed and the file can be opened, the file gains one record and the
    in-memory list the same [FoundBlock]; when no block is supplied neither
    gains an entry; when the difficulty at the block's height is not indexed
    the file gains no record. *)
Theorem api_update_block_found_appends (env : Env) (data : option ChainMain.t)
    (s : p2pool) :
  (m_api s = false ->
     api_update_block_found env data s = (s, [Clear_crypto_cache]))
  /\ (m_api s = true ->
      (forall d diff,
         data = Some d ->
         get_difficulty_at_height (ChainMain.height d) s = Some diff ->
         found_blocks_writable env = true ->
         file_appends (api_update_block_found env data s).2
           = [FoundBlock.mk (now env) (ChainMain.height d) (ChainMain.id d) diff
                            (sidechain_total_hashes env)]
         /\ m_foundBlocks (api_update_block_found env data s).1
            = m_foundBlocks s
              ++ [FoundBlock.mk (now env) (ChainMain.height d) (ChainMain.id d)
                                diff (sidechain_total_hashes env)])
      /\ (data = None ->
          file_appends (api_update_block_found env data s).2 = []
          /\ m_foundBlocks (api_update_block_found env data s).1 = m_foundBlocks s)
      /\ (forall d,
            data = Some d ->
            get_difficulty_at_height (ChainMain.height d) s = None ->
            file_appends (api_update_block_found env data s).2 = [])).
Proof.
  split.
  - intros Hapi. unfold api_update_block_found. rewrite and_then_run.
    simpl. rewrite Hapi. reflexivity.
  - intros Hapi.
    destruct (api_update_block_found_enabled env data s Hapi) as [Hm Hf].
    split; [| split].
    + intros d diff -> Hd Hw. rewrite Hm, Hf. simpl. rewrite Hd, Hw. simpl.
      split; reflexivity.
    + intros ->. rewrite Hm, Hf. simpl. rewrite app_nil_r. split; reflexivity.
    + intros d -> Hd. rewrite Hf. simpl. rewrite Hd. reflexivity.
Qed.

Lemma api_update_block_found_appends_witness :
  file_appends (api_update_block_found example_env (Some (example_header 10))
                  (example_index [10])).2
    = [FoundBlock.mk 1700000000 10 1000010 (mk_difficulty 300000 0)
                     (mk_difficulty 5000 0)]
  /\ m_foundBlocks (api_update_block_found example_env (Some (example_header 10))
                      (example_index [10])).1
     = [FoundBlock.mk 1700000000 10 1000010 (mk_difficulty 300000 0)
                      (mk_difficulty 5000 0)]
  /\ api_update_block_found example_env (Some (example_header 10))
       (store_header (example_header 10) (p2pool_init false))
     = (store_header (example_header 10) (p2pool_init false), [Clear_crypto_cache])
  /\ (file_appends (api_update_block_found example_env None (example_index [10])).2
        = []
      /\ m_foundBlocks (api_update_block_found example_env None (example_index [10])).1
         = [])
  /\ file_appends (api_update_block_found example_env (Some (example_header 11))
                     (example_index [10])).2 = [].
Proof.
  destruct (api_update_block_found_appends example_env (Some (example_header 10))
              (example_index [10])) as [_ H].
  destruct (H eq_refl) as [H1 _].
  destruct (H1 (example_header 10) (mk_difficulty 300000 0) eq_refl eq_refl eq_refl)
    as [Hf Hm].
  split; [exact Hf | split; [exact Hm | split; [| split]]].
  - apply (proj1 (api_update_block_found_appends example_env
                    (Some (example_header 10))
                    (store_header (example_header 10) (p2pool_init false)))).
    reflexivity.
  - apply (proj1 (proj2 (proj2 (api_update_block_found_appends example_env None
                                  (example_index [10])) eq_refl))).
    reflexivity.
  - apply (proj2 (proj2 (proj2 (api_update_block_found_appends example_env
                                  (Some (example_header 11))
                                  (example_index [10])) eq_refl))
             (example_header 11)); reflexivity.
Defined.

(** ** submit_block: the hex rendering *)

Lemma hex_value_digit d : 0 <= d < 16 -> hex_value (hex_digit d) = Some d.
Proof.
  intros H.
  assert (C : d = 0 \/ d = 1 \/ d = 2 \/ d = 3 \/ d = 4 \/ d = 5 \/ d = 6
              \/ d = 7 \/ d = 8 \/ d = 9 \/ d = 10 \/ d = 11 \/ d = 12
              \/ d = 13 \/ d = 14 \/ d = 15) by lia.
  repeat (destruct C as [-> | C]; [reflexivity |]).
  subst d. reflexivity.
Qed.

Lemma hex_decode_pair a b rest :
  hex_decode (String a (String b rest))
  = match hex_value a, hex_value b, hex_decode rest with
    | Some x, Some y, Some l => Some (byte_of_Z (16 * x + y) :: l)
    | _, _, _ => None
    end.
Proof. reflexivity. Qed.

Lemma hex_decode_hex02 v rest :
  0 <= v < 256 ->
  hex_decode (append (hex02 v) rest)
  = match hex_decode rest with
    | Some l => Some (byte_of_Z v :: l)
    | None => None
    end.
Proof.
  intros Hv. unfold hex02.
  change (append (String ?a (String ?b EmptyString)) rest)
    with (String a (String b rest)).
  rewrite hex_decode_pair, !hex_value_digit.
  - replace (16 * (v / 16) + v mod 16) with v; [reflexivity |].
    apply Z.div_mod. lia.
  - apply Z.mod_pos_bound. lia.
  - split; [apply Z.div_pos; lia | apply Z.div_lt_upper_bound; lia].
Qed.

Lemma byte_value_range b : 0 <= byte_value b < 256.
Proof.
  unfold byte_value. pose proof (Byte.to_N_bounded b) as H.
  split; [lia |]. apply N2Z.inj_le in H. simpl in H. lia.
Qed.

Lemma byte_of_Z_value b : byte_of_Z (byte_value b) = b.
Proof.
  unfold byte_of_Z. rewrite Z.mod_small by apply byte_value_range.
  unfold byte_value. rewrite N2Z.id, Byte.of_to_N. reflexivity.
Qed.

Lemma byte_of_Z_land v : byte_of_Z (Z.land v 255) = byte_of_Z v.
Proof.
  unfold byte_of_Z. change 255 with (Z.ones 8).
  rewrite Z.land_ones by lia. change (2 ^ 8) with 256.
  rewrite Z.mod_mod by lia. reflexivity.
Qed.

Lemma land_255_range v : 0 <= Z.land v 255 < 256.
Proof.
  change 255 with (Z.ones 8). rewrite Z.land_ones by lia.
  apply Z.mod_pos_bound. reflexivity.
Qed.

(** The byte the loop emits for the [k]-th byte of a spliced value. *)
Lemma le32_nth n k d :
  0 <= k < 4 ->
  nth (Z.to_nat k) (le32 n) d = byte_of_Z (Z.land (Z.shiftr n (8 * k)) 255).
Proof.
  intros H. rewrite byte_of_Z_land, Z.shiftr_div_pow2 by lia.
  assert (C : k = 0 \/ k = 1 \/ k = 2 \/ k = 3) by lia.
  destruct C as [-> | [-> | [-> | ->]]]; simpl; try reflexivity.
  rewrite Z.div_1_r. reflexivity.
Qed.

Lemma consumed_before off i : i <= off -> consumed off i = 0.
Proof. unfold consumed. lia. Qed.

Lemma consumed_inside off i : off <= i <= off + 4 -> consumed off i = i - off.
Proof. unfold consumed. lia. Qed.

Lemma consumed_after off i : off + 4 <= i -> consumed off i = 4.
Proof. unfold consumed. lia. Qed.

Lemma consumed_outside off i :
  i < off \/ off + 4 <= i -> consumed off (i + 1) = consumed off i.
Proof. unfold consumed. lia. Qed.

Section Splice.
Variables (X Y N E : Z).
Hypothesis HX : 0 < X < 2 ^ 64 - 4.
Hypothesis HY : 0 < Y < 2 ^ 64 - 4.
Hypothesis Hdisjoint : X + 4 <= Y \/ Y + 4 <= X.

(** The loop from index [i] on, [n] and [e] being what the shifts have left
    of the two values. *)
Lemma submit_block_hex_from blob : forall i n e,
  0 <= i ->
  n = Z.shiftr N (8 * consumed X i) ->
  e = Z.shiftr E (8 * consumed Y i) ->
  hex_decode (submit_block_hex blob i X Y n e)
  = Some (replace_from i X (le32 N) (replace_from i Y (le32 E) blob)).
Proof.
  induction blob as [| b rest IH]; intros i n e Hi Hn He; [reflexivity |].
  cbn [submit_block_hex replace_from].
  change (Z.of_nat (length (le32 N))) with 4.
  change (Z.of_nat (length (le32 E))) with 4.
  rewrite (u64_small (X + 4)), (u64_small (Y + 4)) by lia.
  destruct (Z.eqb_spec X 0) as [? | _]; [lia |].
  destruct (Z.eqb_spec Y 0) as [? | _]; [lia |].
  cbn [negb andb].
  destruct (Z.leb_spec X i) as [HXi | HXi];
    [destruct (Z.ltb_spec i (X + 4)) as [HXj | HXj] |]; cbn [andb].
  - (* a byte of the nonce *)
    rewrite hex_decode_hex02 by apply land_255_range.
    rewrite (IH (i + 1) (Z.shiftr n 8) e); [| lia | |].
    + rewrite (le32_nth N (i - X)) by lia.
      rewrite Hn, consumed_inside by lia. reflexivity.
    + rewrite Hn, Z.shiftr_shiftr by lia.
      rewrite !consumed_inside by lia. f_equal. lia.
    + rewrite consumed_outside by lia. exact He.
  - (* past the nonce *)
    assert (Hn' : n = Z.shiftr N (8 * consumed X (i + 1))).
    { rewrite consumed_outside by lia. exact Hn. }
    destruct (Z.leb_spec Y i) as [HYi | HYi];
      [destruct (Z.ltb_spec i (Y + 4)) as [HYj | HYj] |]; cbn [andb].
    + rewrite hex_decode_hex02 by apply land_255_range.
      rewrite (IH (i + 1) n (Z.shiftr e 8)); [| lia | exact Hn' |].
      * rewrite (le32_nth E (i - Y)) by lia.
        rewrite He, consumed_inside by lia. reflexivity.
      * rewrite He, Z.shiftr_shiftr by lia.
        rewrite !consumed_inside by lia. f_equal. lia.
    + rewrite hex_decode_hex02 by apply byte_value_range.
      rewrite (IH (i + 1) n e); [| lia | exact Hn' |].
      * rewrite byte_of_Z_value. reflexivity.
      * rewrite consumed_outside by lia. exact He.
    + rewrite hex_decode_hex02 by apply byte_value_range.
      rewrite (IH (i + 1) n e); [| lia | exact Hn' |].
      * rewrite byte_of_Z_value. reflexivity.
      * rewrite consumed_outside by lia. exact He.
  - (* before the nonce *)
    assert (Hn' : n = Z.shiftr N (8 * consumed X (i + 1))).
    { rewrite consumed_outside by lia. exact Hn. }
    destruct (Z.leb_spec Y i) as [HYi | HYi];
      [destruct (Z.ltb_spec i (Y + 4)) as [HYj | HYj] |]; cbn [andb].
    + rewrite hex_decode_hex02 by apply land_255_range.
      rewrite (IH (i + 1) n (Z.shiftr e 8)); [| lia | exact Hn' |].
      * rewrite (le32_nth E (i - Y)) by lia.
        rewrite He, consumed_inside by lia. reflexivity.
      * rewrite He, Z.shiftr_shiftr by lia.
        rewrite !consumed_inside by lia. f_equal. lia.
    + rewrite hex_decode_hex02 by apply byte_value_range.
      rewrite (IH (i + 1) n e); [| lia | exact Hn' |].
      * rewrite byte_of_Z_value. reflexivity.
      * rewrite consumed_outside by lia. exact He.
    + rewrite hex_decode_hex02 by apply byte_value_range.
      rewrite (IH (i + 1) n e); [| lia | exact Hn' |].
      * rewrite byte_of_Z_value. reflexivity.
      * rewrite consumed_outside by lia. exact He.
Qed.

Lemma submit_block_hex_spliced blob :
  hex_decode (submit_block_hex blob 0 X Y N E)
  = Some (replace_bytes X (le32 N) (replace_bytes Y (le32 E) blob)).
Proof.
  apply submit_block_hex_from; [lia | |];
    rewrite consumed_before by lia; reflexivity.
Qed.

End Splice.

(** With both offsets zero nothing is spliced. *)
Lemma submit_block_hex_verbatim blob : forall i n e,
  hex_decode (submit_block_hex blob i 0 0 n e) = Some blob.
Proof.
  induction blob as [| b rest IH]; intros i n e; [reflexivity |].
  cbn [submit_block_hex]. change (0 =? 0) with true. cbn [negb andb].
  rewrite hex_decode_hex02 by apply byte_value_range.
  rewrite IH, byte_of_Z_value. reflexivity.
Qed.

(** The splicing as worded fails at a zero offset, which the loop takes for
    "no splice": the nonce is not written at bytes 0..3. *)
Lemma splice_at_offset_zero_skipped : ~ splice_as_specified.
Proof.
  intros H.
  specialize (H example_blob 0 8 2864434397 287454020).
  vm_compute in H.
  specialize (H ltac:(discriminate) ltac:(discriminate) ltac:(discriminate)
                ltac:(discriminate)
                ltac:(split; [discriminate | reflexivity])
                ltac:(split; [discriminate | reflexivity])).
  discriminate H.
Qed.

(** C5 (amended): for an internal submission whose template gives a blob and
    offsets [X] and [Y] that are non-zero and whose 4-byte ranges do not
    overlap, the hex string in the one [submit_block] request decodes to the
    blob with the bytes at [X..X+4) replaced by the little-endian nonce and
    those at [Y..Y+4) by the little-endian extra nonce (a zero offset means
    that the value is not spliced); for an external submission it decodes to
    the pending blob verbatim. *)
Theorem submit_block_splices (env : Env) (s : p2pool) :
  (forall blob X Y,
     SubmitBlockData.blob (m_submitBlockData s) = [] ->
     get_block_template_blob env (SubmitBlockData.template_id (m_submitBlockData s))
       = (blob, X, Y) ->
     blob <> [] ->
     0 < X < 2 ^ 64 - 4 -> 0 < Y < 2 ^ 64 - 4 ->
     X + 4 <= Y \/ Y + 4 <= X ->
     exists hex,
       submit_block env s
         = (s, [Rpc_submit_block
                  (append submit_request_prefix (append hex submit_request_suffix))])
       /\ hex_decode hex
          = Some (replace_bytes X (le32 (SubmitBlockData.nonce (m_submitBlockData s)))
                    (replace_bytes Y
                       (le32 (SubmitBlockData.extra_nonce (m_submitBlockData s)))
                       blob)))
  /\ (SubmitBlockData.blob (m_submitBlockData s) <> [] ->
      exists hex,
        submit_block env s
          = (s, [Rpc_submit_block
                   (append submit_request_prefix (append hex submit_request_suffix))])
        /\ hex_decode hex = Some (SubmitBlockData.blob (m_submitBlockData s))).
Proof.
  split.
  - intros blob X Y Hempty Htemplate Hblob HX HY Hd.
    exists (submit_block_hex blob 0 X Y
              (SubmitBlockData.nonce (m_submitBlockData s))
              (SubmitBlockData.extra_nonce (m_submitBlockData s))).
    split.
    + unfold submit_block, submit_block_source.
      rewrite Hempty, Htemplate.
      destruct blob as [| b rest]; [contradiction | reflexivity].
    + apply submit_block_hex_spliced; assumption.
  - intros Hblob.
    exists (submit_block_hex (SubmitBlockData.blob (m_submitBlockData s)) 0 0 0
              (SubmitBlockData.nonce (m_submitBlockData s))
              (SubmitBlockData.extra_nonce (m_submitBlockData s))).
    split.
    + unfold submit_block, submit_block_source.
      destruct (SubmitBlockData.blob (m_submitBlockData s)) as [| b rest];
        [contradiction | reflexivity].
    + apply submit_block_hex_verbatim.
Qed.

Lemma submit_block_splices_witness :
  (exists hex,
     submit_block example_template_env
       (submit_block_async 7 2864434397 287454020 (p2pool_init true)).1
       = ((submit_block_async 7 2864434397 287454020 (p2pool_init true)).1,
          [Rpc_submit_block
             (append submit_request_prefix (append hex submit_request_suffix))])
     /\ hex_decode hex
        = Some [x01; xdd; xcc; xbb; xaa; x06; x44; x33; x22; x11; x0b; x0c])
  /\ (exists hex,
        submit_block example_env
          (submit_block_async_blob example_blob (p2pool_init true)).1
          = ((submit_block_async_blob example_blob (p2pool_init true)).1,
             [Rpc_submit_block
                (append submit_request_prefix (append hex submit_request_suffix))])
        /\ hex_decode hex = Some example_blob).
Proof.
  split.
  - apply (proj1 (submit_block_splices example_template_env
                    (submit_block_async 7 2864434397 287454020 (p2pool_init true)).1)
             example_blob 1 6);
      try reflexivity; try discriminate; try lia.
  - apply (proj2 (submit_block_splices example_env
                    (submit_block_async_blob example_blob (p2pool_init true)).1)).
    discriminate.
Defined.

(** ** The by-height map in iteration order *)

#[local] Instance height_le_trans : Transitive height_le.
Proof. intros a b c. unfold height_le. lia. Qed.

#[local] Instance height_le_total : Total height_le.
Proof. intros a b. unfold height_le. lia. Qed.

Lemma by_height_ascending_perm (bh : gmap Z ChainMain.t) :
  by_height_ascending bh ≡ₚ map_to_list bh.
Proof. apply merge_sort_Permutation. Qed.

Lemma elem_of_by_height_ascending (bh : gmap Z ChainMain.t) h c :
  (h, c) ∈ by_height_ascending bh <-> bh !! h = Some c.
Proof. rewrite by_height_ascending_perm. apply elem_of_map_to_list. Qed.

Lemma by_height_ascending_sorted (bh : gmap Z ChainMain.t) :
  StronglySorted height_le (by_height_ascending bh).
Proof. apply StronglySorted_merge_sort; apply _. Qed.

Lemma by_height_ascending_NoDup (bh : gmap Z ChainMain.t) :
  NoDup (by_height_ascending bh).*1.
Proof. rewrite by_height_ascending_perm. apply NoDup_fst_map_to_list. Qed.

Lemma by_height_ascending_length (bh : gmap Z ChainMain.t) :
  length (by_height_ascending bh) = size bh.
Proof. rewrite by_height_ascending_perm. apply length_map_to_list. Qed.

(** ** cleanup_mainchain_data *)

Lemma cleanup_walk_erase_all height l : forall s,
  cleanup_walk height l s = erase_all (cleanup_dropped height l) s.
Proof.
  induction l as [| [h c] rest IH]; intros s; simpl; [reflexivity |].
  destruct (height <=? u64 (h + PRUNE_DISTANCE)); [reflexivity |].
  destruct (bool_decide (h ∈ seed_heights height)); apply IH.
Qed.

Lemma cleanup_dropped_subset height l e :
  e ∈ cleanup_dropped height l -> e ∈ l.
Proof.
  induction l as [| [h c] rest IH]; simpl; [auto |].
  destruct (height <=? u64 (h + PRUNE_DISTANCE)); [intros H; inversion H |].
  destruct (bool_decide (h ∈ seed_heights height)).
  - intros H. right. auto.
  - intros H. apply elem_of_cons in H as [-> | H]; [left | right; auto].
Qed.

Lemma erase_all_cons h c rest s :
  erase_all ((h, c) :: rest) s = erase_all rest (erase_entry h c s).
Proof. reflexivity. Qed.

Lemma erase_all_by_height d : forall s k,
  m_mainchainByHeight (erase_all d s) !! k
  = if decide (k ∈ d.*1) then None else m_mainchainByHeight s !! k.
Proof.
  induction d as [| [h c] rest IH]; intros s k.
  - rewrite decide_False by (intros H; inversion H). reflexivity.
  - rewrite erase_all_cons, IH, fmap_cons. cbn [fst erase_entry].
    change (m_mainchainByHeight (set_mainchain ?bh ?bx s)) with bh.
    destruct (decide (k ∈ rest.*1)) as [Hin | Hnin].
    + rewrite decide_True by (right; exact Hin). reflexivity.
    + destruct (decide (k = h)) as [-> | Hne].
      * rewrite decide_True by left. apply lookup_delete_eq.
      * rewrite decide_False.
        -- apply lookup_delete_ne. congruence.
        -- intros H. apply elem_of_cons in H as [H | H]; contradiction.
Qed.

Lemma erase_all_by_hash d : forall s k,
  m_mainchainByHash (erase_all d s) !! k
  = if decide (k ∈ (fun e => ChainMain.id e.2) <$> d) then None
    else m_mainchainByHash s !! k.
Proof.
  induction d as [| [h c] rest IH]; intros s k.
  - rewrite decide_False by (intros H; inversion H). reflexivity.
  - rewrite erase_all_cons, IH, fmap_cons. cbn [snd erase_entry].
    change (m_mainchainByHash (set_mainchain ?bh ?bx s)) with bx.
    destruct (decide (k ∈ (fun e => ChainMain.id e.2) <$> rest)) as [Hin | Hnin].
    + rewrite decide_True by (right; exact Hin). reflexivity.
    + destruct (decide (k = ChainMain.id c)) as [-> | Hne].
      * rewrite decide_True by left. apply lookup_delete_eq.
      * rewrite decide_False.
        -- apply lookup_delete_ne. congruence.
        -- intros H. apply elem_of_cons in H as [H | H]; contradiction.
Qed.

(** Without wrap-around the walk erases exactly the entries older than 720
    blocks that are not at a seed height. *)
Lemma cleanup_dropped_spec height l h c :
  StronglySorted height_le l ->
  (forall e, e ∈ l -> 0 <= e.1 < 2 ^ 64 - 720) ->
  (h, c) ∈ cleanup_dropped height l
  <-> (h, c) ∈ l /\ h + 720 < height /\ h ∉ seed_heights height.
Proof.
  induction l as [| [h0 c0] rest IH]; intros Hs Hr.
  - simpl. split; [intros H; inversion H | intros [H _]; inversion H].
  - apply StronglySorted_cons in Hs as [Hall Hs].
    assert (Hr0 : 0 <= h0 < 2 ^ 64 - 720) by (apply (Hr (h0, c0)); left).
    assert (Hr' : forall e, e ∈ rest -> 0 <= e.1 < 2 ^ 64 - 720)
      by (intros e He; apply Hr; right; exact He).
    specialize (IH Hs Hr').
    simpl. unfold PRUNE_DISTANCE, BLOCK_HEADERS_REQUIRED.
    rewrite u64_small by lia.
    destruct (Z.leb_spec height (h0 + 720)) as [Hb | Hb].
    + split; [intros H; inversion H |].
      intros (Hin & Hlt & _). exfalso.
      apply elem_of_cons in Hin as [Heq | Hin].
      * injection Heq as -> _. lia.
      * rewrite Forall_forall in Hall. specialize (Hall _ Hin).
        unfold height_le in Hall. simpl in Hall. lia.
    + destruct (bool_decide_reflect (h0 ∈ seed_heights height)) as [Hseed | Hseed].
      * rewrite IH. split.
        -- intros (Hin & H1 & H2). split; [right; exact Hin | auto].
        -- intros (Hin & H1 & H2). split; [| auto].
           apply elem_of_cons in Hin as [Heq | Hin]; [| exact Hin].
           injection Heq as -> _. contradiction.
      * rewrite elem_of_cons, IH. split.
        -- intros [Heq | (Hin & H1 & H2)].
           ++ injection Heq as -> ->. split; [left | auto].
           ++ split; [right; exact Hin | auto].
        -- intros (Hin & H1 & H2).
           apply elem_of_cons in Hin as [Heq | Hin]; [left; exact Heq |].
           right. auto.
Qed.

Lemma cleanup_dropped_lookup tip s h :
  heights_in_range s ->
  h ∈ (cleanup_dropped tip (by_height_ascending (m_mainchainByHeight s))).*1
  <-> is_Some (m_mainchainByHeight s !! h) /\ h + 720 < tip
      /\ h ∉ seed_heights tip.
Proof.
  intros Hr.
  assert (Hspec : forall h c,
    (h, c) ∈ cleanup_dropped tip (by_height_ascending (m_mainchainByHeight s))
    <-> m_mainchainByHeight s !! h = Some c /\ h + 720 < tip
        /\ h ∉ seed_heights tip).
  { intros h' c'. rewrite cleanup_dropped_spec.
    - rewrite elem_of_by_height_ascending. reflexivity.
    - apply by_height_ascending_sorted.
    - intros [h0 c0] He. apply elem_of_by_height_ascending in He.
      apply Hr. exists c0. exact He. }
  rewrite list_elem_of_fmap. split.
  - intros ([h' c'] & -> & Hin). apply Hspec in Hin as (Hl & H1 & H2).
    split; [exists c'; exact Hl | auto].
  - intros ([c Hl] & H1 & H2). exists (h, c). split; [reflexivity |].
    apply Hspec. auto.
Qed.

(** The cleanup as worded fails one block below the window: the entry at
    [tip - 720] survives. *)
Lemma cleanup_keeps_tip_minus_720 : ~ cleanup_as_specified.
Proof.
  intros H.
  assert (Hr : heights_in_range (example_index [280])).
  { intros h [v Hv]. apply elem_of_map_to_list, list_elem_of_In in Hv.
    vm_compute in Hv. destruct Hv as [Hv | []]. injection Hv as <- _. lia. }
  destruct (H 1000 (example_index [280]) Hr 280) as [Hw | Hs].
  - vm_compute. eexists. reflexivity.
  - lia.
  - apply list_elem_of_In in Hs. vm_compute in Hs.
    destruct Hs as [Hs | [Hs | [Hs | []]]]; discriminate Hs.
Qed.

Lemma erase_all_frame d : forall s,
  erase_all d s
  = set_mainchain (m_mainchainByHeight (erase_all d s))
                  (m_mainchainByHash (erase_all d s)) s.
Proof.
  induction d as [| [h c] rest IH]; intros s.
  - destruct s. reflexivity.
  - rewrite erase_all_cons. rewrite IH at 1. reflexivity.
Qed.

(** The by-hash map is pruned by id: a kept height loses its by-hash record
    when a dropped entry carries the same id.  Heights 100 and 5000 both
    carry id 0; the cleanup for tip 5000 drops height 100 and with it the
    by-hash record of height 5000. *)
Lemma cleanup_erases_shared_id :
  m_mainchainByHeight
    (cleanup_mainchain_data 5000
       (store_headers
          [Some (ChainMain.mk (mk_difficulty 1 0) 100 11 12 0);
           Some (ChainMain.mk (mk_difficulty 2 0) 5000 21 22 0)]
          (p2pool_init true)))
    !! 5000 = Some (ChainMain.mk (mk_difficulty 2 0) 5000 21 22 0)
  /\ m_mainchainByHash
       (store_headers
          [Some (ChainMain.mk (mk_difficulty 1 0) 100 11 12 0);
           Some (ChainMain.mk (mk_difficulty 2 0) 5000 21 22 0)]
          (p2pool_init true))
       !! 0 = Some (ChainMain.mk (mk_difficulty 2 0) 5000 21 22 0)
  /\ m_mainchainByHash
       (cleanup_mainchain_data 5000
          (store_headers
             [Some (ChainMain.mk (mk_difficulty 1 0) 100 11 12 0);
              Some (ChainMain.mk (mk_difficulty 2 0) 5000 21 22 0)]
             (p2pool_init true)))
       !! 0 = None.
Proof. vm_compute. repeat split. Qed.

(** C2 (amended): on an index whose heights are below 2^64 - 720,
    cleanup_mainchain_data(tip) drops from the by-height map exactly the
    entries with [height + 720 < tip] whose height is not one of the three
    seed heights (computed in 64 bits) and leaves every other by-height entry
    as it is; so every remaining height is at least [tip - 720] or is one of
    the three seed heights.  From the by-hash map it erases exactly the keys
    that are the id of a dropped entry and leaves every other key as it is;
    no other member changes; and when [tip < 720] the operation changes
    nothing. *)
Theorem cleanup_mainchain_data_survivors (tip : Z) (s : p2pool) :
  heights_in_range s ->
  (forall h,
     m_mainchainByHeight (cleanup_mainchain_data tip s) !! h
     = if decide (h + 720 < tip /\ h ∉ seed_heights tip) then None
       else m_mainchainByHeight s !! h)
  /\ (forall h,
        is_Some (m_mainchainByHeight (cleanup_mainchain_data tip s) !! h) ->
        tip - 720 <= h \/ h ∈ seed_heights tip)
  /\ (forall h c,
        m_mainchainByHeight s !! h = Some c ->
        h + 720 < tip -> h ∉ seed_heights tip ->
        m_mainchainByHash (cleanup_mainchain_data tip s) !! ChainMain.id c = None)
  /\ (forall k,
        (forall h c,
           m_mainchainByHeight s !! h = Some c ->
           h + 720 < tip -> h ∉ seed_heights tip -> ChainMain.id c <> k) ->
        m_mainchainByHash (cleanup_mainchain_data tip s) !! k
        = m_mainchainByHash s !! k)
  /\ cleanup_mainchain_data tip s
     = set_mainchain (m_mainchainByHeight (cleanup_mainchain_data tip s))
                     (m_mainchainByHash (cleanup_mainchain_data tip s)) s
  /\ (tip < 720 -> cleanup_mainchain_data tip s = s).
Proof.
  intros Hr.
  pose proof (cleanup_dropped_lookup tip s) as Hd.
  assert (Hdrop : forall h c,
    (h, c) ∈ cleanup_dropped tip (by_height_ascending (m_mainchainByHeight s))
    <-> m_mainchainByHeight s !! h = Some c /\ h + 720 < tip
        /\ h ∉ seed_heights tip).
  { intros h c. rewrite cleanup_dropped_spec.
    - rewrite elem_of_by_height_ascending. reflexivity.
    - apply by_height_ascending_sorted.
    - intros [h0 c0] He. apply elem_of_by_height_ascending in He.
      apply Hr. exists c0. exact He. }
  unfold cleanup_mainchain_data. rewrite cleanup_walk_erase_all.
  assert (H1 : forall h,
    m_mainchainByHeight
      (erase_all (cleanup_dropped tip (by_height_ascending (m_mainchainByHeight s))) s)
      !! h
    = if decide (h + 720 < tip /\ h ∉ seed_heights tip) then None
      else m_mainchainByHeight s !! h).
  { intros h. rewrite erase_all_by_height.
    destruct (decide (h ∈ _)) as [Hin | Hnin].
    - apply Hd in Hin as (_ & Ha & Hb); [| exact Hr].
      rewrite decide_True by auto. reflexivity.
    - destruct (decide (h + 720 < tip /\ h ∉ seed_heights tip)) as [[Ha Hb] | _];
        [| reflexivity].
      destruct (m_mainchainByHeight s !! h) as [c |] eqn:E; [| reflexivity].
      exfalso. apply Hnin, Hd; [exact Hr |].
      split; [exists c; exact E | auto]. }
  split; [exact H1 | split; [| split; [| split; [| split]]]].
  - intros h. rewrite H1.
    destruct (decide (h + 720 < tip /\ h ∉ seed_heights tip)) as [_ | Hn].
    + intros [x Hx]. discriminate.
    + intros _.
      destruct (decide (h ∈ seed_heights tip)) as [Hs | Hs]; [right; exact Hs |].
      left. destruct (Z.lt_ge_cases (h + 720) tip) as [Hlt | Hge]; [| lia].
      exfalso. apply Hn. auto.
  - intros h c Hl Ha Hb. rewrite erase_all_by_hash.
    rewrite decide_True; [reflexivity |].
    apply list_elem_of_fmap. exists (h, c). split; [reflexivity |].
    apply Hdrop. auto.
  - intros k Hk. rewrite erase_all_by_hash.
    rewrite decide_False; [reflexivity |].
    intros Hin. apply list_elem_of_fmap in Hin as ([h c] & Heq & Hin).
    apply Hdrop in Hin as (Hl & Ha & Hb).
    apply (Hk h c Hl Ha Hb). symmetry. exact Heq.
  - apply erase_all_frame.
  - intros Hlow.
    destruct (cleanup_dropped tip (by_height_ascending (m_mainchainByHeight s)))
      as [| [h c] rest] eqn:E; [reflexivity |].
    exfalso.
    assert (Hin : h ∈ ((h, c) :: rest).*1) by left.
    apply Hd in Hin as (Hs & Ha & _); [| exact Hr].
    apply Hr in Hs. lia.
Qed.

Lemma example_index_in_range :
  heights_in_range (example_index [0; 5; 100; 279; 280; 1000; 1001]).
Proof.
  intros h [v Hv]. apply elem_of_map_to_list, list_elem_of_In in Hv.
  vm_compute in Hv.
  repeat (destruct Hv as [Hv | Hv]; [injection Hv as <- _; lia |]).
  destruct Hv.
Qed.

Lemma example_index_lookup h c :
  m_mainchainByHeight (example_index [0; 5; 100; 279; 280; 1000; 1001]) !! h = Some c ->
  h ∈ [0; 5; 100; 279; 280; 1000; 1001] /\ c = example_header h.
Proof.
  intros Hl. apply elem_of_map_to_list, list_elem_of_In in Hl.
  vm_compute in Hl.
  destruct Hl as [Hl | [Hl | [Hl | [Hl | [Hl | [Hl | [Hl | []]]]]]]];
    injection Hl as <- <-; (split; [| reflexivity]);
    apply list_elem_of_In; vm_compute; tauto.
Qed.

Lemma cleanup_mainchain_data_survivors_witness :
  m_mainchainByHeight
    (cleanup_mainchain_data 1000 (example_index [0; 5; 100; 279; 280; 1000; 1001]))
    !! 279 = None
  /\ m_mainchainByHeight
       (cleanup_mainchain_data 1000 (example_index [0; 5; 100; 279; 280; 1000; 1001]))
       !! 280 = Some (example_header 280)
  /\ m_mainchainByHeight
       (cleanup_mainchain_data 1000 (example_index [0; 5; 100; 279; 280; 1000; 1001]))
       !! 0 = Some (example_header 0)
  /\ m_mainchainByHash
       (cleanup_mainchain_data 1000 (example_index [0; 5; 100; 279; 280; 1000; 1001]))
       !! 1000279 = None
  /\ m_mainchainByHash
       (cleanup_mainchain_data 1000 (example_index [0; 5; 100; 279; 280; 1000; 1001]))
       !! 1000280 = Some (example_header 280)
  /\ (1000 - 720 <= 280 \/ 280 ∈ seed_heights 1000)
  /\ cleanup_mainchain_data 719 (example_index [0; 5; 100; 279; 280; 1000; 1001])
     = example_index [0; 5; 100; 279; 280; 1000; 1001].
Proof.
  destruct (cleanup_mainchain_data_survivors 1000
              (example_index [0; 5; 100; 279; 280; 1000; 1001])
              example_index_in_range) as (H1 & H2 & H3 & H4 & _).
  destruct (cleanup_mainchain_data_survivors 719
              (example_index [0; 5; 100; 279; 280; 1000; 1001])
              example_index_in_range) as (_ & _ & _ & _ & _ & H5).
  split; [rewrite H1; reflexivity |].
  split; [rewrite H1; reflexivity |].
  split; [rewrite H1; reflexivity |].
  split; [| split; [| split]].
  - apply (H3 279 (example_header 279)).
    + reflexivity.
    + lia.
    + intros Hs. apply list_elem_of_In in Hs. vm_compute in Hs.
      destruct Hs as [Hs | [Hs | [Hs | []]]]; discriminate Hs.
  - rewrite H4; [reflexivity |].
    intros h c Hl Ha _. apply example_index_lookup in Hl as [Hin ->].
    unfold example_header. cbn [ChainMain.id]. lia.
  - apply H2. rewrite H1. eexists. reflexivity.
  - apply H5. lia.
Defined.

(** ** The two indexes *)

Lemma hash_keyed_insert s bh c :
  hash_keyed s ->
  hash_keyed (set_mainchain bh (<[ChainMain.id c := c]> (m_mainchainByHash s)) s).
Proof.
  intros H k v. simpl. intros Hl.
  apply lookup_insert_Some in Hl as [[<- <-] | [_ Hl]]; [reflexivity |].
  apply H. exact Hl.
Qed.

Lemma hash_keyed_erase_all d s : hash_keyed s -> hash_keyed (erase_all d s).
Proof.
  intros H k v. rewrite erase_all_by_hash.
  destruct (decide _); [discriminate | apply H].
Qed.

Lemma hash_keyed_cleanup tip s :
  hash_keyed s -> hash_keyed (cleanup_mainchain_data tip s).
Proof.
  unfold cleanup_mainchain_data. rewrite cleanup_walk_erase_all.
  apply hash_keyed_erase_all.
Qed.

Lemma hash_keyed_miner_data_insert data s :
  hash_keyed s -> hash_keyed (miner_data_insert data s).
Proof.
  intros H. unfold miner_data_insert.
  match goal with
  | |- hash_keyed (set_mainchain ?bh (<[ChainMain.id ?c := ?c]> _) s) =>
      apply (hash_keyed_insert s bh c H)
  end.
Qed.

Lemma hash_keyed_chain_main_upsert data s :
  hash_keyed s -> hash_keyed (chain_main_upsert data s).1.
Proof.
  intros H. unfold chain_main_upsert. cbn [fst].
  match goal with
  | |- hash_keyed (set_mainchain ?bh (<[ChainMain.id ?c := ?c]> _) s) =>
      apply (hash_keyed_insert s bh c H)
  end.
Qed.

Lemma hash_keyed_store_header c s : hash_keyed s -> hash_keyed (store_header c s).
Proof. intros H. apply hash_keyed_insert. exact H. Qed.

Lemma store_headers_snoc l o s :
  store_headers (l ++ [o]) s
  = from_option (fun c => store_header c (store_headers l s)) (store_headers l s) o.
Proof. unfold store_headers. rewrite foldl_snoc. reflexivity. Qed.

Lemma hash_keyed_store_headers l s : hash_keyed s -> hash_keyed (store_headers l s).
Proof.
  intros H. induction l as [| o l IH] using rev_ind; [exact H |].
  rewrite store_headers_snoc. destruct o as [c |]; simpl; [| exact IH].
  apply hash_keyed_store_header. exact IH.
Qed.

Lemma mirrored_at_written s bh c h :
  bh !! h = Some c ->
  mirrored_at h (set_mainchain bh (<[ChainMain.id c := c]> (m_mainchainByHash s)) s).
Proof.
  intros Hl. exists c. simpl. split; [exact Hl | apply lookup_insert_eq].
Qed.

Lemma mirrored_at_miner_data_insert data s :
  mirrored_at (u64 (MinerData.height data - 1)) (miner_data_insert data s).
Proof.
  unfold miner_data_insert.
  match goal with
  | |- mirrored_at _ (set_mainchain ?bh (<[ChainMain.id ?c := ?c]> _) s) =>
      apply (mirrored_at_written s bh c)
  end.
  apply lookup_insert_eq.
Qed.

Lemma mirrored_at_chain_main_upsert data s :
  mirrored_at (ChainMain.height data) (chain_main_upsert data s).1.
Proof.
  unfold chain_main_upsert. cbn [fst].
  match goal with
  | |- mirrored_at _ (set_mainchain ?bh (<[ChainMain.id ?c := ?c]> _) s) =>
      apply (mirrored_at_written s bh c)
  end.
  apply lookup_insert_eq.
Qed.

Lemma mirrored_at_store_header c s : mirrored_at (ChainMain.height c) (store_header c s).
Proof. apply mirrored_at_written. apply lookup_insert_eq. Qed.

(** Erasing entries of the by-height map together with their ids keeps the
    mirror. *)
Lemma mirror_erase_all d s :
  (forall h c, (h, c) ∈ d -> m_mainchainByHeight s !! h = Some c) ->
  mirror s -> mirror (erase_all d s).
Proof.
  intros Hd [Hfwd Hrev]. split.
  - intros h v. rewrite erase_all_by_height, erase_all_by_hash.
    destruct (decide (h ∈ d.*1)) as [| Hh]; [discriminate |].
    intros Hl. rewrite decide_False; [apply (Hfwd h); exact Hl |].
    intros Hin. apply list_elem_of_fmap in Hin as ([h' c'] & Hid & Hin).
    simpl in Hid. pose proof (Hd _ _ Hin) as Hl'.
    destruct (Hrev (ChainMain.id v)) as (h0 & _ & Huniq).
    { rewrite (Hfwd _ _ Hl). eexists. reflexivity. }
    assert (h = h0) by (apply Huniq; exists v; auto).
    assert (h' = h0) by (apply Huniq; exists c'; auto).
    apply Hh. apply list_elem_of_fmap. exists (h', c'). split; [| exact Hin].
    simpl. congruence.
  - intros k. rewrite erase_all_by_hash.
    destruct (decide (k ∈ _)) as [| Hk]; [intros [x Hx]; discriminate |].
    intros Hs. destruct (Hrev k Hs) as (h & (v & Hl & Hid) & Huniq).
    exists h. split.
    + exists v. split; [| exact Hid].
      rewrite erase_all_by_height, decide_False; [exact Hl |].
      intros Hin. apply list_elem_of_fmap in Hin as ([h' c'] & Heq & Hin).
      simpl in Heq. subst h'. pose proof (Hd _ _ Hin) as Hl'.
      apply Hk. apply list_elem_of_fmap. exists (h, c'). split; [| exact Hin].
      simpl. congruence.
    + intros h' (v' & Hl' & Hid'). apply Huniq. exists v'. split; [| exact Hid'].
      rewrite erase_all_by_height in Hl'.
      destruct (decide (h' ∈ d.*1)); [discriminate | exact Hl'].
Qed.

Lemma mirror_cleanup tip s : mirror s -> mirror (cleanup_mainchain_data tip s).
Proof.
  unfold cleanup_mainchain_data. rewrite cleanup_walk_erase_all.
  apply mirror_erase_all. intros h c Hin.
  apply cleanup_dropped_subset in Hin.
  apply elem_of_by_height_ascending. exact Hin.
Qed.

(** A header whose height and id are both new to the index keeps the
    mirror. *)
Lemma mirror_store_header_fresh c s :
  mirror s ->
  m_mainchainByHeight s !! ChainMain.height c = None ->
  m_mainchainByHash s !! ChainMain.id c = None ->
  mirror (store_header c s).
Proof.
  intros [Hfwd Hrev] Hh Hx. split.
  - intros h v Hl. simpl in *.
    apply lookup_insert_Some in Hl as [[<- <-] | [Hne Hl]].
    + apply lookup_insert_eq.
    + pose proof (Hfwd _ _ Hl) as Hv.
      rewrite lookup_insert_ne; [exact Hv |].
      intros Heq. rewrite <- Heq, Hx in Hv. discriminate.
  - intros k [w Hk]. simpl in *.
    apply lookup_insert_Some in Hk as [[<- <-] | [Hne Hk]].
    + exists (ChainMain.height c). split.
      * exists c. split; [apply lookup_insert_eq | reflexivity].
      * intros h' (v' & Hl' & Hid').
        apply lookup_insert_Some in Hl' as [[<- _] | [_ Hl']]; [reflexivity |].
        apply Hfwd in Hl'. rewrite Hid', Hx in Hl'. discriminate.
    + destruct (Hrev k) as (h & (v & Hl & Hid) & Huniq); [eexists; exact Hk |].
      exists h. split.
      * exists v. split; [| exact Hid].
        rewrite lookup_insert_ne; [exact Hl |].
        intros Heq. rewrite Heq, Hl in Hh. discriminate.
      * intros h' (v' & Hl' & Hid').
        apply lookup_insert_Some in Hl' as [[_ <-] | [_ Hl']];
          [contradiction |].
        apply Huniq. exists v'. auto.
Qed.

(** A tip push for a height that is indexed updates the entry in both maps
    and keeps the mirror. *)
Lemma mirror_chain_main_upsert data s :
  mirror s ->
  is_Some (m_mainchainByHeight s !! ChainMain.height data) ->
  mirror (chain_main_upsert data s).1.
Proof.
  intros [Hfwd Hrev] [old Hold].
  unfold chain_main_upsert, at_height. rewrite Hold. cbn [default fst ChainMain.id].
  pose proof (Hfwd _ _ Hold) as Hxold.
  destruct (Hrev (ChainMain.id old)) as (h0 & _ & Huniq0); [eexists; exact Hxold |].
  assert (Hh0 : ChainMain.height data = h0) by (apply Huniq0; exists old; auto).
  split.
  - intros h v Hl. simpl in *.
    apply lookup_insert_Some in Hl as [[<- <-] | [Hne Hl]].
    + apply lookup_insert_eq.
    + rewrite lookup_insert_ne; [apply (Hfwd h); exact Hl |].
      intros Heq. apply Hne. rewrite Hh0. symmetry. apply Huniq0.
      exists v. auto.
  - intros k [w Hk]. simpl in *.
    assert (Hs : is_Some (m_mainchainByHash s !! k)).
    { apply lookup_insert_Some in Hk as [[<- _] | [_ Hk]]; eexists; eassumption. }
    destruct (Hrev k Hs) as (h & (v & Hl & Hid) & Huniq).
    exists h. split.
    + destruct (decide (ChainMain.height data = h)) as [<- | Hne].
      * eexists. split; [apply lookup_insert_eq |].
        simpl. rewrite Hold in Hl. injection Hl as <-. exact Hid.
      * exists v. split; [| exact Hid]. rewrite lookup_insert_ne; auto.
    + intros h' (v' & Hl' & Hid'). apply Huniq.
      apply lookup_insert_Some in Hl' as [[<- <-] | [_ Hl']].
      * exists old. split; [exact Hold | exact Hid'].
      * exists v'. auto.
Qed.

Lemma hash_keyed_init api : hash_keyed (p2pool_init api).
Proof. intros k v H. simpl in H. rewrite lookup_empty in H. discriminate. Qed.

Lemma mirror_init api : mirror (p2pool_init api).
Proof.
  split.
  - intros h v H. simpl in H. rewrite lookup_empty in H. discriminate.
  - intros k [v H]. simpl in H. rewrite lookup_empty in H. discriminate.
Qed.

(** The mirror as worded is broken by the first handle_miner_data: the entry
    it creates at [data.height] carries the difficulty only, has the zero id,
    and is not in the by-hash map. *)
Lemma miner_data_breaks_mirror :
  mirror (p2pool_init false)
  /\ ~ mirror (handle_miner_data 60 example_env example_miner_data
                 (p2pool_init false)).1
  /\ ~ mirror (cleanup_mainchain_data 1000
                 (miner_data_insert example_miner_data (p2pool_init false))).
Proof.
  split; [apply mirror_init | split].
  - intros [Hfwd _].
    specialize (Hfwd 1000 (ChainMain.mk (mk_difficulty 300000 0) 0 0 0 0)).
    vm_compute in Hfwd. specialize (Hfwd eq_refl). discriminate.
  - intros [Hfwd _].
    specialize (Hfwd 1000 (ChainMain.mk (mk_difficulty 300000 0) 0 0 0 0)).
    vm_compute in Hfwd. specialize (Hfwd eq_refl). discriminate.
Qed.

(** A telemetry read of [m_mainchainByHash[prev_id]] of a hash that is not
    indexed leaves a default entry under that hash. *)
Lemma telemetry_read_inserts_default :
  m_mainchainByHash (by_hash_index 7 (p2pool_init true)).1 !! 7
  = Some ChainMain.default.
Proof. reflexivity. Qed.

Lemma store_headers_skipped_tail l post s :
  Forall (fun o => o = None) post ->
  store_headers (l ++ post) s = store_headers l s.
Proof.
  intros Hpost. unfold store_headers. rewrite foldl_app.
  generalize (foldl (fun s o => from_option (fun c => store_header c s) s o) s l).
  induction Hpost as [| o post -> _ IH]; intros s0; [reflexivity |].
  cbn [foldl from_option]. apply IH.
Qed.

(** C1 (amended): the update each operation makes under the write lock keeps
    the by-hash map keyed by id (every key [k] maps to a value whose id is
    [k]), and each insertion leaves the entry it writes in both maps with the
    same value: handle_miner_data the entry at [data.height - 1] (before its
    cleanup), handle_chain_main the entry at [data.height], parse_block_header
    the entry at the header's height, parse_block_headers_range the last
    header it stores (the elements after it being skipped).  The two-way
    mirror itself is preserved by
    cleanup_mainchain_data (which erases from the by-hash map the id of each
    entry it erases from the by-height map), by handle_chain_main for a
    height that is indexed, and by parse_block_header for a header whose
    height and id are both new. *)
Theorem main_chain_index_writes (s : p2pool) :
  hash_keyed s ->
  (forall data,
     hash_keyed (cleanup_mainchain_data (MinerData.height data)
                   (miner_data_insert data s))
     /\ mirrored_at (u64 (MinerData.height data - 1)) (miner_data_insert data s))
  /\ (forall data,
        hash_keyed (chain_main_upsert data s).1
        /\ mirrored_at (ChainMain.height data) (chain_main_upsert data s).1
        /\ (mirror s ->
            is_Some (m_mainchainByHeight s !! ChainMain.height data) ->
            mirror (chain_main_upsert data s).1))
  /\ (forall c,
        hash_keyed (parse_block_header (Some c) s).2
        /\ mirrored_at (ChainMain.height c) (parse_block_header (Some c) s).2
        /\ (mirror s ->
            m_mainchainByHeight s !! ChainMain.height c = None ->
            m_mainchainByHash s !! ChainMain.id c = None ->
            mirror (parse_block_header (Some c) s).2))
  /\ (forall l,
        hash_keyed (parse_block_headers_range (Some l) s).2
        /\ forall pre c post,
             l = pre ++ Some c :: post ->
             Forall (fun o => o = None) post ->
             mirrored_at (ChainMain.height c)
                         (parse_block_headers_range (Some l) s).2)
  /\ (forall tip,
        hash_keyed (cleanup_mainchain_data tip s)
        /\ (mirror s -> mirror (cleanup_mainchain_data tip s))).
Proof.
  intros H. split; [| split; [| split; [| split]]].
  - intros data. split.
    + apply hash_keyed_cleanup, hash_keyed_miner_data_insert, H.
    + apply mirrored_at_miner_data_insert.
  - intros data. split; [| split].
    + apply hash_keyed_chain_main_upsert, H.
    + apply mirrored_at_chain_main_upsert.
    + apply mirror_chain_main_upsert.
  - intros c. split; [| split].
    + apply hash_keyed_store_header, H.
    + apply mirrored_at_store_header.
    + apply mirror_store_header_fresh.
  - intros l. split.
    + apply hash_keyed_store_headers, H.
    + intros pre c post -> Hpost. cbn [parse_block_headers_range snd].
      replace (pre ++ Some c :: post) with ((pre ++ [Some c]) ++ post)
        by (rewrite <- app_assoc; reflexivity).
      rewrite store_headers_skipped_tail by exact Hpost.
      rewrite store_headers_snoc. apply mirrored_at_store_header.
  - intros tip. split.
    + apply hash_keyed_cleanup, H.
    + apply mirror_cleanup.
Qed.

Lemma main_chain_index_writes_witness :
  hash_keyed (cleanup_mainchain_data 1000
                (miner_data_insert example_miner_data (example_index [10; 11])))
  /\ mirrored_at 999 (miner_data_insert example_miner_data (example_index [10; 11]))
  /\ mirror (parse_block_header (Some (example_header 12)) (p2pool_init true)).2
  /\ mirror (chain_main_upsert (example_header 12)
               (parse_block_header (Some (example_header 12)) (p2pool_init true)).2).1
  /\ mirror (cleanup_mainchain_data 1000
               (parse_block_header (Some (example_header 12)) (p2pool_init true)).2).
Proof.
  destruct (main_chain_index_writes (example_index [10; 11])
              (hash_keyed_store_headers _ _ (hash_keyed_init true)))
    as (H1 & _).
  destruct (H1 example_miner_data) as [Ha Hb].
  destruct (main_chain_index_writes (p2pool_init true) (hash_keyed_init true))
    as (_ & _ & H3 & _).
  destruct (H3 (example_header 12)) as (Hk & _ & Hm).
  specialize (Hm (mirror_init true) eq_refl eq_refl).
  destruct (main_chain_index_writes
              (parse_block_header (Some (example_header 12)) (p2pool_init true)).2 Hk)
    as (_ & H2 & _ & _ & H5).
  destruct (H2 (example_header 12)) as (_ & _ & Hu).
  destruct (H5 1000) as [_ Hc].
  split; [exact Ha | split; [exact Hb | split; [exact Hm | split]]].
  - apply Hu; [exact Hm |]. eexists. reflexivity.
  - apply Hc. exact Hm.
Defined.

(** ** Median timestamp *)

Lemma get_timestamps_None W s :
  get_timestamps W s = None <-> (size (m_mainchainByHeight s) <= W)%nat.
Proof.
  unfold get_timestamps.
  destruct (Nat.leb_spec (size (m_mainchainByHeight s)) W) as [H | H].
  - split; [intros _; exact H | reflexivity].
  - split; [discriminate | lia].
Qed.

Lemma by_height_descending_sorted (bh : gmap Z ChainMain.t) :
  StronglySorted (flip height_le) (reverse (by_height_ascending bh)).
Proof.
  apply Sorted_StronglySorted.
  - intros a b c. unfold flip, height_le. lia.
  - apply Sorted_reverse, Sorted_merge_sort. apply _.
Qed.

Lemma most_recent_take W (bh : gmap Z ChainMain.t) :
  (W < size bh)%nat ->
  most_recent W bh (take W (reverse (by_height_ascending bh))).
Proof.
  intros Hsize.
  pose proof (by_height_descending_sorted bh) as Hsorted.
  assert (Hnd : NoDup (reverse (by_height_ascending bh)).*1).
  { rewrite fmap_reverse, reverse_Permutation. apply by_height_ascending_NoDup. }
  rewrite <- (take_drop W (reverse (by_height_ascending bh))) in Hsorted, Hnd.
  rewrite fmap_app in Hnd. apply NoDup_app in Hnd as (Hnd1 & Hdisj & _).
  repeat split.
  - rewrite length_take, length_reverse, by_height_ascending_length. lia.
  - exact Hnd1.
  - intros h c Hin. apply elem_of_take in Hin as (i & Hin & _).
    apply list_elem_of_lookup_2 in Hin. rewrite elem_of_reverse in Hin.
    apply elem_of_by_height_ascending. exact Hin.
  - intros h c h' c' Hin Hl Hnin.
    assert (Hd : (h', c') ∈ drop W (reverse (by_height_ascending bh))).
    { apply elem_of_by_height_ascending, elem_of_reverse_2 in Hl.
      rewrite <- (take_drop W (reverse (by_height_ascending bh))) in Hl.
      apply elem_of_app in Hl as [Hl | Hl]; [contradiction | exact Hl]. }
    pose proof (StronglySorted_app_1_elem_of _ _ _ _ _ Hsorted Hin Hd) as Hle.
    unfold flip, height_le in Hle. simpl in Hle.
    assert (h <> h'); [| lia].
    intros <-. apply (Hdisj h).
    + apply list_elem_of_fmap. exists (h, c). split; [reflexivity | exact Hin].
    + apply list_elem_of_fmap. exists (h, c'). split; [reflexivity | exact Hd].
Qed.

Lemma median_of_update W s :
  MinerData.median_timestamp (m_minerData (update_median_timestamp W s))
  = match get_timestamps W s with
    | None => 0
    | Some timestamps =>
        u64 (nth (W / 2)%nat (merge_sort Z.le timestamps) 0
             + nth (W / 2 + 1)%nat (merge_sort Z.le timestamps) 0) / 2
    end.
Proof. unfold update_median_timestamp. destruct (get_timestamps W s); reflexivity. Qed.

(** C4: update_median_timestamp sets the median to 0 whenever the by-height
    map holds at most TIMESTAMP_WINDOW entries, which is exactly when
    get_timestamps fails; otherwise it takes the timestamps of the
    TIMESTAMP_WINDOW entries with the greatest heights, sorts them ascending
    into [a], and sets the median to [(a[W/2] + a[W/2+1]) / 2], the sum being
    a 64-bit one. *)
Theorem update_median_timestamp_spec (W : nat) (s : p2pool) :
  (get_timestamps W s = None <-> (size (m_mainchainByHeight s) <= W)%nat)
  /\ ((size (m_mainchainByHeight s) <= W)%nat ->
      MinerData.median_timestamp (m_minerData (update_median_timestamp W s)) = 0)
  /\ ((W < size (m_mainchainByHeight s))%nat -> (2 < W)%nat ->
      exists recent a,
        most_recent W (m_mainchainByHeight s) recent
        /\ a ≡ₚ (fun e => ChainMain.timestamp e.2) <$> recent
        /\ Sorted Z.le a
        /\ MinerData.median_timestamp (m_minerData (update_median_timestamp W s))
           = u64 (nth (W / 2)%nat a 0 + nth (W / 2 + 1)%nat a 0) / 2
        /\ (0 <= nth (W / 2)%nat a 0 + nth (W / 2 + 1)%nat a 0 < 2 ^ 64 ->
            MinerData.median_timestamp (m_minerData (update_median_timestamp W s))
            = (nth (W / 2)%nat a 0 + nth (W / 2 + 1)%nat a 0) / 2)).
Proof.
  split; [apply get_timestamps_None | split].
  - intros H. rewrite median_of_update.
    apply get_timestamps_None in H. rewrite H. reflexivity.
  - intros Hsize _.
    exists (take W (reverse (by_height_ascending (m_mainchainByHeight s)))).
    exists (merge_sort Z.le
              ((fun e => ChainMain.timestamp e.2)
                 <$> take W (reverse (by_height_ascending (m_mainchainByHeight s))))).
    assert (Hts : get_timestamps W s
                  = Some ((fun e => ChainMain.timestamp e.2)
                            <$> take W (reverse (by_height_ascending
                                                   (m_mainchainByHeight s))))).
    { unfold get_timestamps.
      destruct (Nat.leb_spec (size (m_mainchainByHeight s)) W); [lia |].
      rewrite fmap_take. reflexivity. }
    split; [apply most_recent_take; exact Hsize |].
    split; [apply merge_sort_Permutation |].
    split; [apply Sorted_merge_sort; apply _ |].
    rewrite median_of_update, Hts.
    split; [reflexivity |].
    intros Hr. rewrite u64_small by exact Hr. reflexivity.
Qed.

Lemma update_median_timestamp_spec_witness :
  MinerData.median_timestamp
    (m_minerData (update_median_timestamp 60 (example_index [10; 11]))) = 0
  /\ exists recent a,
       most_recent 4 (m_mainchainByHeight (example_index [1; 2; 3; 4; 5; 6])) recent
       /\ a ≡ₚ (fun e => ChainMain.timestamp e.2) <$> recent
       /\ Sorted Z.le a
       /\ MinerData.median_timestamp
            (m_minerData (update_median_timestamp 4 (example_index [1; 2; 3; 4; 5; 6])))
          = u64 (nth 2 a 0 + nth 3 a 0) / 2
       /\ (0 <= nth 2 a 0 + nth 3 a 0 < 2 ^ 64 ->
           MinerData.median_timestamp
             (m_minerData (update_median_timestamp 4 (example_index [1; 2; 3; 4; 5; 6])))
           = (nth 2 a 0 + nth 3 a 0) / 2).
Proof.
  split.
  - apply (proj1 (proj2 (update_median_timestamp_spec 60 (example_index [10; 11])))).
    vm_compute. lia.
  - apply (proj2 (proj2 (update_median_timestamp_spec 4
                           (example_index [1; 2; 3; 4; 5; 6])))).
    + vm_compute. lia.
    + lia.
Defined.

(** Six headers two minutes apart, a window of four: the median is halfway
    between the timestamps of heights 5 and 6. *)
Lemma update_median_timestamp_example :
  MinerData.median_timestamp
    (m_minerData (update_median_timestamp 4 (example_index [1; 2; 3; 4; 5; 6])))
  = 1600000660.
Proof. vm_compute. reflexivity. Qed.

(** ** The loop over the missing heights *)

(** 720 rounds are enough for the loop of handle_miner_data: more fuel gives
    the same heights. *)
Lemma missing_heights_fuel height bh : forall fuel extra h,
  0 <= h <= height -> height < 2 ^ 64 ->
  720 - (height - h) <= Z.of_nat fuel ->
  missing_heights (fuel + extra) height h bh = missing_heights fuel height h bh.
Proof.
  induction fuel as [| fuel IH]; intros extra h Hh Hheight Hfuel.
  - destruct extra as [| extra]; [reflexivity |].
    cbn [Nat.add missing_heights].
    unfold BLOCK_HEADERS_REQUIRED. rewrite u64_small by lia.
    destruct (Z.ltb_spec height (h + 720)); [lia |].
    rewrite andb_false_r. reflexivity.
  - cbn [Nat.add missing_heights].
    unfold BLOCK_HEADERS_REQUIRED.
    destruct (Z.eqb_spec h 0) as [-> | Hnz]; [reflexivity |].
    cbn [negb andb].
    destruct (height <? u64 (h + 720)); [| reflexivity].
    f_equal. rewrite (u64_small (h - 1)) by lia.
    apply IH; lia.
Qed.

(** ** The handlers and the index, without the telemetry API *)

Lemma index_untouched_skip : index_untouched skip.
Proof. intros s H. auto. Qed.

Lemma index_untouched_emit e : index_untouched (emit e).
Proof. intros s H. auto. Qed.

Lemma index_untouched_modify g :
  (forall s, m_api (g s) = m_api s
             /\ m_mainchainByHeight (g s) = m_mainchainByHeight s
             /\ m_mainchainByHash (g s) = m_mainchainByHash s) ->
  index_untouched (modify g).
Proof.
  intros Hg s H. destruct (Hg s) as (Ha & Hb & Hc). simpl.
  rewrite Ha. auto.
Qed.

Lemma index_untouched_and_then a b :
  index_untouched a -> index_untouched b -> index_untouched (a >>> b).
Proof.
  intros Ha Hb s H. rewrite and_then_run. cbn [fst].
  destruct (Ha s H) as (H1 & H2 & H3).
  destruct (Hb _ H1) as (H4 & H5 & H6).
  split; [exact H4 | split; congruence].
Qed.

Lemma index_untouched_if (c : bool) a b :
  index_untouched a -> index_untouched b -> index_untouched (if c then a else b).
Proof. destruct c; auto. Qed.

Lemma index_untouched_update_median_timestamp W :
  index_untouched (modify (update_median_timestamp W)).
Proof.
  apply index_untouched_modify. intros s. unfold update_median_timestamp.
  destruct (get_timestamps W s); auto.
Qed.

Lemma index_untouched_api_update_stats_mod env :
  index_untouched (api_update_stats_mod env).
Proof. intros s H. unfold api_update_stats_mod. rewrite H. auto. Qed.

Lemma index_untouched_api_update_network_stats env :
  index_untouched (api_update_network_stats env).
Proof. intros s H. unfold api_update_network_stats. rewrite H. auto. Qed.

Lemma index_untouched_api_update_pool_stats env :
  index_untouched (api_update_pool_stats env).
Proof. intros s H. unfold api_update_pool_stats. rewrite H. auto. Qed.

Lemma index_untouched_api_update_block_found env data :
  index_untouched (api_update_block_found env data).
Proof.
  unfold api_update_block_found. apply index_untouched_and_then.
  - apply index_untouched_emit.
  - intros s H. rewrite H. auto.
Qed.

Lemma index_untouched_update_block_template env :
  index_untouched (update_block_template env).
Proof.
  unfold update_block_template. repeat apply index_untouched_and_then.
  - intros s H. destruct (m_updateSeed s); auto.
  - intros s H. auto.
  - intros s H. unfold stratum_on_block. destruct (m_serversStarted s); auto.
  - apply index_untouched_api_update_pool_stats.
Qed.

Lemma cleanup_walk_api height l : forall s,
  m_api (cleanup_walk height l s) = m_api s.
Proof.
  induction l as [| [h c] rest IH]; intros s; simpl; [reflexivity |].
  destruct (height <=? u64 (h + PRUNE_DISTANCE)); [reflexivity |].
  destruct (bool_decide (h ∈ seed_heights height)); rewrite IH; reflexivity.
Qed.

(** Without the API the indexes handle_miner_data leaves are those of its
    write-locked block. *)
Lemma handle_miner_data_index W env data s :
  m_api s = false ->
  m_mainchainByHeight (handle_miner_data W env data s).1
    = m_mainchainByHeight
        (cleanup_mainchain_data (MinerData.height data) (miner_data_insert data s))
  /\ m_mainchainByHash (handle_miner_data W env data s).1
     = m_mainchainByHash
         (cleanup_mainchain_data (MinerData.height data) (miner_data_insert data s)).
Proof.
  intros H. unfold handle_miner_data.
  rewrite !and_then_run. cbn [fst emit modify].
  match goal with
  | |- context [cleanup_mainchain_data ?h ?x] =>
      set (s1 := cleanup_mainchain_data h x)
  end.
  assert (H1 : m_api s1 = false).
  { unfold s1, cleanup_mainchain_data. rewrite cleanup_walk_api. exact H. }
  set (s2 := set_updateSeed true
               (set_minerData (MinerData.received (now env) data) s1)).
  assert (H2 : m_api s2 = false) by exact H1.
  destruct (index_untouched_update_median_timestamp W s2 H2) as (H3 & H3h & H3x).
  cbn [modify fst] in H3, H3h, H3x.
  set (s3 := update_median_timestamp W s2) in *.
  assert (Hrest : index_untouched
                    (if is_main_thread env then update_block_template env
                     else emit (Async_send BlockTemplateAsync))).
  { apply index_untouched_if;
      [apply index_untouched_update_block_template | apply index_untouched_emit]. }
  destruct (Hrest s3 H3) as (H4 & H4h & H4x).
  match goal with
  | |- context [(if m_serversStarted ?x then _ else _)] =>
      destruct (m_serversStarted x)
  end; cbn [fst set_zmqLastActive m_mainchainByHeight m_mainchainByHash];
    rewrite H4h, H4x, H3h, H3x; split; reflexivity.
Qed.

(** Without the API the indexes handle_chain_main leaves are those of its
    write-locked block. *)
Lemma handle_chain_main_index W env data sidechain_id s :
  m_api s = false ->
  m_mainchainByHeight (handle_chain_main W env data sidechain_id s).1
    = m_mainchainByHeight (chain_main_upsert data s).1
  /\ m_mainchainByHash (handle_chain_main W env data sidechain_id s).1
     = m_mainchainByHash (chain_main_upsert data s).1.
Proof.
  intros H. unfold handle_chain_main.
  destruct (chain_main_upsert data s) as [s1 data1] eqn:E.
  assert (H1 : m_api s1 = false).
  { unfold chain_main_upsert in E. injection E as <- _. exact H. }
  cbn [fst].
  assert (Hrest : index_untouched
    (modify (update_median_timestamp W)
     >>> (if sidechain_id =? 0 then skip
          else if sidechain_has_block env sidechain_id
               then api_update_block_found env (Some data1)
               else emit (SideChain_watch_mainchain_block data1 sidechain_id))
     >>> api_update_network_stats env
     >>> modify (set_zmqLastActive (now env)))).
  { repeat apply index_untouched_and_then.
    - apply index_untouched_update_median_timestamp.
    - repeat apply index_untouched_if.
      + apply index_untouched_skip.
      + apply index_untouched_api_update_block_found.
      + apply index_untouched_emit.
    - apply index_untouched_api_update_network_stats.
    - apply index_untouched_modify. auto. }
  destruct (Hrest s1 H1) as (_ & Hh & Hx). auto.
Qed.

(** ** More on the seed height and the cleanup *)

(** X1: the seed height is constant over an epoch of 2048 heights that starts
    65 blocks after a multiple of 2048: for [2048 n + 65 <= h <= 2048 n + 2112]
    it is [2048 n]. *)
Theorem seed_height_epoch (n h : Z) :
  0 <= n -> 2048 * n + 65 <= h <= 2048 * n + 2112 -> h < 2 ^ 64 ->
  get_seed_height h = 2048 * n.
Proof.
  intros Hn Hh Hmax. rewrite get_seed_height_high by lia.
  f_equal. symmetry. apply (Z.div_unique (h - 65) 2048 n (h - 65 - 2048 * n)); lia.
Qed.

Lemma seed_height_epoch_witness :
  get_seed_height 2113 = 2048 * 1 /\ get_seed_height 4160 = 2048 * 1.
Proof.
  split; apply seed_height_epoch; lia.
Defined.

Lemma cleanup_dropped_cond tip l e :
  e ∈ cleanup_dropped tip l ->
  u64 (e.1 + PRUNE_DISTANCE) < tip /\ e.1 ∉ seed_heights tip.
Proof.
  induction l as [| [h c] rest IH]; simpl; [intros Hin; inversion Hin |].
  destruct (Z.leb_spec tip (u64 (h + PRUNE_DISTANCE))) as [Hge | Hlt];
    [intros Hin; inversion Hin |].
  destruct (bool_decide_reflect (h ∈ seed_heights tip)) as [Hs | Hseed];
    [exact IH |].
  intros Hin. apply elem_of_cons in Hin as [-> | Hin]; [| exact (IH Hin)].
  simpl. auto.
Qed.

(** An entry the walk stops at or before, or at a seed height, is left alone,
    whatever the other heights are. *)
Lemma cleanup_keeps_lookup tip s h :
  tip <= u64 (h + PRUNE_DISTANCE) \/ h ∈ seed_heights tip ->
  m_mainchainByHeight (cleanup_mainchain_data tip s) !! h
  = m_mainchainByHeight s !! h.
Proof.
  intros Hkeep. unfold cleanup_mainchain_data.
  rewrite cleanup_walk_erase_all, erase_all_by_height.
  rewrite decide_False; [reflexivity |].
  intros Hin. apply list_elem_of_fmap in Hin as ([h' c'] & -> & Hin).
  apply cleanup_dropped_cond in Hin as [H1 H2]. simpl in *.
  destruct Hkeep; [lia | contradiction].
Qed.

(** X2: the cleanup for a tip never loses the seed of that tip: get_seed gives
    the same answer before and after, and the entries at the three seed
    heights are left as they are. *)
Theorem get_seed_survives_cleanup (tip : Z) (s : p2pool) :
  get_seed tip (cleanup_mainchain_data tip s) = get_seed tip s
  /\ forall h, h ∈ seed_heights tip ->
       m_mainchainByHeight (cleanup_mainchain_data tip s) !! h
       = m_mainchainByHeight s !! h.
Proof.
  split.
  - unfold get_seed. rewrite cleanup_keeps_lookup; [reflexivity |].
    right. left.
  - intros h Hh. apply cleanup_keeps_lookup. right. exact Hh.
Qed.

(** X3: cleanup_mainchain_data only removes: what it leaves in either map is
    in the map before with the same value, and no other member of the
    coordinator changes. *)
Theorem cleanup_only_removes (tip : Z) (s : p2pool) :
  cleanup_mainchain_data tip s
  = set_mainchain (m_mainchainByHeight (cleanup_mainchain_data tip s))
                  (m_mainchainByHash (cleanup_mainchain_data tip s)) s
  /\ m_mainchainByHeight (cleanup_mainchain_data tip s) ⊆ m_mainchainByHeight s
  /\ m_mainchainByHash (cleanup_mainchain_data tip s) ⊆ m_mainchainByHash s.
Proof.
  unfold cleanup_mainchain_data. rewrite cleanup_walk_erase_all.
  split; [apply erase_all_frame | split].
  - apply map_subseteq_spec. intros h c. rewrite erase_all_by_height.
    destruct (decide _); [discriminate | auto].
  - apply map_subseteq_spec. intros k c. rewrite erase_all_by_hash.
    destruct (decide _); [discriminate | auto].
Qed.

(** X4: on an index whose heights are below 2^64 - 720 a second cleanup for
    the same tip changes nothing. *)
Theorem cleanup_idempotent (tip : Z) (s : p2pool) :
  heights_in_range s ->
  cleanup_mainchain_data tip (cleanup_mainchain_data tip s)
  = cleanup_mainchain_data tip s.
Proof.
  intros Hr.
  assert (Hlook : forall h,
    m_mainchainByHeight (cleanup_mainchain_data tip s) !! h
    = if decide (h ∈ (cleanup_dropped tip
                        (by_height_ascending (m_mainchainByHeight s))).*1)
      then None else m_mainchainByHeight s !! h).
  { intros h. unfold cleanup_mainchain_data.
    rewrite cleanup_walk_erase_all. apply erase_all_by_height. }
  assert (Hr' : heights_in_range (cleanup_mainchain_data tip s)).
  { intros h Hs. apply Hr. rewrite Hlook in Hs.
    destruct (decide _); [destruct Hs; discriminate | exact Hs]. }
  pose proof (cleanup_dropped_lookup tip (cleanup_mainchain_data tip s)) as Hd'.
  unfold cleanup_mainchain_data at 1. rewrite cleanup_walk_erase_all.
  destruct (cleanup_dropped tip
              (by_height_ascending
                 (m_mainchainByHeight (cleanup_mainchain_data tip s))))
    as [| [h c] rest]; [reflexivity |].
  exfalso.
  assert (Hin : h ∈ ((h, c) :: rest).*1) by left.
  apply Hd' in Hin as (Hs & Ha & Hb); [| exact Hr'].
  rewrite Hlook in Hs.
  destruct (decide _) as [| Hnin]; [destruct Hs; discriminate |].
  apply Hnin. apply cleanup_dropped_lookup; auto.
Qed.

Lemma cleanup_idempotent_witness :
  cleanup_mainchain_data 1000
    (cleanup_mainchain_data 1000 (example_index [0; 5; 100; 279; 280; 1000; 1001]))
  = cleanup_mainchain_data 1000 (example_index [0; 5; 100; 279; 280; 1000; 1001]).
Proof.
  apply cleanup_idempotent. exact example_index_in_range.
Defined.

(** ** The header download of the bootstrap *)

(** X5: for a current height [H] with [720 <= H < 2^64 - 720],
    download_block_headers asks for the header at the seed height of [H], for
    the one an epoch below it (height 0 when there is none), and for the
    range [H - 720 .. H - 1]; a cleanup for [H] leaves every entry at one of
    those heights as it is. *)
Theorem download_block_headers_kept (H : Z) (s : p2pool) :
  720 <= H < 2 ^ 64 - 720 ->
  exists prev seed,
    download_block_headers H
    = [Get_block_header_by_height prev; Get_block_header_by_height seed;
       Get_block_headers_range (H - 720) (H - 1)]
    /\ seed = get_seed_height H
    /\ 0 <= prev <= seed /\ seed + 64 < H
    /\ (prev = seed - 2048 \/ (prev = 0 /\ seed = 0))
    /\ forall h, h = prev \/ h = seed \/ H - 720 <= h <= H - 1 ->
         m_mainchainByHeight (cleanup_mainchain_data H s) !! h
         = m_mainchainByHeight s !! h.
Proof.
  intros HH.
  pose proof (get_seed_height_high H ltac:(lia)) as Hseed.
  pose proof (Z.div_pos (H - 65) 2048 ltac:(lia) ltac:(lia)) as Hq.
  pose proof (Z.mul_div_le (H - 65) 2048 ltac:(lia)) as Hle.
  set (q := (H - 65) / 2048) in *.
  exists (if SEEDHASH_EPOCH_BLOCKS <? get_seed_height H
          then get_seed_height H - SEEDHASH_EPOCH_BLOCKS else 0),
         (get_seed_height H).
  unfold SEEDHASH_EPOCH_BLOCKS.
  split; [| split; [reflexivity | split; [| split; [| split]]]].
  - unfold download_block_headers, SEEDHASH_EPOCH_BLOCKS, BLOCK_HEADERS_REQUIRED.
    rewrite !u64_small by lia. reflexivity.
  - destruct (Z.ltb_spec 2048 (get_seed_height H)); lia.
  - lia.
  - destruct (Z.ltb_spec 2048 (get_seed_height H)); lia.
  - intros h Hh. apply cleanup_keeps_lookup.
    unfold PRUNE_DISTANCE, BLOCK_HEADERS_REQUIRED.
    destruct Hh as [-> | [-> | Hh]].
    + right. unfold seed_heights, SEEDHASH_EPOCH_BLOCKS. cbv zeta.
      destruct (Z.ltb_spec 2048 (get_seed_height H)) as [Hgt | Hle'].
      * rewrite (u64_small (get_seed_height H - 2048)) by lia. right. left.
      * assert (Hc : q = 0 \/ q = 1) by lia.
        destruct Hc as [Hc | Hc]; rewrite Hseed, Hc.
        -- left.
        -- right. left.
    + right. left.
    + left. rewrite u64_small by lia. lia.
Qed.

Lemma download_block_headers_kept_witness :
  exists prev seed,
    download_block_headers 5000
    = [Get_block_header_by_height prev; Get_block_header_by_height seed;
       Get_block_headers_range (5000 - 720) (5000 - 1)]
    /\ seed = get_seed_height 5000
    /\ 0 <= prev <= seed /\ seed + 64 < 5000
    /\ (prev = seed - 2048 \/ (prev = 0 /\ seed = 0))
    /\ forall h, h = prev \/ h = seed \/ 5000 - 720 <= h <= 5000 - 1 ->
         m_mainchainByHeight
           (cleanup_mainchain_data 5000 (example_index [2048; 4096; 4280])) !! h
         = m_mainchainByHeight (example_index [2048; 4096; 4280]) !! h.
Proof.
  apply download_block_headers_kept. lia.
Defined.

(** The heights the loop of handle_miner_data collects from [start]
    downwards. *)
Lemma missing_heights_from height bh h : forall fuel start,
  0 <= start <= height -> height < 2 ^ 64 - 720 ->
  h ∈ missing_heights fuel height start bh
  <-> bh !! h = None /\ 1 <= h <= start /\ height - 720 < h
      /\ start - Z.of_nat fuel < h.
Proof.
  induction fuel as [| fuel IH]; intros start Hs Hh.
  - simpl. split; [intros Hin; inversion Hin | lia].
  - cbn [missing_heights]. unfold BLOCK_HEADERS_REQUIRED.
    rewrite (u64_small (start + 720)) by lia.
    destruct (Z.eqb_spec start 0) as [-> | Hnz]; cbn [negb andb].
    { split; [intros Hin; inversion Hin | lia]. }
    destruct (Z.ltb_spec height (start + 720)) as [Hlt | Hge].
    + rewrite elem_of_app, (u64_small (start - 1)) by lia.
      rewrite IH by lia. split.
      * intros [Hin | Hin].
        -- destruct (bh !! start) eqn:E; [inversion Hin |].
           apply list_elem_of_singleton in Hin. subst h. split; [exact E | lia].
        -- destruct Hin as (H1 & H2 & H3 & H4). split; [exact H1 | lia].
      * intros (H1 & H2 & H3 & H4).
        destruct (decide (h = start)) as [-> | Hne].
        -- left. rewrite H1. left.
        -- right. split; [exact H1 | lia].
    + split; [intros Hin; inversion Hin | lia].
Qed.

(** With [0 <= height < 2^64 - 720], the loop of handle_miner_data run on a
    by-height map collects exactly the heights [h] with
    [max 1 (height - 719) <= h <= height] that the map does not hold. *)
Lemma missing_heights_window (height : Z) (bh : gmap Z ChainMain.t) (h : Z) :
  0 <= height < 2 ^ 64 - 720 ->
  h ∈ missing_heights 720 height height bh
  <-> bh !! h = None /\ 1 <= h <= height /\ height - 720 < h.
Proof.
  intros Hh. rewrite missing_heights_from by lia.
  change (Z.of_nat 720) with 720.
  split; intros (H1 & H2 & H3); (split; [exact H1 | lia]).
Qed.

(** ** Members the handlers leave alone *)

Section Frame.
Context {A : Type} (f : p2pool -> A).
Hypothesis f_mainchain : forall bh bx s, f (set_mainchain bh bx s) = f s.
Hypothesis f_minerData : forall d s, f (set_minerData d s) = f s.
Hypothesis f_foundBlocks : forall l s, f (set_foundBlocks l s) = f s.
Hypothesis f_updateSeed : forall b s, f (set_updateSeed b s) = f s.
Hypothesis f_zmqLastActive : forall t s, f (set_zmqLastActive t s) = f s.

Lemma frame_by_hash_index key s : f (by_hash_index key s).1 = f s.
Proof. unfold by_hash_index. destruct (_ !! key); [reflexivity | apply f_mainchain]. Qed.

Lemma frame_cleanup tip s : f (cleanup_mainchain_data tip s) = f s.
Proof.
  unfold cleanup_mainchain_data.
  rewrite cleanup_walk_erase_all, erase_all_frame. apply f_mainchain.
Qed.

Lemma frame_miner_data_insert data s : f (miner_data_insert data s) = f s.
Proof. apply f_mainchain. Qed.

Lemma frame_chain_main_upsert data s : f (chain_main_upsert data s).1 = f s.
Proof. apply f_mainchain. Qed.

Lemma frame_store_header c s : f (store_header c s) = f s.
Proof. apply f_mainchain. Qed.

Lemma frame_store_headers l s : f (store_headers l s) = f s.
Proof.
  induction l as [| o l IH] using rev_ind; [reflexivity |].
  rewrite store_headers_snoc. destruct o as [c |]; simpl; [| exact IH].
  rewrite frame_store_header. exact IH.
Qed.

Lemma frame_update_median_timestamp W s : f (update_median_timestamp W s) = f s.
Proof.
  unfold update_median_timestamp.
  destruct (get_timestamps W s); apply f_minerData.
Qed.

Lemma frame_api_update_stats_mod env : keeps f (api_update_stats_mod env).
Proof.
  intros s. unfold api_update_stats_mod.
  destruct (m_api s); simpl; [| reflexivity].
  pose proof (frame_by_hash_index (MinerData.prev_id (m_minerData s)) s) as H.
  destruct (by_hash_index _ s) as [s1 tip]. simpl in H.
  destruct (difficulty_lt _ _); exact H.
Qed.

Lemma frame_api_update_network_stats env : keeps f (api_update_network_stats env).
Proof.
  intros s. unfold api_update_network_stats.
  destruct (m_api s); simpl; [| reflexivity].
  pose proof (frame_by_hash_index (MinerData.prev_id (m_minerData s)) s) as H.
  destruct (by_hash_index _ s) as [s1 tip]. simpl in H.
  rewrite <- H.
  apply (keeps_and_then f); [apply keeps_emit | apply frame_api_update_stats_mod].
Qed.

Lemma frame_api_update_pool_stats env : keeps f (api_update_pool_stats env).
Proof.
  intros s. unfold api_update_pool_stats.
  destruct (m_api s); simpl; [| reflexivity].
  apply (keeps_and_then f); [apply keeps_emit | apply frame_api_update_stats_mod].
Qed.

Lemma frame_api_update_block_found env data : keeps f (api_update_block_found env data).
Proof.
  unfold api_update_block_found.
  apply keeps_and_then; [apply keeps_emit |].
  intros s. destruct (m_api s); simpl; [| reflexivity].
  rewrite prepend_trace_run. cbn [fst].
  rewrite (keeps_and_then f _ _ (keeps_emit _ _) (frame_api_update_stats_mod env)).
  destruct data; [apply f_foundBlocks | reflexivity].
Qed.

Lemma frame_load_found_blocks env : keeps f (load_found_blocks env).
Proof.
  intros s. unfold load_found_blocks.
  destruct (m_api s); simpl; [| reflexivity].
  destruct (found_blocks_file env) as [tokens |]; [| reflexivity].
  apply (keeps_and_then f).
  - apply keeps_modify. intros s0. apply f_foundBlocks.
  - apply frame_api_update_block_found.
Qed.

Lemma frame_stratum_on_block : keeps f stratum_on_block.
Proof. intros s. unfold stratum_on_block. destruct (m_serversStarted s); reflexivity. Qed.

Lemma frame_update_block_template env : keeps f (update_block_template env).
Proof.
  unfold update_block_template. repeat apply keeps_and_then.
  - intros s. destruct (m_updateSeed s); [apply f_updateSeed | reflexivity].
  - intros s. reflexivity.
  - apply frame_stratum_on_block.
  - apply frame_api_update_pool_stats.
Qed.

Lemma frame_handle_tx env tx : keeps f (handle_tx env tx).
Proof.
  unfold handle_tx. apply keeps_if; [apply keeps_skip |].
  apply keeps_and_then; [apply keeps_emit |].
  apply keeps_modify. intros s. apply f_zmqLastActive.
Qed.

Lemma frame_handle_miner_data W env data : keeps f (handle_miner_data W env data).
Proof.
  unfold handle_miner_data. repeat apply keeps_and_then.
  - apply keeps_emit.
  - apply keeps_modify. intros s.
    rewrite frame_cleanup. apply frame_miner_data_insert.
  - apply keeps_modify. intros s. rewrite f_updateSeed. apply f_minerData.
  - apply keeps_modify. apply frame_update_median_timestamp.
  - apply keeps_if; [apply frame_update_block_template | apply keeps_emit].
  - apply keeps_modify. intros s. apply f_zmqLastActive.
  - intros s. destruct (m_serversStarted s); reflexivity.
Qed.

Lemma frame_handle_chain_main W env data sidechain_id :
  keeps f (handle_chain_main W env data sidechain_id).
Proof.
  intros s. unfold handle_chain_main.
  pose proof (frame_chain_main_upsert data s) as Hu.
  destruct (chain_main_upsert data s) as [s1 data1]. cbn [fst] in Hu.
  rewrite <- Hu. revert s1 Hu. intros s1 _. revert s1.
  repeat apply keeps_and_then.
  - apply keeps_modify. apply frame_update_median_timestamp.
  - repeat apply keeps_if;
      [apply keeps_skip | apply frame_api_update_block_found | apply keeps_emit].
  - apply frame_api_update_network_stats.
  - apply keeps_modify. intros s0. apply f_zmqLastActive.
Qed.

Lemma frame_submit_block env : keeps f (submit_block env).
Proof.
  intros s. unfold submit_block.
  destruct (submit_block_source env (m_submitBlockData s)) as [[[b x] y] |];
    reflexivity.
Qed.

End Frame.

(** ** The start of the servers *)

Lemma run_event_serversStarted W env ev s :
  match ev with
  | BlockHeadersRange _ => True
  | _ => m_serversStarted (run_event W env ev s).1 = m_serversStarted s
  end.
Proof.
  destruct ev; simpl; try exact I.
  - apply (frame_handle_tx m_serversStarted); intros; reflexivity.
  - apply (frame_handle_miner_data m_serversStarted); intros; reflexivity.
  - apply (frame_handle_chain_main m_serversStarted); intros; reflexivity.
  - reflexivity.
  - reflexivity.
  - apply (frame_submit_block m_serversStarted).
  - apply (frame_update_block_template m_serversStarted); intros; reflexivity.
  - destruct parsed; reflexivity.
  - apply (frame_load_found_blocks m_serversStarted); intros; reflexivity.
Qed.

Lemma on_block_headers_range_serversStarted W env parsed s :
  m_serversStarted (on_block_headers_range W env parsed s).1
  = if (parse_block_headers_range parsed s).1 =? BLOCK_HEADERS_REQUIRED
    then true else m_serversStarted s.
Proof.
  unfold on_block_headers_range.
  assert (Hs : m_serversStarted (parse_block_headers_range parsed s).2
               = m_serversStarted s).
  { destruct parsed as [l |]; [| reflexivity].
    apply (frame_store_headers m_serversStarted). intros; reflexivity. }
  destruct (parse_block_headers_range parsed s) as [n s1]. cbn [fst snd] in *.
  destruct (n =? BLOCK_HEADERS_REQUIRED); [| exact Hs].
  rewrite and_then_run. cbn [fst modify].
  destruct (m_serversStarted (update_median_timestamp W s1)) eqn:E;
    [exact E |].
  rewrite (frame_api_update_network_stats m_serversStarted) by (intros; reflexivity).
  reflexivity.
Qed.

(** X7: no event stops the servers: once [m_serversStarted] is set it stays
    set; and the only event that sets it is the reply to the ranged header
    request, when it yields exactly 720 headers. *)
Theorem servers_started_once (W : nat) (env : Env) (ev : event) (s : p2pool) :
  (m_serversStarted s = true ->
   m_serversStarted (run_event W env ev s).1 = true)
  /\ (m_serversStarted s = false ->
      m_serversStarted (run_event W env ev s).1 = true ->
      exists l, ev = BlockHeadersRange (Some l)
                /\ u32 (Z.of_nat (length (omap (fun o => o) l))) = 720).
Proof.
  pose proof (run_event_serversStarted W env ev s) as Hk.
  split.
  - intros Hs. destruct ev; try (rewrite Hk; exact Hs).
    simpl. rewrite on_block_headers_range_serversStarted, Hs.
    destruct (_ =? _); reflexivity.
  - intros Hs Hs'. destruct ev; try (rewrite Hk, Hs in Hs'; discriminate).
    simpl in Hs'. rewrite on_block_headers_range_serversStarted, Hs in Hs'.
    destruct parsed as [l |]; [| discriminate].
    exists l. split; [reflexivity |].
    cbn [parse_block_headers_range fst] in Hs'.
    destruct (Z.eqb_spec (u32 (Z.of_nat (length (omap (fun o => o) l))))
                BLOCK_HEADERS_REQUIRED) as [Heq | Hne];
      [exact Heq | discriminate].
Qed.

(** ** Without the telemetry API *)

Lemma quiet_skip : quiet_without_api skip.
Proof. intros s H. simpl. auto. Qed.

Lemma quiet_emit e : is_telemetry e = false -> quiet_without_api (emit e).
Proof. intros He s H. simpl. repeat split; auto. Qed.

Lemma quiet_modify g :
  (forall s, m_api (g s) = m_api s /\ m_foundBlocks (g s) = m_foundBlocks s) ->
  quiet_without_api (modify g).
Proof.
  intros Hg s H. destruct (Hg s) as [Ha Hb]. simpl.
  rewrite Ha, Hb. auto.
Qed.

Lemma quiet_and_then a b :
  quiet_without_api a -> quiet_without_api b -> quiet_without_api (a >>> b).
Proof.
  intros Ha Hb s H. rewrite and_then_run. cbn [fst snd].
  destruct (Ha s H) as (H1 & H2 & H3).
  destruct (Hb _ H1) as (H4 & H5 & H6).
  split; [exact H4 | split; [congruence |]].
  apply Forall_app. auto.
Qed.

Lemma quiet_if (c : bool) a b :
  quiet_without_api a -> quiet_without_api b ->
  quiet_without_api (if c then a else b).
Proof. destruct c; auto. Qed.

Lemma quiet_api_update_stats_mod env : quiet_without_api (api_update_stats_mod env).
Proof. intros s H. unfold api_update_stats_mod. rewrite H. simpl. auto. Qed.

Lemma quiet_api_update_network_stats env :
  quiet_without_api (api_update_network_stats env).
Proof. intros s H. unfold api_update_network_stats. rewrite H. simpl. auto. Qed.

Lemma quiet_api_update_pool_stats env :
  quiet_without_api (api_update_pool_stats env).
Proof. intros s H. unfold api_update_pool_stats. rewrite H. simpl. auto. Qed.

Lemma quiet_api_update_block_found env data :
  quiet_without_api (api_update_block_found env data).
Proof.
  unfold api_update_block_found. apply quiet_and_then.
  - apply quiet_emit. reflexivity.
  - intros s H. rewrite H. simpl. auto.
Qed.

Lemma quiet_load_found_blocks env : quiet_without_api (load_found_blocks env).
Proof. intros s H. unfold load_found_blocks. rewrite H. simpl. auto. Qed.

Lemma quiet_update_block_template env :
  quiet_without_api (update_block_template env).
Proof.
  unfold update_block_template. repeat apply quiet_and_then.
  - intros s H. destruct (m_updateSeed s); simpl; repeat split; auto.
  - intros s H. simpl. repeat split; auto.
  - intros s H. unfold stratum_on_block.
    destruct (m_serversStarted s); simpl; repeat split; auto.
  - apply quiet_api_update_pool_stats.
Qed.

Lemma quiet_handle_tx env tx : quiet_without_api (handle_tx env tx).
Proof.
  unfold handle_tx. apply quiet_if; [apply quiet_skip |].
  apply quiet_and_then; [apply quiet_emit; reflexivity |].
  apply quiet_modify. auto.
Qed.

Lemma quiet_handle_miner_data W env data :
  quiet_without_api (handle_miner_data W env data).
Proof.
  unfold handle_miner_data. repeat apply quiet_and_then.
  - apply quiet_emit. reflexivity.
  - apply quiet_modify. intros s. split.
    + rewrite (frame_cleanup m_api) by (intros; reflexivity). reflexivity.
    + rewrite (frame_cleanup m_foundBlocks) by (intros; reflexivity). reflexivity.
  - apply quiet_modify. auto.
  - apply quiet_modify. intros s. unfold update_median_timestamp.
    destruct (get_timestamps W s); auto.
  - apply quiet_if; [apply quiet_update_block_template |].
    apply quiet_emit. reflexivity.
  - apply quiet_modify. auto.
  - intros s H. destruct (m_serversStarted s); cbn [fst snd]; [| auto].
    split; [exact H | split; [reflexivity |]].
    apply Forall_forall. intros e He.
    apply list_elem_of_In, in_map_iff in He as (h & <- & _). reflexivity.
Qed.

Lemma quiet_handle_chain_main W env data sidechain_id :
  quiet_without_api (handle_chain_main W env data sidechain_id).
Proof.
  intros s H. unfold handle_chain_main.
  destruct (chain_main_upsert data s) as [s1 data1] eqn:E.
  assert (H1 : m_api s1 = false /\ m_foundBlocks s1 = m_foundBlocks s).
  { unfold chain_main_upsert in E. injection E as <- _. auto. }
  destruct H1 as [H1 H2]. rewrite <- H2. revert s1 H1 E H2. intros s1 H1 _ _.
  revert s1 H1. repeat apply quiet_and_then.
  - apply quiet_modify. intros s0. unfold update_median_timestamp.
    destruct (get_timestamps W s0); auto.
  - repeat apply quiet_if.
    + apply quiet_skip.
    + apply quiet_api_update_block_found.
    + apply quiet_emit. reflexivity.
  - apply quiet_api_update_network_stats.
  - apply quiet_modify. auto.
Qed.

Lemma quiet_on_block_headers_range W env parsed :
  quiet_without_api (on_block_headers_range W env parsed).
Proof.
  intros s H. unfold on_block_headers_range.
  assert (H1 : m_api (parse_block_headers_range parsed s).2 = false
               /\ m_foundBlocks (parse_block_headers_range parsed s).2
                  = m_foundBlocks s).
  { destruct parsed as [l |]; [| auto]. simpl. split.
    - rewrite (frame_store_headers m_api) by (intros; reflexivity). exact H.
    - apply (frame_store_headers m_foundBlocks). intros; reflexivity. }
  destruct (parse_block_headers_range parsed s) as [n s1]. cbn [snd] in H1.
  destruct H1 as [H1 H2].
  destruct (n =? BLOCK_HEADERS_REQUIRED); [| simpl; auto].
  rewrite <- H2. revert s1 H1 H2. intros s1 H1 _. revert s1 H1.
  apply quiet_and_then.
  - apply quiet_modify. intros s0. unfold update_median_timestamp.
    destruct (get_timestamps W s0); auto.
  - intros s0 H0. destruct (m_serversStarted s0); [simpl; auto |].
    apply (quiet_api_update_network_stats env (set_serversStarted true s0)).
    exact H0.
Qed.

(** X8: without the telemetry API no event publishes a snapshot or writes
    the found-blocks file, and the in-memory list of found blocks never
    changes. *)
Theorem no_telemetry_without_api (W : nat) (env : Env) (ev : event) (s : p2pool) :
  m_api s = false ->
  m_api (run_event W env ev s).1 = false
  /\ m_foundBlocks (run_event W env ev s).1 = m_foundBlocks s
  /\ forall e, e ∈ (run_event W env ev s).2 -> is_telemetry e = false.
Proof.
  intros H.
  assert (Hq : quiet_without_api (run_event W env ev)).
  { destruct ev; simpl.
    - apply quiet_handle_tx.
    - apply quiet_handle_miner_data.
    - apply quiet_handle_chain_main.
    - unfold submit_block_async. apply quiet_and_then;
        [apply quiet_modify; auto | apply quiet_emit; reflexivity].
    - unfold submit_block_async_blob. apply quiet_and_then;
        [apply quiet_modify; auto | apply quiet_emit; reflexivity].
    - intros s0 H0. unfold submit_block.
      destruct (submit_block_source env (m_submitBlockData s0)) as [[[b x] y] |];
        simpl; repeat split; auto.
    - apply quiet_update_block_template.
    - intros s0 H0. destruct parsed; simpl; auto.
    - apply quiet_on_block_headers_range.
    - apply quiet_load_found_blocks. }
  destruct (Hq s H) as (H1 & H2 & H3).
  split; [exact H1 | split; [exact H2 |]].
  apply Forall_forall. exact H3.
Qed.

Lemma no_telemetry_without_api_witness :
  m_api (run_event 60 example_env (NewChainMain (example_header 12) 5)
           (p2pool_init false)).1 = false
  /\ m_foundBlocks (run_event 60 example_env (NewChainMain (example_header 12) 5)
                      (p2pool_init false)).1
     = m_foundBlocks (p2pool_init false)
  /\ forall e,
       e ∈ (run_event 60 example_env (NewChainMain (example_header 12) 5)
              (p2pool_init false)).2 ->
       is_telemetry e = false.
Proof.
  apply no_telemetry_without_api. reflexivity.
Defined.

(** ** The list of found blocks only grows *)

Lemma extends_found_keeps a : keeps m_foundBlocks a -> extends_found a.
Proof. intros H s. rewrite H. reflexivity. Qed.

Lemma extends_found_and_then a b :
  extends_found a -> extends_found b -> extends_found (a >>> b).
Proof.
  intros Ha Hb s. rewrite and_then_run. cbn [fst].
  etransitivity; [apply Ha | apply Hb].
Qed.

Lemma extends_found_if (c : bool) a b :
  extends_found a -> extends_found b -> extends_found (if c then a else b).
Proof. destruct c; auto. Qed.

Lemma api_update_block_found_foundBlocks env data s :
  m_foundBlocks (api_update_block_found env data s).1
  = if m_api s
    then m_foundBlocks s
         ++ from_option
              (fun d =>
                 [FoundBlock.mk (now env) (ChainMain.height d) (ChainMain.id d)
                    (default difficulty_zero
                       (get_difficulty_at_height (ChainMain.height d) s))
                    (sidechain_total_hashes env)])
              [] data
    else m_foundBlocks s.
Proof.
  destruct (m_api s) eqn:Hapi.
  - destruct (api_update_block_found_enabled env data s Hapi) as [Hm _].
    rewrite Hm. destruct data; reflexivity.
  - unfold api_update_block_found. rewrite and_then_run. simpl.
    rewrite Hapi. reflexivity.
Qed.

Lemma extends_found_api_update_block_found env data :
  extends_found (api_update_block_found env data).
Proof.
  intros s. rewrite api_update_block_found_foundBlocks.
  destruct (m_api s); [apply prefix_app_r |]; reflexivity.
Qed.

Lemma extends_found_load_found_blocks env : extends_found (load_found_blocks env).
Proof.
  intros s. unfold load_found_blocks.
  destruct (m_api s); simpl; [| reflexivity].
  destruct (found_blocks_file env) as [tokens |]; [| reflexivity].
  apply (extends_found_and_then _ _); [| apply extends_found_api_update_block_found].
  intros s0. simpl. apply prefix_app_r. reflexivity.
Qed.

Lemma extends_found_handle_chain_main W env data sidechain_id :
  extends_found (handle_chain_main W env data sidechain_id).
Proof.
  intros s. unfold handle_chain_main.
  destruct (chain_main_upsert data s) as [s1 data1] eqn:E.
  assert (H1 : m_foundBlocks s1 = m_foundBlocks s).
  { unfold chain_main_upsert in E. injection E as <- _. reflexivity. }
  rewrite <- H1. revert s1 E H1. intros s1 _ _. revert s1.
  repeat apply extends_found_and_then.
  - apply extends_found_keeps, keeps_modify.
    apply (frame_update_median_timestamp m_foundBlocks). intros; reflexivity.
  - repeat apply extends_found_if.
    + apply extends_found_keeps, keeps_skip.
    + apply extends_found_api_update_block_found.
    + apply extends_found_keeps, keeps_emit.
  - apply extends_found_keeps.
    apply (frame_api_update_network_stats m_foundBlocks). intros; reflexivity.
  - apply extends_found_keeps, keeps_modify. reflexivity.
Qed.

Lemma extends_found_run_event W env ev : extends_found (run_event W env ev).
Proof.
  destruct ev; simpl.
  - apply extends_found_keeps.
    apply (frame_handle_tx m_foundBlocks). intros; reflexivity.
  - apply extends_found_keeps.
    apply (frame_handle_miner_data m_foundBlocks); intros; reflexivity.
  - apply extends_found_handle_chain_main.
  - apply extends_found_keeps. intros s. reflexivity.
  - apply extends_found_keeps. intros s. reflexivity.
  - apply extends_found_keeps. apply (frame_submit_block m_foundBlocks).
  - apply extends_found_keeps.
    apply (frame_update_block_template m_foundBlocks); intros; reflexivity.
  - intros s. destruct parsed; reflexivity.
  - intros s. unfold on_block_headers_range.
    assert (H1 : m_foundBlocks (parse_block_headers_range parsed s).2
                 = m_foundBlocks s).
    { destruct parsed as [l |]; [| reflexivity].
      apply (frame_store_headers m_foundBlocks). intros; reflexivity. }
    destruct (parse_block_headers_range parsed s) as [n s1]. cbn [snd] in H1.
    destruct (n =? BLOCK_HEADERS_REQUIRED); [| cbn [fst]; rewrite H1; reflexivity].
    rewrite and_then_run. cbn [fst modify].
    rewrite <- H1,
      <- (frame_update_median_timestamp m_foundBlocks
            ltac:(intros; reflexivity) W s1).
    destruct (m_serversStarted (update_median_timestamp W s1)); [reflexivity |].
    rewrite (frame_api_update_network_stats m_foundBlocks) by (intros; reflexivity).
    reflexivity.
  - apply extends_found_load_found_blocks.
Qed.

(** X9: found blocks are never removed or rewritten: after any event the
    list of found blocks starts with the list before it, and an event other
    than the loading of the file adds at most one block. *)
Theorem found_blocks_append_only (W : nat) (env : Env) (ev : event) (s : p2pool) :
  m_foundBlocks s `prefix_of` m_foundBlocks (run_event W env ev s).1
  /\ (ev <> LoadFoundBlocks ->
      (length (m_foundBlocks (run_event W env ev s).1)
       <= S (length (m_foundBlocks s)))%nat).
Proof.
  split; [apply extends_found_run_event |].
  intros Hev.
  assert (Hk : forall a, keeps m_foundBlocks a ->
                 (length (m_foundBlocks (a s).1) <= S (length (m_foundBlocks s)))%nat).
  { intros a Ha. rewrite Ha. lia. }
  destruct ev; simpl; try contradiction.
  - apply Hk, (frame_handle_tx m_foundBlocks). intros; reflexivity.
  - apply Hk, (frame_handle_miner_data m_foundBlocks); intros; reflexivity.
  - unfold handle_chain_main.
    destruct (chain_main_upsert data s) as [s1 data1] eqn:E.
    assert (H1 : m_foundBlocks s1 = m_foundBlocks s).
    { unfold chain_main_upsert in E. injection E as <- _. reflexivity. }
    rewrite !and_then_run. cbn [fst modify].
    change (m_foundBlocks (set_zmqLastActive ?t ?x)) with (m_foundBlocks x).
    rewrite (frame_api_update_network_stats m_foundBlocks) by (intros; reflexivity).
    set (s2 := update_median_timestamp W s1).
    assert (H2 : m_foundBlocks s2 = m_foundBlocks s).
    { unfold s2. rewrite (frame_update_median_timestamp m_foundBlocks)
        by (intros; reflexivity). exact H1. }
    destruct (sidechain_id =? 0); [cbn [skip fst]; rewrite H2; lia |].
    destruct (sidechain_has_block env sidechain_id);
      [| cbn [emit fst]; rewrite H2; lia].
    rewrite api_update_block_found_foundBlocks, H2.
    destruct (m_api s2); [| lia].
    rewrite length_app. simpl. lia.
  - lia.
  - lia.
  - apply Hk, (frame_submit_block m_foundBlocks).
  - apply Hk, (frame_update_block_template m_foundBlocks); intros; reflexivity.
  - destruct parsed; simpl; lia.
  - pose proof (extends_found_run_event W env (BlockHeadersRange parsed) s) as Hp.
    simpl in Hp.
    assert (Heq : m_foundBlocks (on_block_headers_range W env parsed s).1
                  = m_foundBlocks s).
    { unfold on_block_headers_range.
      assert (H1 : m_foundBlocks (parse_block_headers_range parsed s).2
                   = m_foundBlocks s).
      { destruct parsed as [l |]; [| reflexivity].
        apply (frame_store_headers m_foundBlocks). intros; reflexivity. }
      destruct (parse_block_headers_range parsed s) as [n s1]. cbn [snd] in H1.
      destruct (n =? BLOCK_HEADERS_REQUIRED); [| exact H1].
      rewrite and_then_run. cbn [fst modify].
      rewrite <- H1,
        <- (frame_update_median_timestamp m_foundBlocks
              ltac:(intros; reflexivity) W s1).
      destruct (m_serversStarted (update_median_timestamp W s1)); [reflexivity |].
      rewrite (frame_api_update_network_stats m_foundBlocks)
        by (intros; reflexivity).
      reflexivity. }
    rewrite Heq. lia.
Qed.

(** ** What the telemetry actions emit *)

Section EmitsOnly.
Variable P : effect -> Prop.

Lemma emits_only_skip : emits_only P skip.
Proof. intros s. constructor. Qed.

Lemma emits_only_emit e : P e -> emits_only P (emit e).
Proof. intros H s. repeat constructor. exact H. Qed.

Lemma emits_only_modify g : emits_only P (modify g).
Proof. intros s. constructor. Qed.

Lemma emits_only_and_then a b :
  emits_only P a -> emits_only P b -> emits_only P (a >>> b).
Proof.
  intros Ha Hb s. rewrite and_then_run. cbn [snd].
  apply Forall_app. split; [apply Ha | apply Hb].
Qed.

Lemma emits_only_if (c : bool) a b :
  emits_only P a -> emits_only P b -> emits_only P (if c then a else b).
Proof. destruct c; auto. Qed.

Hypothesis P_stats_mod : forall st, P (Api_stats_mod st).

Lemma emits_only_api_update_stats_mod env : emits_only P (api_update_stats_mod env).
Proof.
  intros s. rewrite api_update_stats_mod_trace.
  destruct (negb (m_api s)); [constructor |].
  destruct (difficulty_lt _ _); repeat constructor. apply P_stats_mod.
Qed.

Hypothesis P_network_stats : forall tip, P (Api_network_stats tip).

Lemma emits_only_api_update_network_stats env :
  emits_only P (api_update_network_stats env).
Proof.
  intros s. unfold api_update_network_stats.
  destruct (m_api s); simpl; [| constructor].
  destruct (by_hash_index _ s) as [s1 tip].
  apply emits_only_and_then;
    [apply emits_only_emit, P_network_stats | apply emits_only_api_update_stats_mod].
Qed.

Hypothesis P_pool_stats : forall st, P (Api_pool_stats st).

Lemma emits_only_api_update_pool_stats env :
  emits_only P (api_update_pool_stats env).
Proof.
  intros s. unfold api_update_pool_stats.
  destruct (m_api s); simpl; [| constructor].
  apply emits_only_and_then;
    [apply emits_only_emit, P_pool_stats | apply emits_only_api_update_stats_mod].
Qed.

Hypothesis P_set_seed : forall seed, P (Hasher_set_seed_async seed).
Hypothesis P_template_update : forall d, P (BlockTemplate_update d).
Hypothesis P_stratum : P Stratum_on_block.

Lemma emits_only_update_block_template env :
  emits_only P (update_block_template env).
Proof.
  unfold update_block_template. repeat apply emits_only_and_then.
  - intros s. destruct (m_updateSeed s); repeat constructor. apply P_set_seed.
  - intros s. repeat constructor. apply P_template_update.
  - intros s. unfold stratum_on_block.
    destruct (m_serversStarted s); repeat constructor. exact P_stratum.
  - apply emits_only_api_update_pool_stats.
Qed.

End EmitsOnly.

(** ** handle_chain_main and the side chain *)

Lemma handle_chain_main_run W env data sidechain_id s :
  handle_chain_main W env data sidechain_id s
  = (set_zmqLastActive (now env)
       (api_update_network_stats env
          (chain_main_side_chain env (chain_main_upsert data s).2 sidechain_id
             (update_median_timestamp W (chain_main_upsert data s).1)).1).1,
     (chain_main_side_chain env (chain_main_upsert data s).2 sidechain_id
        (update_median_timestamp W (chain_main_upsert data s).1)).2
     ++ (api_update_network_stats env
           (chain_main_side_chain env (chain_main_upsert data s).2 sidechain_id
              (update_median_timestamp W (chain_main_upsert data s).1)).1).2).
Proof.
  unfold handle_chain_main.
  destruct (chain_main_upsert data s) as [s1 data1]. cbn [fst snd].
  rewrite !and_then_run. cbn [fst snd modify].
  rewrite app_nil_l, app_nil_r. reflexivity.
Qed.

Lemma filter_none {A : Type} (p : A -> bool) (l : list A) :
  Forall (fun x => p x = false) l -> List.filter p l = [].
Proof.
  induction 1 as [| x l Hx _ IH]; [reflexivity |].
  simpl. rewrite Hx. exact IH.
Qed.

Lemma network_stats_no_block_found env s :
  Forall (fun e => is_block_found_effect e = false)
         (api_update_network_stats env s).2.
Proof. apply emits_only_api_update_network_stats; reflexivity. Qed.

(** X10: handle_chain_main touches the side chain, the crypto cache and the
    found-blocks ledger only for a non-zero side-chain id: with a zero id
    none of these effects occurs and the list of found blocks is unchanged;
    with a non-zero id the side chain does not have, the one such effect is
    the hand-over of the block to the side chain, carrying the id the index
    holds for that height. *)
Theorem handle_chain_main_side_chain (W : nat) (env : Env) (data : ChainMain.t)
    (sidechain_id : hash) (s : p2pool) :
  (sidechain_id = 0 ->
   m_foundBlocks (handle_chain_main W env data sidechain_id s).1 = m_foundBlocks s
   /\ List.filter is_block_found_effect
        (handle_chain_main W env data sidechain_id s).2 = [])
  /\ (sidechain_id <> 0 -> sidechain_has_block env sidechain_id = false ->
      m_foundBlocks (handle_chain_main W env data sidechain_id s).1 = m_foundBlocks s
      /\ List.filter is_block_found_effect
           (handle_chain_main W env data sidechain_id s).2
         = [SideChain_watch_mainchain_block
              (ChainMain.mk (ChainMain.difficulty data) (ChainMain.height data)
                 (ChainMain.timestamp data) (ChainMain.reward data)
                 (ChainMain.id (at_height (m_mainchainByHeight s)
                                          (ChainMain.height data))))
              sidechain_id]).
Proof.
  rewrite handle_chain_main_run. cbn [fst snd].
  change (m_foundBlocks (set_zmqLastActive ?t ?x)) with (m_foundBlocks x).
  rewrite (frame_api_update_network_stats m_foundBlocks) by (intros; reflexivity).
  rewrite List.filter_app.
  rewrite (filter_none _ _ (network_stats_no_block_found env _)), app_nil_r.
  unfold chain_main_side_chain.
  assert (Hm : m_foundBlocks (update_median_timestamp W (chain_main_upsert data s).1)
               = m_foundBlocks s).
  { rewrite (frame_update_median_timestamp m_foundBlocks) by (intros; reflexivity).
    reflexivity. }
  split.
  - intros ->. change (0 =? 0) with true. cbn [skip fst snd].
    split; [exact Hm | reflexivity].
  - intros Hnz Hhas.
    destruct (Z.eqb_spec sidechain_id 0) as [? | _]; [contradiction |].
    rewrite Hhas. cbn [emit fst snd].
    split; [exact Hm | reflexivity].
Qed.

Lemma handle_chain_main_side_chain_witness :
  (m_foundBlocks (handle_chain_main 60 example_env (example_header 12) 0
                    (example_index [12])).1
   = m_foundBlocks (example_index [12])
   /\ List.filter is_block_found_effect
        (handle_chain_main 60 example_env (example_header 12) 0
           (example_index [12])).2 = [])
  /\ (m_foundBlocks (handle_chain_main 60 example_env (example_header 12) 5
                       (example_index [12])).1
      = m_foundBlocks (example_index [12])
      /\ List.filter is_block_found_effect
           (handle_chain_main 60 example_env (example_header 12) 5
              (example_index [12])).2
         = [SideChain_watch_mainchain_block (example_header 12) 5]).
Proof.
  split.
  - apply (proj1 (handle_chain_main_side_chain 60 example_env (example_header 12)
                    0 (example_index [12]))).
    reflexivity.
  - apply (proj2 (handle_chain_main_side_chain 60 example_env (example_header 12)
                    5 (example_index [12]))).
    + discriminate.
    + reflexivity.
Defined.

Lemma file_appends_none t :
  Forall (fun e => is_block_found_effect e = false) t -> file_appends t = [].
Proof.
  induction 1 as [| e t He _ IH]; [reflexivity |].
  change (file_appends (e :: t)) with (file_appends ([e] ++ t)).
  rewrite file_appends_app, IH, app_nil_r.
  destruct e; try reflexivity; discriminate He.
Qed.

(** X11: when the side chain has the block that a tip push names (and the
    API is enabled), handle_chain_main always records it: the list of found
    blocks gains one entry whose id and difficulty are those the index holds
    for that height (zero when the height was not indexed), and the same
    record is appended to the file when the file can be opened. *)
Theorem handle_chain_main_records_found_block (W : nat) (env : Env)
    (data : ChainMain.t) (sidechain_id : hash) (s : p2pool) :
  m_api s = true -> sidechain_id <> 0 ->
  sidechain_has_block env sidechain_id = true ->
  m_foundBlocks (handle_chain_main W env data sidechain_id s).1
  = m_foundBlocks s
    ++ [FoundBlock.mk (now env) (ChainMain.height data)
          (ChainMain.id (at_height (m_mainchainByHeight s) (ChainMain.height data)))
          (ChainMain.difficulty
             (at_height (m_mainchainByHeight s) (ChainMain.height data)))
          (sidechain_total_hashes env)]
  /\ file_appends (handle_chain_main W env data sidechain_id s).2
     = if found_blocks_writable env
       then [FoundBlock.mk (now env) (ChainMain.height data)
               (ChainMain.id (at_height (m_mainchainByHeight s)
                                        (ChainMain.height data)))
               (ChainMain.difficulty
                  (at_height (m_mainchainByHeight s) (ChainMain.height data)))
               (sidechain_total_hashes env)]
       else [].
Proof.
  intros Hapi Hnz Hhas.
  rewrite handle_chain_main_run. cbn [fst snd].
  change (m_foundBlocks (set_zmqLastActive ?t ?x)) with (m_foundBlocks x).
  rewrite (frame_api_update_network_stats m_foundBlocks) by (intros; reflexivity).
  rewrite file_appends_app.
  rewrite (file_appends_none _ (network_stats_no_block_found env _)), app_nil_r.
  unfold chain_main_side_chain.
  destruct (Z.eqb_spec sidechain_id 0) as [? | _]; [contradiction |].
  rewrite Hhas.
  set (s2 := update_median_timestamp W (chain_main_upsert data s).1).
  assert (Hapi2 : m_api s2 = true).
  { unfold s2. rewrite (frame_update_median_timestamp m_api) by (intros; reflexivity).
    exact Hapi. }
  assert (Hm : m_foundBlocks s2 = m_foundBlocks s).
  { unfold s2.
    rewrite (frame_update_median_timestamp m_foundBlocks) by (intros; reflexivity).
    reflexivity. }
  assert (Hd : get_difficulty_at_height (ChainMain.height data) s2
               = Some (ChainMain.difficulty
                         (at_height (m_mainchainByHeight s) (ChainMain.height data)))).
  { unfold s2, get_difficulty_at_height.
    rewrite (frame_update_median_timestamp m_mainchainByHeight)
      by (intros; reflexivity).
    unfold chain_main_upsert. cbn [fst m_mainchainByHeight set_mainchain].
    rewrite lookup_insert_eq. reflexivity. }
  destruct (api_update_block_found_enabled env (Some (chain_main_upsert data s).2)
              s2 Hapi2) as [Hfound Hfile].
  rewrite Hfound, Hfile, Hm. cbn [mbind option_bind from_option].
  change (ChainMain.height (chain_main_upsert data s).2)
    with (ChainMain.height data).
  change (ChainMain.id (chain_main_upsert data s).2)
    with (ChainMain.id (at_height (m_mainchainByHeight s) (ChainMain.height data))).
  rewrite Hd. cbn [default].
  split; reflexivity.
Qed.

Lemma handle_chain_main_records_found_block_witness :
  m_foundBlocks (handle_chain_main 60 example_sidechain_env (example_header 12) 5
                   (miner_data_insert example_miner_data (example_index [12]))).1
  = [FoundBlock.mk 1700000000 12 1000012 (mk_difficulty 300000 0)
                   (mk_difficulty 5000 0)]
  /\ file_appends
       (handle_chain_main 60 example_sidechain_env (example_header 12) 5
          (miner_data_insert example_miner_data (example_index [12]))).2
     = [FoundBlock.mk 1700000000 12 1000012 (mk_difficulty 300000 0)
                      (mk_difficulty 5000 0)].
Proof.
  apply (handle_chain_main_records_found_block 60 example_sidechain_env
           (example_header 12) 5
           (miner_data_insert example_miner_data (example_index [12]))).
  - reflexivity.
  - discriminate.
  - reflexivity.
Defined.

(** ** The index through the telemetry actions *)

Lemma index_grows_keeps a :
  keeps m_mainchainByHeight a -> keeps m_mainchainByHash a -> index_grows a.
Proof. intros H1 H2 s. rewrite H1, H2. split; reflexivity. Qed.

Lemma index_grows_and_then a b :
  index_grows a -> index_grows b -> index_grows (a >>> b).
Proof.
  intros Ha Hb s. rewrite and_then_run. cbn [fst].
  destruct (Ha s) as [H1 H2]. destruct (Hb (a s).1) as [H3 H4].
  split; [congruence | etransitivity; eassumption].
Qed.

Lemma index_grows_if (c : bool) a b :
  index_grows a -> index_grows b -> index_grows (if c then a else b).
Proof. destruct c; auto. Qed.

Lemma index_grows_by_hash_index key s :
  m_mainchainByHeight (by_hash_index key s).1 = m_mainchainByHeight s
  /\ m_mainchainByHash s ⊆ m_mainchainByHash (by_hash_index key s).1.
Proof.
  unfold by_hash_index. destruct (m_mainchainByHash s !! key) eqn:E.
  - split; reflexivity.
  - split; [reflexivity |]. simpl. apply insert_subseteq. exact E.
Qed.

Lemma index_grows_api_update_stats_mod env : index_grows (api_update_stats_mod env).
Proof.
  intros s. unfold api_update_stats_mod.
  destruct (m_api s); simpl; [| split; reflexivity].
  pose proof (index_grows_by_hash_index (MinerData.prev_id (m_minerData s)) s) as H.
  destruct (by_hash_index _ s) as [s1 tip]. simpl in H.
  destruct (difficulty_lt _ _); exact H.
Qed.

Lemma index_grows_api_update_network_stats env :
  index_grows (api_update_network_stats env).
Proof.
  intros s. unfold api_update_network_stats.
  destruct (m_api s); simpl; [| split; reflexivity].
  pose proof (index_grows_by_hash_index (MinerData.prev_id (m_minerData s)) s) as H.
  destruct (by_hash_index _ s) as [s1 tip]. simpl in H. destruct H as [H1 H2].
  destruct (index_grows_and_then (emit (Api_network_stats tip))
              (api_update_stats_mod env)
              (index_grows_keeps _ (keeps_emit _ _) (keeps_emit _ _))
              (index_grows_api_update_stats_mod env) s1) as [H3 H4].
  split; [congruence | etransitivity; eassumption].
Qed.

Lemma index_grows_api_update_pool_stats env :
  index_grows (api_update_pool_stats env).
Proof.
  intros s. unfold api_update_pool_stats.
  destruct (m_api s); simpl; [| split; reflexivity].
  apply (index_grows_and_then _ _);
    [apply index_grows_keeps; apply keeps_emit
    | apply index_grows_api_update_stats_mod].
Qed.

Lemma index_grows_update_block_template env :
  index_grows (update_block_template env).
Proof.
  unfold update_block_template. repeat apply index_grows_and_then.
  - intros s. destruct (m_updateSeed s); split; reflexivity.
  - intros s. split; reflexivity.
  - intros s. unfold stratum_on_block.
    destruct (m_serversStarted s); split; reflexivity.
  - apply index_grows_api_update_pool_stats.
Qed.

Lemma index_grows_update_median_timestamp W :
  index_grows (modify (update_median_timestamp W)).
Proof.
  intros s. simpl. unfold update_median_timestamp.
  destruct (get_timestamps W s); split; reflexivity.
Qed.

(** The by-height map handle_miner_data leaves is that of its write-locked
    block, with or without the API. *)
Lemma handle_miner_data_by_height W env data s :
  m_mainchainByHeight (handle_miner_data W env data s).1
  = m_mainchainByHeight
      (cleanup_mainchain_data (MinerData.height data) (miner_data_insert data s)).
Proof.
  unfold handle_miner_data.
  rewrite !and_then_run. cbn [fst emit modify].
  set (s2 := set_updateSeed true _).
  assert (Hrest : index_grows
    (modify (update_median_timestamp W)
     >>> (if is_main_thread env then update_block_template env
          else emit (Async_send BlockTemplateAsync)))).
  { apply index_grows_and_then; [apply index_grows_update_median_timestamp |].
    apply index_grows_if; [apply index_grows_update_block_template |].
    apply index_grows_keeps; apply keeps_emit. }
  destruct (Hrest s2) as [Hh _].
  rewrite and_then_run in Hh. cbn [fst modify] in Hh.
  match goal with
  | |- context [(if m_serversStarted ?x then _ else _)] =>
      destruct (m_serversStarted x)
  end; cbn [fst set_zmqLastActive m_mainchainByHeight]; rewrite Hh; reflexivity.
Qed.

(** X12: after handle_miner_data for a height [H] with [1 <= H < 2^64 - 720]
    the index holds the announced difficulty at [H], and at [H - 1] an entry
    with the announced [prev_id], the difficulty it had before, and timestamp
    and reward reset to 0 whatever they were. *)
Theorem handle_miner_data_index_entries (W : nat) (env : Env)
    (data : MinerData.t) (s : p2pool) :
  1 <= MinerData.height data < 2 ^ 64 - 720 ->
  get_difficulty_at_height (MinerData.height data)
    (handle_miner_data W env data s).1 = Some (MinerData.difficulty data)
  /\ m_mainchainByHeight (handle_miner_data W env data s).1
       !! (MinerData.height data - 1)
     = Some (ChainMain.mk
               (ChainMain.difficulty
                  (at_height (m_mainchainByHeight s) (MinerData.height data - 1)))
               (MinerData.height data - 1) 0 0 (MinerData.prev_id data)).
Proof.
  intros Hh. unfold get_difficulty_at_height.
  rewrite handle_miner_data_by_height.
  rewrite !cleanup_keeps_lookup
    by (left; unfold PRUNE_DISTANCE, BLOCK_HEADERS_REQUIRED;
        rewrite u64_small by lia; lia).
  unfold miner_data_insert. cbn [m_mainchainByHeight set_mainchain].
  rewrite (u64_small (MinerData.height data - 1)) by lia.
  split.
  - rewrite lookup_insert_ne by lia. rewrite lookup_insert_eq. reflexivity.
  - rewrite lookup_insert_eq. do 2 f_equal.
    unfold at_height. rewrite lookup_insert_ne by lia. reflexivity.
Qed.

Lemma handle_miner_data_index_entries_witness :
  get_difficulty_at_height 1000
    (handle_miner_data 60 example_env example_miner_data (example_index [999])).1
  = Some (mk_difficulty 300000 0)
  /\ m_mainchainByHeight
       (handle_miner_data 60 example_env example_miner_data (example_index [999])).1
       !! (1000 - 1)
     = Some (ChainMain.mk
               (ChainMain.difficulty
                  (at_height (m_mainchainByHeight (example_index [999])) (1000 - 1)))
               (1000 - 1) 0 0 7).
Proof.
  apply (handle_miner_data_index_entries 60 example_env example_miner_data
           (example_index [999])).
  simpl. lia.
Defined.

(** ** Miner data, the seed and the template *)

Lemma update_block_template_run env s :
  update_block_template env s
  = ((api_update_pool_stats env
        (if m_updateSeed s then set_updateSeed false s else s)).1,
     (if m_updateSeed s
      then [Hasher_set_seed_async (MinerData.seed_hash (m_minerData s))] else [])
     ++ BlockTemplate_update (m_minerData s)
        :: (if m_serversStarted s then [Stratum_on_block] else [])
        ++ (api_update_pool_stats env
              (if m_updateSeed s then set_updateSeed false s else s)).2).
Proof.
  unfold update_block_template. rewrite !and_then_run.
  unfold stratum_on_block.
  destruct (m_updateSeed s); cbn [fst snd];
    change (m_serversStarted (set_updateSeed false s)) with (m_serversStarted s);
    change (m_minerData (set_updateSeed false s)) with (m_minerData s);
    destruct (m_serversStarted s); cbn [fst snd app];
    rewrite <- ?app_assoc; reflexivity.
Qed.

Lemma pool_stats_no_seed env s :
  Forall (fun e => is_seed_update e = false) (api_update_pool_stats env s).2.
Proof. apply emits_only_api_update_pool_stats; reflexivity. Qed.

Lemma update_block_template_updateSeed env s :
  m_updateSeed (update_block_template env s).1 = false.
Proof.
  rewrite update_block_template_run. cbn [fst].
  rewrite (frame_api_update_pool_stats m_updateSeed) by (intros; reflexivity).
  destruct (m_updateSeed s) eqn:E; [reflexivity | exact E].
Qed.

(** X13: update_block_template tells the hasher the seed of the current
    miner data exactly when [m_updateSeed] is set, and then first of all;
    it always hands the current miner data to the template builder; it leaves
    the flag cleared, so that a second call sends no seed. *)
Theorem update_block_template_seed_once (env env' : Env) (s : p2pool) :
  List.filter is_seed_update (update_block_template env s).2
  = (if m_updateSeed s
     then [Hasher_set_seed_async (MinerData.seed_hash (m_minerData s))] else [])
  /\ (m_updateSeed s = true ->
      exists rest,
        (update_block_template env s).2
        = Hasher_set_seed_async (MinerData.seed_hash (m_minerData s))
          :: BlockTemplate_update (m_minerData s) :: rest)
  /\ BlockTemplate_update (m_minerData s) ∈ (update_block_template env s).2
  /\ m_updateSeed (update_block_template env s).1 = false
  /\ List.filter is_seed_update
       (update_block_template env' (update_block_template env s).1).2 = [].
Proof.
  split; [| split; [| split; [| split]]].
  - rewrite update_block_template_run. cbn [snd].
    rewrite List.filter_app. cbn [List.filter is_seed_update].
    rewrite List.filter_app, (filter_none _ _ (pool_stats_no_seed env _)).
    destruct (m_updateSeed s), (m_serversStarted s); reflexivity.
  - intros Hs. rewrite update_block_template_run, Hs. cbn [snd app].
    eexists. reflexivity.
  - rewrite update_block_template_run. cbn [snd].
    apply elem_of_app. right. left.
  - apply update_block_template_updateSeed.
  - rewrite (update_block_template_run env'). cbn [snd].
    rewrite update_block_template_updateSeed. cbn [app List.filter is_seed_update].
    rewrite List.filter_app, (filter_none _ _ (pool_stats_no_seed env' _)).
    destruct (m_serversStarted _); reflexivity.
Qed.

Lemma handle_miner_data_run W env data s :
  handle_miner_data W env data s
  = (set_zmqLastActive (now env)
       ((if is_main_thread env then update_block_template env
         else emit (Async_send BlockTemplateAsync))
          (update_median_timestamp W
             (set_updateSeed true
                (set_minerData (MinerData.received (now env) data)
                   (cleanup_mainchain_data (MinerData.height data)
                      (miner_data_insert data s)))))).1,
     Mempool_swap (MinerData.tx_backlog data)
     :: ((if is_main_thread env then update_block_template env
          else emit (Async_send BlockTemplateAsync))
           (update_median_timestamp W
              (set_updateSeed true
                 (set_minerData (MinerData.received (now env) data)
                    (cleanup_mainchain_data (MinerData.height data)
                       (miner_data_insert data s)))))).2
     ++ (if m_serversStarted
              (set_zmqLastActive (now env)
                 ((if is_main_thread env then update_block_template env
                   else emit (Async_send BlockTemplateAsync))
                    (update_median_timestamp W
                       (set_updateSeed true
                          (set_minerData (MinerData.received (now env) data)
                             (cleanup_mainchain_data (MinerData.height data)
                                (miner_data_insert data s)))))).1)
         then List.map Rpc_get_block_header_by_height
                (missing_heights 720 (MinerData.height data) (MinerData.height data)
                   (m_mainchainByHeight
                      (set_zmqLastActive (now env)
                         ((if is_main_thread env then update_block_template env
                           else emit (Async_send BlockTemplateAsync))
                            (update_median_timestamp W
                               (set_updateSeed true
                                  (set_minerData (MinerData.received (now env) data)
                                     (cleanup_mainchain_data (MinerData.height data)
                                        (miner_data_insert data s)))))).1)))
         else [])).
Proof.
  unfold handle_miner_data. rewrite !and_then_run.
  cbn [fst snd emit modify app]. rewrite !app_nil_r.
  match goal with
  | |- context [(if m_serversStarted ?x then _ else _)] =>
      destruct (m_serversStarted x)
  end; reflexivity.
Qed.

Lemma handle_miner_data_minerData W env data s :
  exists median,
    m_minerData (handle_miner_data W env data s).1
    = MinerData.set_median_timestamp median (MinerData.received (now env) data).
Proof.
  rewrite handle_miner_data_run. cbn [fst].
  change (m_minerData (set_zmqLastActive ?t ?x)) with (m_minerData x).
  assert (Hm : forall x,
             m_minerData ((if is_main_thread env then update_block_template env
                           else emit (Async_send BlockTemplateAsync)) x).1
             = m_minerData x).
  { intros x. destruct (is_main_thread env); [| reflexivity].
    apply (frame_update_block_template m_minerData); intros; reflexivity. }
  rewrite Hm. unfold update_median_timestamp.
  destruct (get_timestamps W _); eexists; reflexivity.
Qed.

(** X14: after handle_miner_data the current miner data is the notification
    with its backlog emptied and the time of receipt set, the mempool having
    received the backlog first.  On the main thread the hasher is told the
    new seed and the template builder the new miner data at once, and the
    seed flag is cleared; on another thread only a wake-up is sent and the
    flag stays set, so that the next update_block_template sends that seed
    and that miner data. *)
Theorem handle_miner_data_template (W : nat) (env env' : Env)
    (data : MinerData.t) (s : p2pool) :
  (MinerData.major_version (m_minerData (handle_miner_data W env data s).1)
     = MinerData.major_version data
   /\ MinerData.height (m_minerData (handle_miner_data W env data s).1)
     = MinerData.height data
   /\ MinerData.prev_id (m_minerData (handle_miner_data W env data s).1)
     = MinerData.prev_id data
   /\ MinerData.seed_hash (m_minerData (handle_miner_data W env data s).1)
     = MinerData.seed_hash data
   /\ MinerData.difficulty (m_minerData (handle_miner_data W env data s).1)
     = MinerData.difficulty data
   /\ MinerData.median_weight (m_minerData (handle_miner_data W env data s).1)
     = MinerData.median_weight data
   /\ MinerData.already_generated_coins (m_minerData (handle_miner_data W env data s).1)
     = MinerData.already_generated_coins data
   /\ MinerData.tx_backlog (m_minerData (handle_miner_data W env data s).1) = []
   /\ MinerData.time_received (m_minerData (handle_miner_data W env data s).1)
     = now env)
  /\ (is_main_thread env = true ->
      m_updateSeed (handle_miner_data W env data s).1 = false
      /\ exists rest,
          (handle_miner_data W env data s).2
          = Mempool_swap (MinerData.tx_backlog data)
            :: Hasher_set_seed_async (MinerData.seed_hash data)
            :: BlockTemplate_update (m_minerData (handle_miner_data W env data s).1)
            :: rest)
  /\ (is_main_thread env = false ->
      m_updateSeed (handle_miner_data W env data s).1 = true
      /\ (exists rest,
            (handle_miner_data W env data s).2
            = Mempool_swap (MinerData.tx_backlog data)
              :: Async_send BlockTemplateAsync :: rest)
      /\ exists rest,
          (update_block_template env' (handle_miner_data W env data s).1).2
          = Hasher_set_seed_async (MinerData.seed_hash data)
            :: BlockTemplate_update (m_minerData (handle_miner_data W env data s).1)
            :: rest).
Proof.
  destruct (handle_miner_data_minerData W env data s) as [median Hm].
  split; [| split].
  - rewrite Hm. repeat split.
  - intros Hmain.
    assert (Hseed : MinerData.seed_hash (m_minerData (handle_miner_data W env data s).1)
                    = MinerData.seed_hash data) by (rewrite Hm; reflexivity).
    revert Hm Hseed. rewrite handle_miner_data_run, Hmain. cbn [fst snd].
    change (m_minerData (set_zmqLastActive ?t ?x)) with (m_minerData x).
    change (m_updateSeed (set_zmqLastActive ?t ?x)) with (m_updateSeed x).
    intros Hm Hseed. split; [apply update_block_template_updateSeed |].
    rewrite (frame_update_block_template m_minerData) in * by (intros; reflexivity).
    rewrite update_block_template_run. cbn [snd].
    rewrite (frame_update_median_timestamp m_updateSeed) by (intros; reflexivity).
    cbn [m_updateSeed set_updateSeed app]. rewrite Hseed.
    eexists. reflexivity.
  - intros Hmain.
    assert (Hseed : MinerData.seed_hash (m_minerData (handle_miner_data W env data s).1)
                    = MinerData.seed_hash data) by (rewrite Hm; reflexivity).
    assert (Hflag : m_updateSeed (handle_miner_data W env data s).1 = true).
    { rewrite handle_miner_data_run, Hmain. cbn [fst snd emit].
      change (m_updateSeed (set_zmqLastActive ?t ?x)) with (m_updateSeed x).
      rewrite (frame_update_median_timestamp m_updateSeed) by (intros; reflexivity).
      reflexivity. }
    split; [exact Hflag | split].
    + rewrite handle_miner_data_run, Hmain. cbn [fst snd emit app].
      eexists. reflexivity.
    + rewrite update_block_template_run, Hflag, Hseed. cbn [snd app].
      eexists. reflexivity.
Qed.

(** ** The hex rendering of submit_block, for any offsets *)

Lemma submit_block_hex_total_from blob X Y : forall i n e,
  exists bytes,
    hex_decode (submit_block_hex blob i X Y n e) = Some bytes
    /\ length bytes = length blob
    /\ forall (k : nat) (b : byte),
         blob !! k = Some b ->
         X = 0 \/ i + Z.of_nat k < X \/ u64 (X + 4) <= i + Z.of_nat k ->
         Y = 0 \/ i + Z.of_nat k < Y \/ u64 (Y + 4) <= i + Z.of_nat k ->
         bytes !! k = Some b.
Proof.
  induction blob as [| b rest IH]; intros i n e.
  - exists []. repeat split. intros k b Hk. discriminate Hk.
  - cbn [submit_block_hex].
    destruct (negb (X =? 0) && (X <=? i) && (i <? u64 (X + 4))) eqn:EX;
      [| destruct (negb (Y =? 0) && (Y <=? i) && (i <? u64 (Y + 4))) eqn:EY].
    + rewrite hex_decode_hex02 by apply land_255_range.
      destruct (IH (i + 1) (Z.shiftr n 8) e) as (bytes & -> & Hlen & Hout).
      eexists. split; [reflexivity |]. split; [simpl; congruence |].
      intros [| k] b' Hk HX HY.
      * exfalso. rewrite Z.add_0_r in HX.
        apply andb_prop in EX as [EX E3]. apply andb_prop in EX as [E1 E2].
        apply negb_true_iff, Z.eqb_neq in E1. lia.
      * simpl in Hk |- *. apply Hout; [exact Hk | lia | lia].
    + rewrite hex_decode_hex02 by apply land_255_range.
      destruct (IH (i + 1) n (Z.shiftr e 8)) as (bytes & -> & Hlen & Hout).
      eexists. split; [reflexivity |]. split; [simpl; congruence |].
      intros [| k] b' Hk HX HY.
      * exfalso. rewrite Z.add_0_r in HY.
        apply andb_prop in EY as [EY E3]. apply andb_prop in EY as [E1 E2].
        apply negb_true_iff, Z.eqb_neq in E1. lia.
      * simpl in Hk |- *. apply Hout; [exact Hk | lia | lia].
    + rewrite hex_decode_hex02 by apply byte_value_range.
      destruct (IH (i + 1) n e) as (bytes & -> & Hlen & Hout).
      eexists. split; [reflexivity |]. split; [simpl; congruence |].
      intros [| k] b' Hk HX HY.
      * simpl in Hk |- *. rewrite byte_of_Z_value. exact Hk.
      * simpl in Hk |- *. apply Hout; [exact Hk | lia | lia].
Qed.

(** X15: whatever the offsets and the two values are (zero, past the end of
    the blob, overlapping), the loop of submit_block renders every byte as
    two hex digits: the text decodes to as many bytes as the blob has, and a
    byte whose index lies in neither four-byte window is the blob's own. *)
Theorem submit_block_hex_total (blob : list byte) (X Y N E : Z) :
  exists bytes,
    hex_decode (submit_block_hex blob 0 X Y N E) = Some bytes
    /\ length bytes = length blob
    /\ forall (k : nat) (b : byte),
         blob !! k = Some b ->
         X = 0 \/ Z.of_nat k < X \/ u64 (X + 4) <= Z.of_nat k ->
         Y = 0 \/ Z.of_nat k < Y \/ u64 (Y + 4) <= Z.of_nat k ->
         bytes !! k = Some b.
Proof.
  destruct (submit_block_hex_total_from blob X Y 0 N E) as (bytes & H1 & H2 & H3).
  exists bytes. split; [exact H1 |]. split; [exact H2 |].
  intros k b Hk HX HY. apply H3; [exact Hk | |]; rewrite Z.add_0_l; assumption.
Qed.

(** X16: submit_block leaves the coordinator as it is; it sends nothing
    exactly when the pending blob is empty and the block template has no blob
    for the pending template id; otherwise it sends one submit_block request,
    whose text is the fixed prefix, a hex string that decodes to as many
    bytes as the submitted blob has, and the fixed suffix. *)
Theorem submit_block_request (env : Env) (s : p2pool) :
  (submit_block env s).1 = s
  /\ ((submit_block env s).2 = [] <->
      SubmitBlockData.blob (m_submitBlockData s) = []
      /\ (get_block_template_blob env
            (SubmitBlockData.template_id (m_submitBlockData s))).1.1 = [])
  /\ ((submit_block env s).2 = []
      \/ exists blob hex bytes,
           (submit_block env s).2
           = [Rpc_submit_block
                (append submit_request_prefix (append hex submit_request_suffix))]
           /\ hex_decode hex = Some bytes
           /\ length bytes = length blob
           /\ blob <> []
           /\ (blob = SubmitBlockData.blob (m_submitBlockData s)
               \/ SubmitBlockData.blob (m_submitBlockData s) = []
                  /\ blob = (get_block_template_blob env
                               (SubmitBlockData.template_id (m_submitBlockData s))).1.1)).
Proof.
  unfold submit_block, submit_block_source.
  destruct (SubmitBlockData.blob (m_submitBlockData s)) as [| b0 pending] eqn:Ep.
  - destruct (get_block_template_blob env _) as [[blob X] Y] eqn:Et.
    destruct blob as [| b1 rest]; cbn [fst snd].
    + split; [reflexivity |]. split; [tauto |]. left. reflexivity.
    + split; [reflexivity |]. split.
      * split; [discriminate | intros [_ H]; discriminate H].
      * right.
        destruct (submit_block_hex_total_from (b1 :: rest) X Y 0
                    (SubmitBlockData.nonce (m_submitBlockData s))
                    (SubmitBlockData.extra_nonce (m_submitBlockData s)))
          as (bytes & Hd & Hl & _).
        exists (b1 :: rest). eexists. exists bytes.
        split; [reflexivity |]. split; [exact Hd |]. split; [exact Hl |].
        split; [discriminate |]. right. split; reflexivity.
  - cbn [fst snd]. split; [reflexivity |]. split.
    + split; [discriminate | intros [H _]; discriminate H].
    + right.
      destruct (submit_block_hex_total_from (b0 :: pending) 0 0 0
                  (SubmitBlockData.nonce (m_submitBlockData s))
                  (SubmitBlockData.extra_nonce (m_submitBlockData s)))
        as (bytes & Hd & Hl & _).
      exists (b0 :: pending). eexists. exists bytes.
      split; [reflexivity |]. split; [exact Hd |]. split; [exact Hl |].
      split; [discriminate |]. left. reflexivity.
Qed.

(** ** The daemon's reply to submit_block *)


(** X18: when the reply has an [error] object, what that object holds is
    never read: the logged message is the string under [message] at the top
    level of the reply, and without one it is the text for an unknown error,
    whatever message the error object carries. *)
Theorem submit_block_reply_error_message (is_external : bool)
    (doc : list (string * json)) (err : list (string * json)) :
  find_member "error" doc = Some (J_object err) ->
  (submit_block_reply is_external (Some (J_object doc))).1
    = (if is_external then LOGWARN else LOGERR)
  /\ (forall m, find_member "message" doc = Some (J_string m) ->
        (submit_block_reply is_external (Some (J_object doc))).2 = Daemon_error m)
  /\ ((forall m, find_member "message" doc <> Some (J_string m)) ->
        (submit_block_reply is_external (Some (J_object doc))).2
        = Daemon_error "unknown error").
Proof.
  intros Herr. unfold submit_block_reply. rewrite Herr. cbn [fst snd].
  split; [reflexivity |]. split.
  - intros m ->. reflexivity.
  - intros Hno. destruct (find_member "message" doc) as [[| | | m | |] |];
      try reflexivity.
    exfalso. apply (Hno m). reflexivity.
Qed.

Lemma submit_block_reply_error_message_witness :
  (submit_block_reply false
     (Some (J_object
              [("id"%string, J_string "0");
               ("error"%string,
                J_object [("code"%string, J_number (-7));
                          ("message"%string, J_string "Block not accepted")])]))).2
  = Daemon_error "unknown error".
Proof.
  apply (submit_block_reply_error_message false _
           [("code"%string, J_number (-7));
            ("message"%string, J_string "Block not accepted")]).
  - reflexivity.
  - intros m. discriminate.
Defined.

(** ** The bootstrap decisions *)

(** X19: parse_get_info_rpc goes on to get_version exactly when the daemon
    is neither busy syncing nor unsynchronized and the last of the flags
    mainnet, testnet, stagenet that is set names the side chain's network (or
    none is set and the side chain's network is the invalid one); it aborts
    exactly when the daemon is ready and names another network, and asks
    again in every other case. *)
Theorem parse_get_info_rpc_decision (sidechain_network : NetworkType)
    (reply : option (option daemon_info)) :
  (parse_get_info_rpc sidechain_network reply = Proceed <->
   exists info,
     reply = Some (Some info)
     /\ busy_syncing info = false /\ synchronized info = true
     /\ match sidechain_network with
        | Stagenet => stagenet info = true
        | Testnet => testnet info = true /\ stagenet info = false
        | Mainnet => mainnet info = true /\ testnet info = false
                     /\ stagenet info = false
        | Invalid => mainnet info = false /\ testnet info = false
                     /\ stagenet info = false
        end)
  /\ (parse_get_info_rpc sidechain_network reply = Abort <->
      exists info,
        reply = Some (Some info)
        /\ busy_syncing info = false /\ synchronized info = true
        /\ monero_network info <> sidechain_network).
Proof.
  unfold parse_get_info_rpc.
  destruct reply as [[info |] |];
    try (split; split; [discriminate | intros (? & H & _); discriminate H
                       | discriminate | intros (? & H & _); discriminate H]).
  destruct info as [busy sync m t g]. unfold monero_network. cbn.
  destruct busy, sync; cbn;
    try (split; split; [discriminate
                       | intros (? & H & Hb & Hs & _); injection H as <-;
                         cbn in Hb, Hs; congruence
                       | discriminate
                       | intros (? & H & Hb & Hs & _); injection H as <-;
                         cbn in Hb, Hs; congruence]).
  destruct m, t, g, sidechain_network; cbn;
    (split; split;
     [ first [ discriminate
             | intros _; eexists; (split; [reflexivity |]); cbn; tauto ]
     | first [ reflexivity
             | intros (? & H & _ & _ & Hn); injection H as <-;
               cbn in Hn; exfalso; intuition congruence ]
     | first [ discriminate
             | intros _; eexists; (split; [reflexivity |]); cbn;
               repeat split; discriminate ]
     | first [ reflexivity
             | intros (? & H & _ & _ & Hn); injection H as <-;
               cbn in Hn; exfalso; apply Hn; reflexivity ] ]).
Qed.

Lemma version_split version :
  0 <= version ->
  version = 65536 * version_hi version + version_lo version
  /\ 0 <= version_lo version < 65536 /\ 0 <= version_hi version.
Proof.
  intros H. unfold version_hi, version_lo.
  rewrite Z.shiftr_div_pow2 by lia.
  change 65535 with (Z.ones 16). rewrite Z.land_ones by lia.
  change (2 ^ 16) with 65536.
  pose proof (Z.div_mod version 65536 ltac:(lia)).
  pose proof (Z.mod_pos_bound version 65536 ltac:(lia)).
  pose proof (Z.div_pos version 65536 H ltac:(lia)).
  lia.
Qed.

(** X20: for a well-formed reply with status OK, parse_get_version_rpc goes
    on exactly when the version, read as major.minor the way the abort
    message prints it, is at least 3.8, and aborts otherwise; a reply with
    another status is asked for again. *)
Theorem parse_get_version_rpc_decision (status : string) (version : Z) :
  0 <= version ->
  (parse_get_version_rpc (Some (Some (status, version))) = Proceed <->
   status = "OK"%string
   /\ (3 < version_hi version
       \/ version_hi version = 3 /\ 8 <= version_lo version))
  /\ (parse_get_version_rpc (Some (Some (status, version))) = Abort <->
      status = "OK"%string
      /\ (version_hi version < 3
          \/ version_hi version = 3 /\ version_lo version < 8))
  /\ (status <> "OK"%string ->
      parse_get_version_rpc (Some (Some (status, version))) = Retry_in_1_second).
Proof.
  intros Hv. destruct (version_split version Hv) as (Hs & Hlo & Hhi).
  unfold parse_get_version_rpc.
  destruct (String.eqb_spec status "OK") as [-> | Hne]; cbn [negb].
  - destruct (Z.ltb_spec version 196616) as [Hlt | Hge].
    + split; [split; [discriminate | intros [_ H]; exfalso; lia] |].
      split; [split; [intros _; split; [reflexivity | lia] | reflexivity] |].
      intros H. exfalso. apply H. reflexivity.
    + split; [split; [intros _; split; [reflexivity | lia] | reflexivity] |].
      split; [split; [discriminate | intros [_ H]; exfalso; lia] |].
      intros H. exfalso. apply H. reflexivity.
  - split; [split; [discriminate | intros [H _]; contradiction] |].
    split; [split; [discriminate | intros [H _]; contradiction] |].
    reflexivity.
Qed.

Lemma parse_get_version_rpc_decision_witness :
  parse_get_version_rpc (Some (Some ("OK"%string, 196615))) = Abort <->
  "OK"%string = "OK"%string
  /\ (version_hi 196615 < 3 \/ version_hi 196615 = 3 /\ version_lo 196615 < 8).
Proof.
  apply (parse_get_version_rpc_decision "OK" 196615). lia.
Defined.

(** ** Before the servers are started *)

Lemma api_update_block_found_servers env data :
  emits_only (fun e => needs_servers e = false) (api_update_block_found env data).
Proof.
  unfold api_update_block_found.
  apply emits_only_and_then; [apply emits_only_emit; reflexivity |].
  intros s. destruct (m_api s); cbn [negb]; [| constructor].
  match goal with
  | |- context [(?a >>> ?b) ?x] =>
      assert (H : Forall (fun e => needs_servers e = false) ((a >>> b) x).2)
        by (apply emits_only_and_then;
            [apply emits_only_emit; reflexivity
            | apply emits_only_api_update_stats_mod; reflexivity]);
      destruct ((a >>> b) x) as [s2 t]
  end.
  cbn [snd] in *. apply Forall_app. split; [| exact H].
  destruct data as [d |]; [| constructor].
  destruct (get_difficulty_at_height _ s); [| constructor].
  destruct (found_blocks_writable env); repeat constructor.
Qed.

Lemma update_block_template_servers env s :
  m_serversStarted s = false ->
  Forall (fun e => needs_servers e = false) (update_block_template env s).2.
Proof.
  intros Hs. rewrite update_block_template_run, Hs. cbn [snd app].
  apply Forall_app. split; [destruct (m_updateSeed s); repeat constructor |].
  constructor; [reflexivity |].
  apply emits_only_api_update_pool_stats; reflexivity.
Qed.

Lemma handle_miner_data_servers W env data s :
  m_serversStarted s = false ->
  Forall (fun e => needs_servers e = false) (handle_miner_data W env data s).2.
Proof.
  intros Hs.
  assert (Hf : m_serversStarted (handle_miner_data W env data s).1
               = m_serversStarted s)
    by (apply (frame_handle_miner_data m_serversStarted); intros; reflexivity).
  revert Hf. rewrite handle_miner_data_run. cbn [fst snd]. intros ->.
  rewrite Hs, app_nil_r. constructor; [reflexivity |].
  destruct (is_main_thread env); [| repeat constructor].
  apply update_block_template_servers.
  rewrite (frame_update_median_timestamp m_serversStarted) by (intros; reflexivity).
  change (m_serversStarted (set_updateSeed ?b (set_minerData ?d ?x)))
    with (m_serversStarted x).
  rewrite (frame_cleanup m_serversStarted) by (intros; reflexivity).
  exact Hs.
Qed.

Lemma handle_chain_main_servers W env data sidechain_id s :
  Forall (fun e => needs_servers e = false)
         (handle_chain_main W env data sidechain_id s).2.
Proof.
  rewrite handle_chain_main_run. cbn [snd]. apply Forall_app. split.
  - unfold chain_main_side_chain.
    destruct (sidechain_id =? 0); [constructor |].
    destruct (sidechain_has_block env sidechain_id).
    + apply api_update_block_found_servers.
    + repeat constructor.
  - apply emits_only_api_update_network_stats; reflexivity.
Qed.

Lemma on_block_headers_range_servers W env parsed s :
  Forall (fun e => needs_servers e = false)
         (on_block_headers_range W env parsed s).2.
Proof.
  unfold on_block_headers_range.
  destruct (parse_block_headers_range parsed s) as [n s1].
  destruct (n =? BLOCK_HEADERS_REQUIRED); [| constructor].
  revert s1. apply emits_only_and_then; [apply emits_only_modify |].
  intros s0. destruct (m_serversStarted s0); [constructor |].
  apply emits_only_api_update_network_stats; reflexivity.
Qed.

Lemma load_found_blocks_servers env s :
  Forall (fun e => needs_servers e = false) (load_found_blocks env s).2.
Proof.
  unfold load_found_blocks. destruct (m_api s); cbn [negb]; [| constructor].
  destruct (found_blocks_file env) as [tokens |]; [| constructor].
  apply emits_only_and_then;
    [apply emits_only_modify | apply api_update_block_found_servers].
Qed.

(** X21: as long as the servers have not been started, no event notifies
    the stratum server or asks the daemon again for a single block header;
    once they are started, every update of the block template notifies the
    stratum server. *)
Theorem servers_gate (W : nat) (env : Env) (s : p2pool) :
  (m_serversStarted s = false ->
   forall ev e, e ∈ (run_event W env ev s).2 -> needs_servers e = false)
  /\ (m_serversStarted s = true ->
      Stratum_on_block ∈ (update_block_template env s).2).
Proof.
  split.
  - intros Hs ev. apply Forall_forall.
    destruct ev as [tx | data | data sid | t n e | blob | | | parsed | parsed |];
      cbn [run_event].
    + unfold handle_tx. apply emits_only_if; [apply emits_only_skip |].
      apply emits_only_and_then;
        [apply emits_only_emit; reflexivity | apply emits_only_modify].
    + apply handle_miner_data_servers. exact Hs.
    + apply handle_chain_main_servers.
    + unfold submit_block_async. apply emits_only_and_then;
        [apply emits_only_modify | apply emits_only_emit; reflexivity].
    + unfold submit_block_async_blob. apply emits_only_and_then;
        [apply emits_only_modify | apply emits_only_emit; reflexivity].
    + unfold submit_block. destruct (submit_block_source env _) as [[[b x] y] |];
        repeat constructor.
    + apply update_block_template_servers. exact Hs.
    + constructor.
    + apply on_block_headers_range_servers.
    + apply load_found_blocks_servers.
  - intros Hs. rewrite update_block_template_run, Hs. cbn [snd].
    apply elem_of_app. right. right. left.
Qed.

(** ** The snapshot of pool/blocks *)

Lemma pool_blocks_snapshots_app t1 t2 :
  pool_blocks_snapshots (t1 ++ t2)
  = pool_blocks_snapshots t1 ++ pool_blocks_snapshots t2.
Proof. unfold pool_blocks_snapshots. apply omap_app. Qed.

Lemma api_update_stats_mod_no_snapshot env s :
  pool_blocks_snapshots (api_update_stats_mod env s).2 = [].
Proof.
  rewrite api_update_stats_mod_trace.
  destruct (negb (m_api s)); [reflexivity |].
  destruct (difficulty_lt _ _); reflexivity.
Qed.

Lemma reverse_last_51 {A : Type} (l : list A) :
  reverse (drop (length l - Nat.min (length l) 51) l) = take 51 (reverse l).
Proof.
  rewrite reverse_drop.
  destruct (le_lt_dec (length l) 51) as [Hle | Hgt].
  - rewrite Nat.min_l by exact Hle.
    rewrite !take_ge; [reflexivity | |]; rewrite length_reverse; lia.
  - rewrite Nat.min_r by lia. f_equal. lia.
Qed.

(** X22: with the API enabled, api_update_block_found publishes exactly one
    snapshot of pool/blocks: the found blocks as they are in memory after the
    call, newest first and cut to 51; a block found in this call heads it,
    with the notification's height and id, the current time and the side
    chain's total hashes. *)
Theorem api_update_block_found_snapshot (env : Env) (data : option ChainMain.t)
    (s : p2pool) :
  m_api s = true ->
  pool_blocks_snapshots (api_update_block_found env data s).2
  = [take 51 (reverse (m_foundBlocks (api_update_block_found env data s).1))]
  /\ (length (take 51 (reverse (m_foundBlocks (api_update_block_found env data s).1)))
      <= 51)%nat
  /\ forall d, data = Some d ->
       exists b older,
         take 51 (reverse (m_foundBlocks (api_update_block_found env data s).1))
         = b :: older
         /\ FoundBlock.height b = ChainMain.height d
         /\ FoundBlock.id b = ChainMain.id d
         /\ FoundBlock.timestamp b = now env
         /\ FoundBlock.total_hashes b = sidechain_total_hashes env.
Proof.
  intros Hapi. split; [| split].
  - rewrite api_update_block_found_foundBlocks, Hapi.
    unfold api_update_block_found. rewrite and_then_run.
    change ((emit Clear_crypto_cache s).1) with s.
    change ((emit Clear_crypto_cache s).2) with [Clear_crypto_cache].
    rewrite Hapi. simpl negb. cbv iota.
    rewrite prepend_trace_run, and_then_run.
    cbn [fst snd emit].
    rewrite !pool_blocks_snapshots_app, api_update_stats_mod_no_snapshot.
    rewrite reverse_last_51.
    destruct data as [d |]; cbn [from_option];
      [destruct (get_difficulty_at_height (ChainMain.height d) s);
       [destruct (found_blocks_writable env) |] |];
      cbn; rewrite ?app_nil_r; reflexivity.
  - rewrite length_take. lia.
  - intros d ->. rewrite api_update_block_found_foundBlocks, Hapi.
    cbn [from_option]. rewrite reverse_app. cbn [reverse rev_append app].
    eexists. eexists. split; [reflexivity |]. repeat split.
Qed.

Lemma api_update_block_found_snapshot_witness :
  pool_blocks_snapshots
    (api_update_block_found example_env (Some (example_header 2500000)) (p2pool_init true)).2
  = [take 51 (reverse (m_foundBlocks
                         (api_update_block_found example_env (Some (example_header 2500000))
                            (p2pool_init true)).1))].
Proof.
  apply (api_update_block_found_snapshot example_env (Some (example_header 2500000))
           (p2pool_init true)).
  reflexivity.
Defined.

(** ** Looking up the headers of a ranged reply *)

Lemma store_headers_app l1 l2 s :
  store_headers (l1 ++ l2) s = store_headers l2 (store_headers l1 s).
Proof. unfold store_headers. apply foldl_app. Qed.

Lemma store_headers_by_height_other l : forall s h,
  (forall c, Some c ∈ l -> ChainMain.height c <> h) ->
  m_mainchainByHeight (store_headers l s) !! h = m_mainchainByHeight s !! h.
Proof.
  induction l as [| o l IH]; intros s h Hl; [reflexivity |].
  change (store_headers (o :: l) s)
    with (store_headers l (from_option (fun c => store_header c s) s o)).
  rewrite IH by (intros c Hc; apply Hl; right; exact Hc).
  destruct o as [c |]; [| reflexivity].
  cbn. apply lookup_insert_ne, Hl. left.
Qed.

Lemma store_headers_by_hash_other l : forall s k,
  (forall c, Some c ∈ l -> ChainMain.id c <> k) ->
  m_mainchainByHash (store_headers l s) !! k = m_mainchainByHash s !! k.
Proof.
  induction l as [| o l IH]; intros s k Hl; [reflexivity |].
  change (store_headers (o :: l) s)
    with (store_headers l (from_option (fun c => store_header c s) s o)).
  rewrite IH by (intros c Hc; apply Hl; right; exact Hc).
  destruct o as [c |]; [| reflexivity].
  cbn. apply lookup_insert_ne, Hl. left.
Qed.

(** X23: parse_block_headers_range counts the headers that parse, and after
    it the last header of the reply with a given height answers
    get_difficulty_at_height for that height, the last header with a given
    hash answers chainmain_get_by_hash for that hash, and heights and hashes
    that no parsed header carries are answered as before. *)
Theorem parse_block_headers_range_lookup (l : list (option ChainMain.t))
    (s : p2pool) :
  (parse_block_headers_range (Some l) s).1
    = u32 (Z.of_nat (length (List.filter (fun o => bool_decide (is_Some o)) l)))
  /\ (forall l1 c l2,
        l = l1 ++ Some c :: l2 ->
        (forall c', Some c' ∈ l2 -> ChainMain.height c' <> ChainMain.height c) ->
        get_difficulty_at_height (ChainMain.height c)
          (parse_block_headers_range (Some l) s).2
        = Some (ChainMain.difficulty c))
  /\ (forall l1 c l2,
        l = l1 ++ Some c :: l2 ->
        (forall c', Some c' ∈ l2 -> ChainMain.id c' <> ChainMain.id c) ->
        chainmain_get_by_hash (ChainMain.id c)
          (parse_block_headers_range (Some l) s).2
        = Some c)
  /\ (forall h,
        (forall c, Some c ∈ l -> ChainMain.height c <> h) ->
        get_difficulty_at_height h (parse_block_headers_range (Some l) s).2
        = get_difficulty_at_height h s)
  /\ (forall k,
        (forall c, Some c ∈ l -> ChainMain.id c <> k) ->
        chainmain_get_by_hash k (parse_block_headers_range (Some l) s).2
        = chainmain_get_by_hash k s).
Proof.
  cbn [parse_block_headers_range fst snd].
  split; [| split; [| split; [| split]]].
  - f_equal. f_equal. induction l as [| [c |] l IH]; cbn; congruence.
  - intros l1 c l2 -> Hl2. unfold get_difficulty_at_height.
    rewrite store_headers_app.
    change (store_headers (Some c :: l2) ?x)
      with (store_headers l2 (store_header c x)).
    rewrite store_headers_by_height_other by exact Hl2.
    cbn. rewrite lookup_insert_eq. reflexivity.
  - intros l1 c l2 -> Hl2. unfold chainmain_get_by_hash.
    rewrite store_headers_app.
    change (store_headers (Some c :: l2) ?x)
      with (store_headers l2 (store_header c x)).
    rewrite store_headers_by_hash_other by exact Hl2.
    cbn. apply lookup_insert_eq.
  - intros h Hl. unfold get_difficulty_at_height.
    rewrite store_headers_by_height_other by exact Hl. reflexivity.
  - intros k Hl. unfold chainmain_get_by_hash.
    apply store_headers_by_hash_other. exact Hl.
Qed.

(** ** The first miner data of the bootstrap *)

Lemma parse_get_miner_data_rpc_run W env r s :
  parse_get_miner_data_rpc W env (Some r) s
  = ((handle_miner_data W env (miner_data_of_rpc r) s).1,
     (handle_miner_data W env (miner_data_of_rpc r) s).2,
     download_block_headers (rpc_height r)).
Proof.
  unfold parse_get_miner_data_rpc.
  destruct (handle_miner_data W env (miner_data_of_rpc r) s). reflexivity.
Qed.

Lemma backlog_of_rpc_spec txs tx :
  tx ∈ backlog_of_rpc txs <->
  exists id weight fee,
    Some (id, weight, fee) ∈ default [] txs
    /\ tx = TxMempoolData.mk id 0 weight fee.
Proof.
  unfold backlog_of_rpc. rewrite list_elem_of_omap. split.
  - intros ([[[id weight] fee] |] & Hin & Heq); [| discriminate Heq].
    injection Heq as <-. exists id, weight, fee. split; [exact Hin | reflexivity].
  - intros (id & weight & fee & Hin & ->).
    exists (Some (id, weight, fee)). split; [exact Hin | reflexivity].
Qed.

(** X24: a get_miner_data reply that parses is handled like a miner-data
    notification and followed by the three header requests of
    download_block_headers for its height; while the servers are not started
    these are the only header requests.  The mempool receives, as the first
    effect, every backlog entry that parsed, with blob size 0 and without the
    zero-weight and zero-fee check that handle_tx applies; a reply that does
    not parse changes nothing and requests nothing. *)
Theorem parse_get_miner_data_rpc_bootstrap (W : nat) (env : Env)
    (r : miner_data_rpc) (s : p2pool) :
  m_serversStarted s = false ->
  (parse_get_miner_data_rpc W env (Some r) s).2
    = download_block_headers (rpc_height r)
  /\ (exists rest,
        (parse_get_miner_data_rpc W env (Some r) s).1.2
        = Mempool_swap (backlog_of_rpc (rpc_tx_backlog r)) :: rest
        /\ Forall (fun e => needs_servers e = false) rest)
  /\ (forall tx, tx ∈ backlog_of_rpc (rpc_tx_backlog r) <->
        exists id weight fee,
          Some (id, weight, fee) ∈ default [] (rpc_tx_backlog r)
          /\ tx = TxMempoolData.mk id 0 weight fee)
  /\ MinerData.height (m_minerData (parse_get_miner_data_rpc W env (Some r) s).1.1)
     = rpc_height r
  /\ m_serversStarted (parse_get_miner_data_rpc W env (Some r) s).1.1 = false
  /\ parse_get_miner_data_rpc W env None s = (s, [], []).
Proof.
  intros Hs. rewrite parse_get_miner_data_rpc_run. cbn [fst snd].
  split; [reflexivity |]. split; [| split; [| split; [| split]]].
  - pose proof (handle_miner_data_servers W env (miner_data_of_rpc r) s Hs) as HF.
    revert HF. rewrite handle_miner_data_run. cbn [snd].
    intros HF. apply Forall_cons in HF as [_ HF].
    eexists. split; [reflexivity | exact HF].
  - apply backlog_of_rpc_spec.
  - destruct (handle_miner_data_minerData W env (miner_data_of_rpc r) s)
      as [median ->].
    reflexivity.
  - rewrite <- Hs.
    apply (frame_handle_miner_data m_serversStarted); intros; reflexivity.
  - reflexivity.
Qed.

Lemma parse_get_miner_data_rpc_bootstrap_witness :
  m_serversStarted (p2pool_init true) = false
  /\ (parse_get_miner_data_rpc 60 example_env
        (Some (mk_miner_data_rpc 14 2500000 11 12 300000 1000 (mk_difficulty 7 0)
                 (Some [Some (21, 0, 5); None])))
        (p2pool_init true)).2
     = download_block_headers 2500000.
Proof.
  split; [reflexivity |].
  apply (parse_get_miner_data_rpc_bootstrap 60 example_env
           (mk_miner_data_rpc 14 2500000 11 12 300000 1000 (mk_difficulty 7 0)
              (Some [Some (21, 0, 5); None]))
           (p2pool_init true)).
  reflexivity.
Defined.

(** ** The tip entry that telemetry creates *)

Lemma by_hash_index_spec key s :
  m_mainchainByHeight (by_hash_index key s).1 = m_mainchainByHeight s
  /\ (by_hash_index key s).2 = default ChainMain.default (m_mainchainByHash s !! key)
  /\ m_mainchainByHash (by_hash_index key s).1 !! key
     = Some (default ChainMain.default (m_mainchainByHash s !! key))
  /\ forall k', k' <> key ->
       m_mainchainByHash (by_hash_index key s).1 !! k' = m_mainchainByHash s !! k'.
Proof.
  unfold by_hash_index. destruct (m_mainchainByHash s !! key) as [c |] eqn:E; cbn.
  - split; [reflexivity |]. split; [reflexivity |]. split; [exact E |].
    reflexivity.
  - split; [reflexivity |]. split; [reflexivity |].
    split; [apply lookup_insert_eq |].
    intros k' Hk. apply lookup_insert_ne. congruence.
Qed.

Lemma by_hash_index_present key s c :
  m_mainchainByHash s !! key = Some c -> by_hash_index key s = (s, c).
Proof. intros E. unfold by_hash_index. rewrite E. reflexivity. Qed.

Lemma api_update_stats_mod_state env s :
  (api_update_stats_mod env s).1
  = if m_api s then (by_hash_index (MinerData.prev_id (m_minerData s)) s).1 else s.
Proof.
  unfold api_update_stats_mod. destruct (m_api s); cbn [negb]; [| reflexivity].
  destruct (by_hash_index _ s) as [s1 tip]. cbn [fst].
  destruct (difficulty_lt _ _); reflexivity.
Qed.

Lemma api_update_network_stats_run env s :
  m_api s = true ->
  api_update_network_stats env s
  = ((by_hash_index (MinerData.prev_id (m_minerData s)) s).1,
     Api_network_stats
       (default ChainMain.default
          (m_mainchainByHash s !! MinerData.prev_id (m_minerData s)))
     :: (api_update_stats_mod env
           (by_hash_index (MinerData.prev_id (m_minerData s)) s).1).2).
Proof.
  intros Hapi. unfold api_update_network_stats. rewrite Hapi. cbn [negb].
  destruct (by_hash_index_spec (MinerData.prev_id (m_minerData s)) s)
    as (_ & Htip & Hkey & _).
  assert (Hs1 : m_api (by_hash_index (MinerData.prev_id (m_minerData s)) s).1 = true
                /\ m_minerData (by_hash_index (MinerData.prev_id (m_minerData s)) s).1
                   = m_minerData s).
  { split.
    - rewrite (frame_by_hash_index m_api) by (intros; reflexivity). exact Hapi.
    - apply (frame_by_hash_index m_minerData). intros; reflexivity. }
  destruct (by_hash_index _ s) as [s1 tip]. cbn [fst snd] in *.
  destruct Hs1 as [Ha Hm].
  rewrite and_then_run. cbn [fst snd emit app].
  rewrite api_update_stats_mod_state, Ha, Hm.
  rewrite (by_hash_index_present _ _ _ Hkey). cbn [fst].
  rewrite Htip. reflexivity.
Qed.

(** X25: with the API enabled, publishing network/stats, pool/stats or
    stats_mod leaves the by-height map alone but makes the by-hash map hold
    an entry under the previous-block hash of the current miner data: the
    entry that was there, or, when there was none, a new all-zero entry;
    every other hash is answered as before, and network/stats publishes that
    entry first of all. *)
Theorem telemetry_creates_tip_entry (env : Env) (s : p2pool) :
  m_api s = true ->
  (forall a,
     a = api_update_stats_mod env \/ a = api_update_network_stats env
     \/ a = api_update_pool_stats env ->
     m_mainchainByHeight (a s).1 = m_mainchainByHeight s
     /\ chainmain_get_by_hash (MinerData.prev_id (m_minerData s)) (a s).1
        = Some (default ChainMain.default
                  (chainmain_get_by_hash (MinerData.prev_id (m_minerData s)) s))
     /\ forall k, k <> MinerData.prev_id (m_minerData s) ->
          chainmain_get_by_hash k (a s).1 = chainmain_get_by_hash k s)
  /\ exists rest,
       (api_update_network_stats env s).2
       = Api_network_stats
           (default ChainMain.default
              (chainmain_get_by_hash (MinerData.prev_id (m_minerData s)) s))
         :: rest.
Proof.
  intros Hapi. unfold chainmain_get_by_hash. split.
  - assert (Hmod : (api_update_stats_mod env s).1
                   = (by_hash_index (MinerData.prev_id (m_minerData s)) s).1)
      by (rewrite api_update_stats_mod_state, Hapi; reflexivity).
    destruct (by_hash_index_spec (MinerData.prev_id (m_minerData s)) s)
      as (Hh & _ & Hkey & Hother).
    intros a [-> | [-> | ->]].
    + rewrite Hmod. auto.
    + rewrite (api_update_network_stats_run env s Hapi). cbn [fst]. auto.
    + unfold api_update_pool_stats. rewrite Hapi. cbn [negb].
      rewrite and_then_run. cbn [fst emit]. rewrite Hmod. auto.
  - rewrite (api_update_network_stats_run env s Hapi). cbn [snd].
    eexists. reflexivity.
Qed.

Lemma telemetry_creates_tip_entry_witness :
  m_api (p2pool_init true) = true
  /\ exists rest,
       (api_update_network_stats example_env (p2pool_init true)).2
       = Api_network_stats
           (default ChainMain.default
              (chainmain_get_by_hash
                 (MinerData.prev_id (m_minerData (p2pool_init true)))
                 (p2pool_init true)))
         :: rest.
Proof.
  split; [reflexivity |].
  apply (telemetry_creates_tip_entry example_env (p2pool_init true)).
  reflexivity.
Defined.

(** ** A coordinator built without the API *)

Lemma on_block_headers_range_api W env parsed s :
  m_api (on_block_headers_range W env parsed s).1 = m_api s.
Proof.
  unfold on_block_headers_range.
  assert (Hs : m_api (parse_block_headers_range parsed s).2 = m_api s).
  { destruct parsed as [l |]; [| reflexivity].
    apply (frame_store_headers m_api). intros; reflexivity. }
  destruct (parse_block_headers_range parsed s) as [n s1]. cbn [fst snd] in *.
  destruct (n =? BLOCK_HEADERS_REQUIRED); [| exact Hs].
  rewrite and_then_run. cbn [fst modify].
  destruct (m_serversStarted (update_median_timestamp W s1)).
  - cbn [fst]. rewrite (frame_update_median_timestamp m_api) by (intros; reflexivity).
    exact Hs.
  - rewrite (frame_api_update_network_stats m_api) by (intros; reflexivity).
    change (m_api (set_serversStarted true ?x)) with (m_api x).
    rewrite (frame_update_median_timestamp m_api) by (intros; reflexivity).
    exact Hs.
Qed.

Lemma run_event_api W env ev s : m_api (run_event W env ev s).1 = m_api s.
Proof.
  destruct ev; simpl.
  - apply (frame_handle_tx m_api); intros; reflexivity.
  - apply (frame_handle_miner_data m_api); intros; reflexivity.
  - apply (frame_handle_chain_main m_api); intros; reflexivity.
  - reflexivity.
  - reflexivity.
  - apply (frame_submit_block m_api).
  - apply (frame_update_block_template m_api); intros; reflexivity.
  - destruct parsed; reflexivity.
  - apply on_block_headers_range_api.
  - apply (frame_load_found_blocks m_api); intros; reflexivity.
Qed.

Lemma quiet_run_event W env ev : quiet_without_api (run_event W env ev).
Proof.
  destruct ev; simpl.
  - apply quiet_handle_tx.
  - apply quiet_handle_miner_data.
  - apply quiet_handle_chain_main.
  - unfold submit_block_async. apply quiet_and_then;
      [apply quiet_modify; auto | apply quiet_emit; reflexivity].
  - unfold submit_block_async_blob. apply quiet_and_then;
      [apply quiet_modify; auto | apply quiet_emit; reflexivity].
  - intros s0 H0. unfold submit_block.
    destruct (submit_block_source env (m_submitBlockData s0)) as [[[b x] y] |];
      simpl; repeat split; auto.
  - apply quiet_update_block_template.
  - intros s0 H0. destruct parsed; simpl; auto.
  - apply quiet_on_block_headers_range.
  - apply quiet_load_found_blocks.
Qed.

Lemma reachable_api_foundBlocks W s :
  reachable W s -> m_api s = false -> m_foundBlocks s = [].
Proof.
  induction 1 as [api | env ev s Hr IH]; intros Hapi; [reflexivity |].
  rewrite run_event_api in Hapi.
  destruct (quiet_run_event W env ev s Hapi) as (_ & -> & _).
  apply IH. exact Hapi.
Qed.

(** X26: no event changes whether the coordinator has the telemetry API,
    and a coordinator built without it never holds a found block: in every
    state it can reach the list of found blocks is empty, and stays empty
    after any further event. *)
Theorem found_blocks_need_api (W : nat) (s : p2pool) :
  reachable W s ->
  (forall env ev, m_api (run_event W env ev s).1 = m_api s)
  /\ (m_api s = false ->
      m_foundBlocks s = []
      /\ forall env ev, m_foundBlocks (run_event W env ev s).1 = []).
Proof.
  intros Hr. split; [intros env ev; apply run_event_api |].
  intros Hapi. split; [apply (reachable_api_foundBlocks W s Hr Hapi) |].
  intros env ev.
  apply (reachable_api_foundBlocks W _ (reachable_step W env ev s Hr)).
  rewrite run_event_api. exact Hapi.
Qed.

Lemma found_blocks_need_api_witness :
  (forall env ev,
     m_api (run_event 60 env ev
              (run_event 60 example_sidechain_env
                 (NewChainMain (example_header 12) 5) (p2pool_init false)).1).1
     = m_api (run_event 60 example_sidechain_env
                (NewChainMain (example_header 12) 5) (p2pool_init false)).1)
  /\ (m_api (run_event 60 example_sidechain_env
               (NewChainMain (example_header 12) 5) (p2pool_init false)).1 = false ->
      m_foundBlocks (run_event 60 example_sidechain_env
                       (NewChainMain (example_header 12) 5) (p2pool_init false)).1
      = []
      /\ forall env ev,
           m_foundBlocks
             (run_event 60 env ev
                (run_event 60 example_sidechain_env
                   (NewChainMain (example_header 12) 5) (p2pool_init false)).1).1
           = []).
Proof.
  apply (found_blocks_need_api 60).
  apply reachable_step, reachable_init.
Defined.

(** ** The headers handle_miner_data asks for again *)

Lemma update_block_template_no_header_request env s h :
  Rpc_get_block_header_by_height h ∉ (update_block_template env s).2.
Proof.
  intros Hin.
  pose proof (emits_only_update_block_template
                (fun e => match e with
                          | Rpc_get_block_header_by_height _ => False
                          | _ => True
                          end)
                (fun _ => I) (fun _ => I) (fun _ => I) (fun _ => I) I env s) as HF.
  rewrite Forall_forall in HF. exact (HF _ Hin).
Qed.

Lemma miner_data_insert_lookup data s h :
  1 <= MinerData.height data < 2 ^ 64 ->
  h <> MinerData.height data -> h <> MinerData.height data - 1 ->
  m_mainchainByHeight (miner_data_insert data s) !! h = m_mainchainByHeight s !! h.
Proof.
  intros HH H1 H2. unfold miner_data_insert.
  cbn [m_mainchainByHeight set_mainchain].
  rewrite (u64_small (MinerData.height data - 1)) by lia.
  rewrite !lookup_insert_ne by congruence. reflexivity.
Qed.

Lemma miner_data_insert_present data s h :
  1 <= MinerData.height data < 2 ^ 64 ->
  h = MinerData.height data \/ h = MinerData.height data - 1 ->
  is_Some (m_mainchainByHeight (miner_data_insert data s) !! h).
Proof.
  intros HH Hh. unfold miner_data_insert.
  cbn [m_mainchainByHeight set_mainchain].
  rewrite (u64_small (MinerData.height data - 1)) by lia.
  destruct Hh as [-> | ->].
  - rewrite lookup_insert_ne by lia. rewrite lookup_insert_eq. eexists. reflexivity.
  - rewrite lookup_insert_eq. eexists. reflexivity.
Qed.

(** X6: for a notification of height [H] with [0 <= H < 2^64 - 720],
    handle_miner_data asks the daemon again for the header at height [h]
    exactly when the servers are started, [h] is at least 1, lies in
    [H - 719 .. H - 2], and the by-height map held no entry at [h] before the
    call: the entries at [H] and [H - 1] are written by the call itself, and
    the cleanup leaves the rest of that window alone. *)
Theorem handle_miner_data_requests (W : nat) (env : Env) (data : MinerData.t)
    (s : p2pool) (h : Z) :
  0 <= MinerData.height data < 2 ^ 64 - 720 ->
  Rpc_get_block_header_by_height h ∈ (handle_miner_data W env data s).2
  <-> m_serversStarted s = true
      /\ 1 <= h
      /\ MinerData.height data - 720 < h <= MinerData.height data - 2
      /\ m_mainchainByHeight s !! h = None.
Proof.
  intros HH.
  assert (Hst : m_serversStarted (handle_miner_data W env data s).1
                = m_serversStarted s)
    by (apply (frame_handle_miner_data m_serversStarted); intros; reflexivity).
  pose proof (handle_miner_data_by_height W env data s) as Hbh.
  revert Hst Hbh. rewrite handle_miner_data_run. cbn [fst snd].
  intros -> Hbh. rewrite Hbh. clear Hbh.
  rewrite elem_of_cons, elem_of_app.
  assert (Hreq : forall l, Rpc_get_block_header_by_height h
                           ∈ List.map Rpc_get_block_header_by_height l <-> h ∈ l).
  { intros l. split.
    - intros Hin. apply list_elem_of_In, in_map_iff in Hin as (h' & Heq & Hin).
      injection Heq as ->. apply list_elem_of_In. exact Hin.
    - intros Hin. apply list_elem_of_In, in_map. apply list_elem_of_In. exact Hin. }
  assert (Htpl : Rpc_get_block_header_by_height h
                 ∉ ((if is_main_thread env then update_block_template env
                     else emit (Async_send BlockTemplateAsync))
                      (update_median_timestamp W
                         (set_updateSeed true
                            (set_minerData (MinerData.received (now env) data)
                               (cleanup_mainchain_data (MinerData.height data)
                                  (miner_data_insert data s)))))).2).
  { destruct (is_main_thread env).
    - apply update_block_template_no_header_request.
    - cbn [emit snd]. intros Hin. apply list_elem_of_singleton in Hin.
      discriminate Hin. }
  split.
  - intros [Heq | [Hin | Hin]]; [discriminate Heq | contradiction |].
    destruct (m_serversStarted s); [| inversion Hin].
    apply Hreq, missing_heights_window in Hin as (Hnone & Hh1 & Hh2); [| exact HH].
    rewrite cleanup_keeps_lookup in Hnone
      by (left; unfold PRUNE_DISTANCE, BLOCK_HEADERS_REQUIRED;
          rewrite u64_small by lia; lia).
    assert (Hne : h <> MinerData.height data /\ h <> MinerData.height data - 1).
    { split; intros ->.
      - destruct (miner_data_insert_present data s (MinerData.height data)
                    ltac:(lia) ltac:(left; reflexivity)) as [c Hc].
        congruence.
      - destruct (miner_data_insert_present data s (MinerData.height data - 1)
                    ltac:(lia) ltac:(right; reflexivity)) as [c Hc].
        congruence. }
    destruct Hne as [Hne1 Hne2].
    rewrite miner_data_insert_lookup in Hnone by lia.
    split; [reflexivity |]. split; [lia |]. split; [lia | exact Hnone].
  - intros (-> & Hh1 & Hh2 & Hnone). right. right.
    apply Hreq, missing_heights_window; [exact HH |].
    split; [| lia].
    rewrite cleanup_keeps_lookup
      by (left; unfold PRUNE_DISTANCE, BLOCK_HEADERS_REQUIRED;
          rewrite u64_small by lia; lia).
    rewrite miner_data_insert_lookup by lia. exact Hnone.
Qed.

Lemma handle_miner_data_requests_witness :
  Rpc_get_block_header_by_height 998
  ∈ (handle_miner_data 60 example_env example_miner_data
       (set_serversStarted true (example_index [999]))).2.
Proof.
  apply handle_miner_data_requests.
  - cbn. lia.
  - split; [reflexivity |]. split; [lia |]. split; [cbn; lia |].
    vm_compute. reflexivity.
Defined.
